(** * GitLens: annotation state, document tracker, current-line controller,
    results explorer, recent-changes annotations and branch nodes

    A shallow embedding of the event-coordination code of the extension:
    the classes [AnnotationState], [CurrentLineController],
    [DocumentTracker] (with [MissingRevisionTextDocument]) and
    [ResultsExplorer]; and of the decoration loop of
    [RecentChangesAnnotationProvider] and the tree item of [BranchNode].

    Objects that the source mutates in place are modelled by explicit state
    passing; objects that are shared by reference and outlive the reference
    (tracked documents, debounced idle triggers) live in a store and are
    referred to by index.  Asynchronous callbacks (setImmediate, debounce
    timers) are events of a step function whose guards say when the event
    loop may run them. *)

From Stdlib Require Import ZArith Bool List String Lia.
From stdpp Require Import base gmap strings list fin_maps.

Open Scope Z_scope.

(* ===================================================================== *)
(** * AnnotationState *)
(* ===================================================================== *)

Module AnnotationState.

(** The type ['debugging' | 'dirty'] of suspend reasons. *)
Inductive SuspendReason : Set := debugging | dirty.

(** The two private fields of the class; [None] is [undefined]. *)
Record t : Set := mk {
  _enabled : bool;
  _suspendReason : option SuspendReason
}.

(** [constructor(private _enabled: boolean)] *)
Definition new (enabled : bool) : t :=
  {| _enabled := enabled; _suspendReason := None |}.

(** [get suspended()]: [this._suspendReason !== undefined] *)
Definition suspended (s : t) : bool :=
  match _suspendReason s with
  | Some _ => true
  | None => false
  end.

(** [get enabled()]: [this.suspended ? false : this._enabled] *)
Definition enabled (s : t) : bool :=
  if suspended s then false else _enabled s.

(** [reset(enabled)]; the boolean is the returned "refresh required". *)
Definition reset (en : bool) (s : t) : t * bool :=
  if Bool.eqb (_enabled s) en && negb (suspended s)
  then (s, false)
  else ({| _enabled := en; _suspendReason := None |}, true).

(** [resume(reason)]: the reason argument is not read. *)
Definition resume (reason : SuspendReason) (s : t) : t * bool :=
  let refresh := suspended s in
  ({| _enabled := _enabled s; _suspendReason := None |}, refresh).

(** [suspend(reason)] *)
Definition suspend (reason : SuspendReason) (s : t) : t * bool :=
  let refresh := negb (suspended s) in
  ({| _enabled := _enabled s; _suspendReason := Some reason |}, refresh).

(** A call of one of the three methods, and sequences of calls. *)
Inductive Call : Set :=
| Reset (en : bool)
| Suspend (reason : SuspendReason)
| Resume (reason : SuspendReason).

Definition call (c : Call) (s : t) : t * bool :=
  match c with
  | Reset en => reset en s
  | Suspend r => suspend r s
  | Resume r => resume r s
  end.

Fixpoint run (cs : list Call) (s : t) : t :=
  match cs with
  | [] => s
  | c :: cs' => run cs' (fst (call c s))
  end.


End AnnotationState.

(* ===================================================================== *)
(** * Functions.debounce *)
(* ===================================================================== *)

Module Functions.

(** Modelled from the spec: Functions.debounce, imported from './system',
    whose source is not at hand: "delay invocation of an action until a quiet
    period with no further triggering events has elapsed", "an explicit
    timer abstraction exposing schedule(args), cancel(), isPending(),
    implemented with a single owned timer handle per debounced operation".
    The timer handle holds the deadline and the arguments of the last call. *)
Record Debounced (A : Set) : Set := mkDebounced {
  wait : Z;
  timer : option (Z * A)
}.
Arguments mkDebounced {A} _ _.
Arguments wait {A} _.
Arguments timer {A} _.

Definition debounce {A : Set} (w : Z) : Debounced A := mkDebounced w None.

Definition schedule {A : Set} (now : Z) (args : A) (d : Debounced A) : Debounced A :=
  mkDebounced (wait d) (Some (now + wait d, args)).

Definition cancel {A : Set} (d : Debounced A) : Debounced A :=
  mkDebounced (wait d) None.

Definition pending {A : Set} (d : Debounced A) : bool :=
  match timer d with Some _ => true | None => false end.

End Functions.

(* ===================================================================== *)
(** * The editor host, as far as the code reads it *)
(* ===================================================================== *)

Module Host.

(** [vscode.Uri]: the two components the code reads. *)
Record Uri : Set := mkUri { scheme : string; fsPath : string }.

(** [GitUri extends Uri]: a content identifier at a revision. *)
Record GitUri : Set := mkGitUri {
  gitUri_uri : Uri;
  sha : option string;
  repoPath : option string
}.

(** Object identity of a document: either an object of the editor host, or
    a placeholder object allocated by the tracker itself. *)
Inductive DocumentObject : Set :=
| HostObject (n : nat)
| PlaceholderObject (n : nat).

Inductive EndOfLine : Set := LF | CRLF.

(** The [TextDocument] interface: object identity and the readonly
    properties.  [gitUri] is the extra property of the placeholder class
    and is [None] for a document of the host. *)
Record TextDocument : Set := mkTextDocument {
  object : DocumentObject;
  eol : EndOfLine;
  fileName : string;
  isClosed : bool;
  isDirty : bool;
  isUntitled : bool;
  languageId : string;
  lineCount : Z;
  uri : Uri;
  version : Z;
  gitUri : option GitUri
}.

(** The same document object, read when its dirty flag is [b]. *)
Definition readDirty (b : bool) (d : TextDocument) : TextDocument :=
  mkTextDocument (object d) (eol d) (fileName d) (isClosed d) b (isUntitled d)
    (languageId d) (lineCount d) (uri d) (version d) (gitUri d).

(** [TextEditor]: object identity, the document it shows, and the private
    [_disposed] flag that [clearAnnotations] reads. *)
Record TextEditor : Set := mkTextEditor {
  editor_object : nat;
  document : TextDocument;
  _disposed : bool
}.

(** What [ex.toString()] gives for a thrown value. *)
Record Exception : Set := mkException { toString : string }.

#[global] Instance DocumentObject_eq_dec : EqDecision DocumentObject.
Proof. solve_decision. Defined.

(** [a === b] on documents and on editors is object identity. *)
Definition same_document (a b : TextDocument) : bool :=
  bool_decide (object a = object b).

Definition same_editor (a b : TextEditor) : bool :=
  Nat.eqb (editor_object a) (editor_object b).

(** [window.activeTextEditor !== editor] *)
Definition is_active_editor (active : option TextEditor) (ed : TextEditor) : bool :=
  match active with
  | Some a => same_editor a ed
  | None => false
  end.

(** [haystack.includes(needle)] on strings. *)
Fixpoint includes (needle haystack : string) : bool :=
  if String.prefix needle haystack then true
  else match haystack with
       | EmptyString => false
       | String _ rest => includes needle rest
       end.

(** The parts of the extension and of the host that the tracker calls and
    that are not part of the files at hand: [GitUri.toKey],
    [GitUri.fileUri({ useVersionedPath: true })],
    [workspace.openTextDocument] (which either resolves to a document or
    rejects), [isTextEditor] and the constant [DocumentSchemes.File]. *)
Class Env : Type := {
  toKey : Uri -> string;
  fileUri : GitUri -> Uri;
  openTextDocument : Uri -> Exception + TextDocument;
  isTextEditor : TextEditor -> bool;
  DocumentSchemes_File : string
}.

End Host.

(* ===================================================================== *)
(** * DocumentTracker *)
(* ===================================================================== *)

Module DocumentTracker.
Import Host Functions.

(** ** Tracked documents *)

(** Modelled from the spec: TrackedDocument, imported from
    './trackedDocument', whose source is not at hand.  The record has the
    attributes the spec lists (dirty flag, idle flag, opaque cached blame
    state, force-change flag) and its lifecycle flags.  The constructor is called as
    [new TrackedDocument(document, key, false, ...)]. *)
Record TrackedDocument : Set := mkTrackedDocument {
  tracked_document : TextDocument;
  key : string;
  dirty : bool;
  isDirtyIdle : bool;
  forceDirtyStateChangeOnNextDocumentChange : bool;
  hasCachedState : bool;
  initialized : bool;
  disposed : bool
}.

Definition TrackedDocument_new (d : TextDocument) (k : string) (dirty0 : bool)
  : TrackedDocument :=
  mkTrackedDocument d k dirty0 false false false false false.

(** Modelled from the spec: TrackedDocument.reset, "reset cached derived
    state". *)
Definition TrackedDocument_reset (r : TrackedDocument) : TrackedDocument :=
  mkTrackedDocument (tracked_document r) (key r) (dirty r) (isDirtyIdle r)
    (forceDirtyStateChangeOnNextDocumentChange r) false (initialized r) (disposed r).

(** Modelled from the spec: TrackedDocument.dispose. *)
Definition TrackedDocument_dispose (r : TrackedDocument) : TrackedDocument :=
  mkTrackedDocument (tracked_document r) (key r) (dirty r) (isDirtyIdle r)
    (forceDirtyStateChangeOnNextDocumentChange r) (hasCachedState r)
    (initialized r) true.

(** Modelled from the spec: TrackedDocument.ensureInitialized, "waits for
    its initialization to complete". *)
Definition TrackedDocument_ensureInitialized (r : TrackedDocument) : TrackedDocument :=
  mkTrackedDocument (tracked_document r) (key r) (dirty r) (isDirtyIdle r)
    (forceDirtyStateChangeOnNextDocumentChange r) (hasCachedState r) true (disposed r).

(** [doc.dirty = dirty] together with
    [doc.resetForceDirtyStateChangeOnNextDocumentChange()]. *)
Definition TrackedDocument_setDirty (b : bool) (r : TrackedDocument) : TrackedDocument :=
  mkTrackedDocument (tracked_document r) (key r) b (isDirtyIdle r)
    false (hasCachedState r) (initialized r) (disposed r).

(** [setForceDirtyStateChangeOnNextDocumentChange()] *)
Definition TrackedDocument_setForce (r : TrackedDocument) : TrackedDocument :=
  mkTrackedDocument (tracked_document r) (key r) (dirty r) (isDirtyIdle r)
    true (hasCachedState r) (initialized r) (disposed r).

(** [e.document.isDirtyIdle = true] *)
Definition TrackedDocument_setDirtyIdle (r : TrackedDocument) : TrackedDocument :=
  mkTrackedDocument (tracked_document r) (key r) (dirty r) true
    (forceDirtyStateChangeOnNextDocumentChange r) (hasCachedState r)
    (initialized r) (disposed r).

(** ** Events delivered to listeners *)

(** Tracked documents are shared objects; events refer to them by their
    index in the store of the tracker. *)
Record DocumentDirtyStateChangeEvent : Set := mkDirtyState {
  dsc_editor : TextEditor;
  dsc_document : nat;
  dsc_dirty : bool
}.

(** The editor is passed as [editor!] from [window.activeTextEditor], which
    may be undefined at run time. *)
Record DocumentDirtyIdleTriggerEvent : Set := mkDirtyIdle {
  dit_editor : option TextEditor;
  dit_document : nat
}.

Inductive Notification : Set :=
| DidChangeBlameState (doc : nat)
| DidChangeDirtyState (e : DocumentDirtyStateChangeEvent)
| DidTriggerDirtyIdle (e : DocumentDirtyIdleTriggerEvent).

(** ** The document map *)

(** [Map<TextDocument | string, TrackedDocument<T>>]: a document key is the
    identity of the document object. *)
Inductive Key : Set :=
| KDocument (o : DocumentObject)
| KString (s : string).

#[global] Instance Key_eq_dec : EqDecision Key.
Proof. solve_decision. Defined.

Definition Key_encode (k : Key) : nat + nat + string :=
  match k with
  | KDocument (HostObject n) => inl (inl n)
  | KDocument (PlaceholderObject n) => inl (inr n)
  | KString s => inr s
  end.

Definition Key_decode (x : nat + nat + string) : Key :=
  match x with
  | inl (inl n) => KDocument (HostObject n)
  | inl (inr n) => KDocument (PlaceholderObject n)
  | inr s => KString s
  end.

#[global] Instance Key_countable : Countable Key.
Proof.
  apply (inj_countable' Key_encode Key_decode).
  intros [[n|n]|s]; reflexivity.
Defined.

(** ** The state of the tracker and of the event loop around it *)

(** The private fields of the class keep their names.  Tracked documents
    are objects shared between the two keys of the map, events and
    callbacks: they live in the store [trackedDocuments].  The field
    [_dirtyIdleTriggeredDebounced] is reassigned while a debounced function
    it held may still own a running timer, so the debounced idle triggers
    live in the store [idleDebounced] and the field holds a reference;
    [_dirtyStateChangedDebounced] is assigned once and holds its debounced
    function itself.  [immediates] is the queue of [setImmediate] callbacks
    (each is the closure over its event), [now] the clock in milliseconds,
    and [fired] the notifications delivered so far, oldest first, with the
    time of delivery. *)
Record State : Type := mkState {
  _dirtyIdleTriggerDelay : Z;
  _documentMap : gmap Key nat;
  _dirtyIdleTriggeredDebounced : option nat;
  _dirtyStateChangedDebounced : option (Debounced DocumentDirtyStateChangeEvent);
  trackedDocuments : list TrackedDocument;
  idleDebounced : list (Debounced DocumentDirtyIdleTriggerEvent);
  nextPlaceholder : nat;
  activeTextEditor : option TextEditor;
  immediates : list DocumentDirtyStateChangeEvent;
  now : Z;
  fired : list (Z * Notification)
}.

Definition set_dirtyIdleTriggerDelay (v : Z) (st : State) : State :=
  mkState v (_documentMap st) (_dirtyIdleTriggeredDebounced st)
    (_dirtyStateChangedDebounced st) (trackedDocuments st) (idleDebounced st)
    (nextPlaceholder st) (activeTextEditor st) (immediates st) (now st) (fired st).

Definition set_documentMap (v : gmap Key nat) (st : State) : State :=
  mkState (_dirtyIdleTriggerDelay st) v (_dirtyIdleTriggeredDebounced st)
    (_dirtyStateChangedDebounced st) (trackedDocuments st) (idleDebounced st)
    (nextPlaceholder st) (activeTextEditor st) (immediates st) (now st) (fired st).

Definition set_dirtyIdleTriggeredDebounced (v : option nat) (st : State) : State :=
  mkState (_dirtyIdleTriggerDelay st) (_documentMap st) v
    (_dirtyStateChangedDebounced st) (trackedDocuments st) (idleDebounced st)
    (nextPlaceholder st) (activeTextEditor st) (immediates st) (now st) (fired st).

Definition set_dirtyStateChangedDebounced (v : option (Debounced DocumentDirtyStateChangeEvent))
    (st : State) : State :=
  mkState (_dirtyIdleTriggerDelay st) (_documentMap st)
    (_dirtyIdleTriggeredDebounced st) v (trackedDocuments st) (idleDebounced st)
    (nextPlaceholder st) (activeTextEditor st) (immediates st) (now st) (fired st).

Definition set_trackedDocuments (v : list TrackedDocument) (st : State) : State :=
  mkState (_dirtyIdleTriggerDelay st) (_documentMap st)
    (_dirtyIdleTriggeredDebounced st) (_dirtyStateChangedDebounced st) v
    (idleDebounced st) (nextPlaceholder st) (activeTextEditor st) (immediates st)
    (now st) (fired st).

Definition set_idleDebounced (v : list (Debounced DocumentDirtyIdleTriggerEvent))
    (st : State) : State :=
  mkState (_dirtyIdleTriggerDelay st) (_documentMap st)
    (_dirtyIdleTriggeredDebounced st) (_dirtyStateChangedDebounced st)
    (trackedDocuments st) v (nextPlaceholder st) (activeTextEditor st)
    (immediates st) (now st) (fired st).

Definition set_nextPlaceholder (v : nat) (st : State) : State :=
  mkState (_dirtyIdleTriggerDelay st) (_documentMap st)
    (_dirtyIdleTriggeredDebounced st) (_dirtyStateChangedDebounced st)
    (trackedDocuments st) (idleDebounced st) v (activeTextEditor st) (immediates st)
    (now st) (fired st).

Definition set_activeTextEditor (v : option TextEditor) (st : State) : State :=
  mkState (_dirtyIdleTriggerDelay st) (_documentMap st)
    (_dirtyIdleTriggeredDebounced st) (_dirtyStateChangedDebounced st)
    (trackedDocuments st) (idleDebounced st) (nextPlaceholder st) v (immediates st)
    (now st) (fired st).

Definition set_immediates (v : list DocumentDirtyStateChangeEvent)
    (st : State) : State :=
  mkState (_dirtyIdleTriggerDelay st) (_documentMap st)
    (_dirtyIdleTriggeredDebounced st) (_dirtyStateChangedDebounced st)
    (trackedDocuments st) (idleDebounced st) (nextPlaceholder st)
    (activeTextEditor st) v (now st) (fired st).

Definition set_now (v : Z) (st : State) : State :=
  mkState (_dirtyIdleTriggerDelay st) (_documentMap st)
    (_dirtyIdleTriggeredDebounced st) (_dirtyStateChangedDebounced st)
    (trackedDocuments st) (idleDebounced st) (nextPlaceholder st)
    (activeTextEditor st) (immediates st) v (fired st).

Definition set_fired (v : list (Z * Notification)) (st : State) : State :=
  mkState (_dirtyIdleTriggerDelay st) (_documentMap st)
    (_dirtyIdleTriggeredDebounced st) (_dirtyStateChangedDebounced st)
    (trackedDocuments st) (idleDebounced st) (nextPlaceholder st)
    (activeTextEditor st) (immediates st) (now st) v.

(** ** Configuration and calls into the tracker *)

(** Modelled from the spec: the configuration service, imported from
    './configuration', whose source is not at hand.  A change event is what
    the handler learns from it: [configuration.initializing(e)], [configuration.changed(e, s)]
    for the three sections it asks about, and the value that
    [configuration.get<number>('advanced.blame.delayAfterEdit')] returns
    while the handler runs. *)
Record ConfigurationChangeEvent : Set := mkConfigurationChange {
  initializing : bool;
  changed_blame_ignoreWhitespace : bool;
  changed_advanced_caching_enabled : bool;
  changed_advanced_blame_delayAfterEdit : bool;
  advanced_blame_delayAfterEdit : Z
}.

(** The argument of [add]: a document, a [GitUri], or a plain [Uri]
    ([GitUri] is tested first, as it extends [Uri]). *)
Inductive DocumentOrId : Set :=
| OfDocument (d : TextDocument)
| OfGitUri (g : GitUri)
| OfUri (u : Uri).

(** The methods of the [TextDocument] interface. *)
Inductive TextDocumentMethod : Set :=
| getText | getWordRangeAtPosition | lineAt | offsetAt
| positionAt | save | validatePosition | validateRange.

Section Handlers.
Context {env : Env}.

(** [class MissingRevisionTextDocument implements TextDocument]: the
    constructor, for the object identity [obj]. *)
Definition MissingRevisionTextDocument (obj : nat) (g : GitUri) : TextDocument :=
  let u := fileUri g in
  {| object := PlaceholderObject obj;
     eol := LF;
     fileName := fsPath u;
     isClosed := false;
     isDirty := false;
     isUntitled := false;
     languageId := "";
     lineCount := 0;
     uri := u;
     version := 0;
     gitUri := Some g |}.

(** Every method of the placeholder throws. *)
Definition MissingRevisionTextDocument_call (m : TextDocumentMethod) : Exception :=
  mkException "Error: Method not supported.".

Definition fire (n : Notification) (st : State) : State :=
  set_fired (fired st ++ [(now st, n)]) st.

(** A method call on the tracked document with index [doc]. *)
Definition updateTracked (doc : nat) (f : TrackedDocument -> TrackedDocument)
    (st : State) : State :=
  set_trackedDocuments (alter f doc (trackedDocuments st)) st.

(** [for (const d of this._documentMap.values()) d.m()] *)
Definition forEachTracked (f : TrackedDocument -> TrackedDocument) (st : State) : State :=
  set_trackedDocuments
    (map_fold (fun _ doc docs => alter f doc docs) (trackedDocuments st) (_documentMap st))
    st.

(** [addCore(document)] *)
Definition addCore (d : TextDocument) (st : State) : nat * State :=
  let k := toKey (uri d) in
  let doc := length (trackedDocuments st) in
  let st1 := set_trackedDocuments
               (trackedDocuments st ++ [TrackedDocument_new d k false]) st in
  let st2 := set_documentMap
               (<[KString k := doc]> (<[KDocument (object d) := doc]> (_documentMap st1)))
               st1 in
  (doc, st2).

(** [onConfigurationChanged(e)] *)
Definition onConfigurationChanged (e : ConfigurationChangeEvent) (st : State) : State :=
  let st1 :=
    if negb (initializing e)
       && (changed_blame_ignoreWhitespace e || changed_advanced_caching_enabled e)
    then forEachTracked TrackedDocument_reset st
    else st in
  if initializing e || changed_advanced_blame_delayAfterEdit e
  then set_dirtyIdleTriggeredDebounced None
         (set_dirtyIdleTriggerDelay (advanced_blame_delayAfterEdit e) st1)
  else st1.

(** [onActiveTextEditorChanged(editor)]; the command contexts it sets when
    there is no editor are not part of the state. *)
Definition onActiveTextEditorChanged (editor : option TextEditor) (st : State) : State :=
  match editor with
  | None => st
  | Some ed =>
      if negb (isTextEditor ed) then st
      else match _documentMap st !! KDocument (object (document ed)) with
           | Some doc => st
           | None => snd (addCore (document ed) st)
           end
  end.

(** The debounced idle trigger, created on first use with the delay
    configured at that time. *)
Definition dirtyIdleTriggeredDebounced_ensure (st : State) : nat * State :=
  match _dirtyIdleTriggeredDebounced st with
  | Some d => (d, st)
  | None =>
      let d := length (idleDebounced st) in
      (d, set_dirtyIdleTriggeredDebounced (Some d)
            (set_idleDebounced
               (idleDebounced st ++ [debounce (_dirtyIdleTriggerDelay st)]) st))
  end.

(** The debounced delivery of "clean", created on first use, 250ms. *)
Definition dirtyStateChangedDebounced_ensure (st : State)
  : Debounced DocumentDirtyStateChangeEvent :=
  match _dirtyStateChangedDebounced st with
  | Some d => d
  | None => debounce 250
  end.

(** [fireDocumentDirtyStateChanged(e)] *)
Definition fireDocumentDirtyStateChanged (e : DocumentDirtyStateChangeEvent)
    (st : State) : State :=
  if dsc_dirty e then
    let st1 := set_immediates (immediates st ++ [e]) st in
    if 0 <? _dirtyIdleTriggerDelay st1 then
      let '(d, st2) := dirtyIdleTriggeredDebounced_ensure st1 in
      set_idleDebounced
        (alter (schedule (now st2) (mkDirtyIdle (Some (dsc_editor e)) (dsc_document e)))
               d (idleDebounced st2))
        st2
    else st1
  else
    let d := dirtyStateChangedDebounced_ensure st in
    set_dirtyStateChangedDebounced (Some (schedule (now st) e d)) st.

(** [onTextDocumentChanged(e)], for [e.document]. *)
Definition onTextDocumentChanged (d : TextDocument) (st : State) : State :=
  if negb (String.eqb (scheme (uri d)) DocumentSchemes_File) then st
  else
    let '(doc, st1) :=
      match _documentMap st !! KDocument (object d) with
      | Some doc => (doc, st)
      | None => addCore d st
      end in
    let st2 := updateTracked doc TrackedDocument_reset st1 in
    let dirty' := isDirty d in
    let editor := activeTextEditor st2 in
    let st3 :=
      match _dirtyIdleTriggeredDebounced st2 with
      | Some t =>
          if dirty'
          then set_idleDebounced
                 (alter (schedule (now st2) (mkDirtyIdle editor doc)) t (idleDebounced st2))
                 st2
          else set_idleDebounced (alter cancel t (idleDebounced st2)) st2
      | None => st2
      end in
    match trackedDocuments st3 !! doc with
    | None => st3
    | Some r =>
        if negb (forceDirtyStateChangeOnNextDocumentChange r)
           && Bool.eqb (dirty r) dirty'
        then st3
        else
          let st4 := updateTracked doc (TrackedDocument_setDirty dirty') st3 in
          match editor with
          | None => st4
          | Some ed =>
              if negb (same_document (document ed) d) then st4
              else fireDocumentDirtyStateChanged (mkDirtyState ed doc dirty') st4
          end
    end.

(** The state [onTextDocumentChanged] is in, for a tracked document, once
    the cached state is reset and the idle timer is fed or cancelled. *)
Definition afterIdleFeed (d : TextDocument) (doc : nat) (st : State) : State :=
  let st2 := updateTracked doc TrackedDocument_reset st in
  match _dirtyIdleTriggeredDebounced st2 with
  | Some t =>
      if isDirty d
      then set_idleDebounced
             (alter (schedule (now st2) (mkDirtyIdle (activeTextEditor st2) doc)) t
                (idleDebounced st2))
             st2
      else set_idleDebounced (alter cancel t (idleDebounced st2)) st2
  | None => st2
  end.

(** [onTextDocumentClosed(document)] *)
Definition onTextDocumentClosed (d : TextDocument) (st : State) : State :=
  match _documentMap st !! KDocument (object d) with
  | None => st
  | Some doc =>
      let st1 := updateTracked doc TrackedDocument_dispose st in
      let k := match trackedDocuments st1 !! doc with
               | Some r => key r
               | None => toKey (uri d)
               end in
      set_documentMap (delete (KString k) (delete (KDocument (object d)) (_documentMap st1))) st1
  end.

(** Modelled from the spec: isActiveDocument, imported from './constants':
    the document is "the currently active one", the one the active editor
    shows. *)
Definition isActiveDocument (d : TextDocument) (st : State) : bool :=
  match activeTextEditor st with
  | Some ed => same_document (document ed) d
  | None => false
  end.

(** [onTextDocumentSaved(document)]; [doc.update({ forceBlameChange: true })]
    is, following the spec, a forced blame-state-changed notification. *)
Definition onTextDocumentSaved (d : TextDocument) (st : State) : State :=
  match _documentMap st !! KDocument (object d) with
  | Some doc => fire (DidChangeBlameState doc) st
  | None => if isActiveDocument d st then snd (addCore d st) else st
  end.

(** [clear()] *)
Definition clear (st : State) : State :=
  set_documentMap ∅ (forEachTracked TrackedDocument_dispose st).

(** [_add(documentOrId)]: either the exception thrown to the caller, or the
    tracked document returned together with the new state. *)
Definition _add (documentOrId : DocumentOrId) (st : State)
  : Exception + (nat * State) :=
  let resolved : Exception + (TextDocument * State) :=
    match documentOrId with
    | OfGitUri g =>
        match openTextDocument (fileUri g) with
        | inr d => inr (d, st)
        | inl ex =>
            if negb (includes "File not found" (toString ex)) then inl ex
            else inr (MissingRevisionTextDocument (nextPlaceholder st) g,
                      set_nextPlaceholder (S (nextPlaceholder st)) st)
        end
    | OfUri u =>
        match openTextDocument u with
        | inr d => inr (d, st)
        | inl ex => inl ex
        end
    | OfDocument d => inr (d, st)
    end in
  match resolved with
  | inl ex => inl ex
  | inr (d, st1) =>
      let '(doc, st2) := addCore d st1 in
      inr (doc, updateTracked doc TrackedDocument_ensureInitialized st2)
  end.

(** [add(documentOrId)] *)
Definition add (documentOrId : DocumentOrId) (st : State)
  : Exception + (nat * State) :=
  _add documentOrId st.

(** ** Deferred callbacks *)

(** The callback that [fireDocumentDirtyStateChanged] hands to
    [setImmediate] for a "dirty" event.  The [await] on
    [ensureInitialized] is taken to resolve within the same turn. *)
Definition dirtyStateImmediate (e : DocumentDirtyStateChangeEvent) (st : State) : State :=
  let st1 :=
    match _dirtyStateChangedDebounced st with
    | Some d => set_dirtyStateChangedDebounced (Some (cancel d)) st
    | None => st
    end in
  if negb (is_active_editor (activeTextEditor st1) (dsc_editor e)) then st1
  else fire (DidChangeDirtyState e)
         (updateTracked (dsc_document e) TrackedDocument_ensureInitialized st1).

(** The function debounced as [_dirtyIdleTriggeredDebounced]. *)
Definition dirtyIdleTriggered (e : DocumentDirtyIdleTriggerEvent) (st : State) : State :=
  let current_pending :=
    match _dirtyIdleTriggeredDebounced st with
    | Some d =>
        match idleDebounced st !! d with
        | Some x => pending x
        | None => false
        end
    | None => false
    end in
  if current_pending then st
  else fire (DidTriggerDirtyIdle e)
         (updateTracked (dit_document e)
            (fun r => TrackedDocument_setDirtyIdle (TrackedDocument_ensureInitialized r))
            st).

(** The function debounced as [_dirtyStateChangedDebounced]. *)
Definition dirtyStateChanged (e : DocumentDirtyStateChangeEvent) (st : State) : State :=
  if negb (is_active_editor (activeTextEditor st) (dsc_editor e)) then st
  else fire (DidChangeDirtyState e)
         (updateTracked (dsc_document e) TrackedDocument_ensureInitialized st).

(** ** The event loop *)

(** What can happen next: the host calls one of the registered handlers
    ([TextDocumentChanged] and [ActiveTextEditorChanged] stand for a call of
    the handler itself, after the debounce under which it is registered), the
    host changes [window.activeTextEditor], another component calls into the
    tracker, the event loop runs the oldest [setImmediate] callback, a timer
    of a debounced function expires, or time passes. *)
Inductive Event : Set :=
| ConfigurationChanged (e : ConfigurationChangeEvent)
| WindowActiveTextEditor (editor : option TextEditor)
| ActiveTextEditorChanged (editor : option TextEditor)
| TextDocumentChanged (d : TextDocument)
| TextDocumentClosed (d : TextDocument)
| TextDocumentSaved (d : TextDocument)
| CallAdd (documentOrId : DocumentOrId)
| CallClear
| CallSetForceDirtyStateChange (doc : nat)
| RunImmediate
| IdleTimerElapsed (d : nat)
| StateTimerElapsed
| Wait (dt : Z).

(** No timer of the store is due before [t]. *)
Definition none_due_before {A : Set} (t : Z) (ds : list (Debounced A)) : bool :=
  forallb (fun d => match timer d with
                    | Some (deadline, _) => t <=? deadline
                    | None => true
                    end) ds.

(** One step of the event loop; [None] when the event cannot happen in this
    state: no callback is queued, the timer is not set or not yet due, or
    time would pass over a queued callback or a due timer. *)
Definition step (ev : Event) (st : State) : option State :=
  match ev with
  | ConfigurationChanged e => Some (onConfigurationChanged e st)
  | WindowActiveTextEditor editor => Some (set_activeTextEditor editor st)
  | ActiveTextEditorChanged editor => Some (onActiveTextEditorChanged editor st)
  | TextDocumentChanged d => Some (onTextDocumentChanged d st)
  | TextDocumentClosed d => Some (onTextDocumentClosed d st)
  | TextDocumentSaved d => Some (onTextDocumentSaved d st)
  | CallAdd documentOrId =>
      match add documentOrId st with
      | inl _ => Some st
      | inr (_, st') => Some st'
      end
  | CallClear => Some (clear st)
  | CallSetForceDirtyStateChange doc =>
      Some (updateTracked doc TrackedDocument_setForce st)
  | RunImmediate =>
      match immediates st with
      | [] => None
      | e :: rest => Some (dirtyStateImmediate e (set_immediates rest st))
      end
  | IdleTimerElapsed d =>
      match idleDebounced st !! d with
      | Some x =>
          match timer x with
          | Some (deadline, e) =>
              if deadline <=? now st
              then Some (dirtyIdleTriggered e
                           (set_idleDebounced (alter cancel d (idleDebounced st)) st))
              else None
          | None => None
          end
      | None => None
      end
  | StateTimerElapsed =>
      match _dirtyStateChangedDebounced st with
      | Some x =>
          match timer x with
          | Some (deadline, e) =>
              if deadline <=? now st
              then Some (dirtyStateChanged e
                           (set_dirtyStateChangedDebounced (Some (cancel x)) st))
              else None
          | None => None
          end
      | None => None
      end
  | Wait dt =>
      if (0 <=? dt)
         && match immediates st with [] => true | _ => false end
         && none_due_before (now st + dt) (idleDebounced st)
         && none_due_before (now st + dt)
              (match _dirtyStateChangedDebounced st with Some x => [x] | None => [] end)
      then Some (set_now (now st + dt) st)
      else None
  end.

Fixpoint run (evs : list Event) (st : State) : option State :=
  match evs with
  | [] => Some st
  | ev :: evs' =>
      match step ev st with
      | Some st' => run evs' st'
      | None => None
      end
  end.

(** [configuration.initializingChangeEvent], with the configured delay. *)
Definition initializingChangeEvent (delayAfterEdit : Z) : ConfigurationChangeEvent :=
  mkConfigurationChange true false false false delayAfterEdit.

(** [new DocumentTracker()]: the field initialisers, then
    [onConfigurationChanged(configuration.initializingChangeEvent)]. *)
Definition new (delayAfterEdit : Z) (active : option TextEditor) : State :=
  onConfigurationChanged (initializingChangeEvent delayAfterEdit)
    (mkState 0 ∅ None None [] [] 0 active [] 0 []).

(** [initialize()] *)
Definition initialize (st : State) : State :=
  onActiveTextEditorChanged (activeTextEditor st) st.

(** ** Observations *)

Definition is_dirtyIdle (n : Z * Notification) : bool :=
  match snd n with DidTriggerDirtyIdle _ => true | _ => false end.

Definition dirtyState_of (n : Z * Notification) : option (Z * bool) :=
  match snd n with
  | DidChangeDirtyState e => Some (fst n, dsc_dirty e)
  | _ => None
  end.

(** The dirty-state-changed notifications delivered so far: time and
    [dirty] flag, oldest first. *)
Definition dirtyStateObserved (st : State) : list (Z * bool) :=
  omap dirtyState_of (fired st).

(** Everything from which a dirty-state-changed notification can still
    come, or has come: queued immediates, the debounced delivery of
    "clean" with its timer, and the delivered notifications. *)
Definition dirtyStateSources (st : State)
  : list DocumentDirtyStateChangeEvent
    * option (Debounced DocumentDirtyStateChangeEvent)
    * list (Z * bool) :=
  (immediates st, _dirtyStateChangedDebounced st, dirtyStateObserved st).

(** ** Settled states *)

(** Nothing is in flight: no [setImmediate] callback is queued and no timer
    of a debounced function is running. *)
Definition settled (st : State) : Prop :=
  immediates st = []
  /\ Forall (fun x => timer x = None) (idleDebounced st)
  /\ match _dirtyStateChangedDebounced st with
     | Some x => wait x = 250 /\ timer x = None
     | None => True
     end.

(** The timer of the debounced delivery of "clean" is not running. *)
Definition cleanDeliveryIdle (st : State) : Prop :=
  match _dirtyStateChangedDebounced st with
  | Some x => timer x = None
  | None => True
  end.

(** The document [d] is tracked as [doc], the dirty flag of its record is
    [flag] and its force flag is not set, and the active editor is [ed],
    showing [d]. *)
Definition activeTracked (d : TextDocument) (doc : nat) (ed : TextEditor)
    (flag : bool) (st : State) : Prop :=
  _documentMap st !! KDocument (object d) = Some doc
  /\ (exists r, trackedDocuments st !! doc = Some r
                /\ dirty r = flag
                /\ forceDirtyStateChangeOnNextDocumentChange r = false)
  /\ activeTextEditor st = Some ed
  /\ object (document ed) = object d.

(** ** The idle trigger, switched off *)

(** An event that leaves the configured delay, as the handler reads it, at
    zero or below. *)
Definition keepsDelayNonPositive (ev : Event) : bool :=
  match ev with
  | ConfigurationChanged e => advanced_blame_delayAfterEdit e <=? 0
  | _ => true
  end.

(** The idle-trigger notifications delivered so far. *)
Definition dirtyIdleObserved (st : State) : list (Z * Notification) :=
  List.filter is_dirtyIdle (fired st).

(** The tracker holds a delay of zero or below, no debounced idle trigger
    exists, and no idle-trigger notification was delivered. *)
Definition idleDisabled (st : State) : Prop :=
  _dirtyIdleTriggerDelay st <= 0
  /\ _dirtyIdleTriggeredDebounced st = None
  /\ idleDebounced st = []
  /\ dirtyIdleObserved st = [].

(** ** Looking documents up *)

(** The key under which [_get] looks a document or identifier up: the
    document object itself, or the key string of the uri (of the versioned
    file uri, for a [GitUri]).  (The overload for file names is left out.) *)
Definition lookupKey (documentOrId : DocumentOrId) : Key :=
  match documentOrId with
  | OfGitUri g => KString (toKey (fileUri g))
  | OfUri u => KString (toKey u)
  | OfDocument d => KDocument (object d)
  end.

(** [_get(documentOrId)]: [None] is [undefined]. *)
Definition _get (documentOrId : DocumentOrId) (st : State) : option (nat * State) :=
  match _documentMap st !! lookupKey documentOrId with
  | None => None
  | Some doc => Some (doc, updateTracked doc TrackedDocument_ensureInitialized st)
  end.

(** [get(documentOrId)] *)
Definition get (documentOrId : DocumentOrId) (st : State) : option (nat * State) :=
  _get documentOrId st.

(** [getOrAdd(documentOrId)] *)
Definition getOrAdd (documentOrId : DocumentOrId) (st : State)
  : Exception + (nat * State) :=
  match _get documentOrId st with
  | Some found => inr found
  | None => _add documentOrId st
  end.

(** [has(key)]: a uri, also a [GitUri], is looked up under its own key
    string, a document under its object. *)
Definition has (key : DocumentOrId) (st : State) : bool :=
  let k := match key with
           | OfGitUri g => KString (toKey (gitUri_uri g))
           | OfUri u => KString (toKey u)
           | OfDocument d => KDocument (object d)
           end in
  match _documentMap st !! k with
  | Some _ => true
  | None => false
  end.

(** ** Reachable states *)

(** The states a tracker can be in: constructed, then driven by events and
    by lookups of other components. *)
Inductive reachable : State -> Prop :=
| reachable_new (delayAfterEdit : Z) (active : option TextEditor) :
    reachable (new delayAfterEdit active)
| reachable_step (ev : Event) (st st' : State) :
    reachable st -> step ev st = Some st' -> reachable st'
| reachable_get (documentOrId : DocumentOrId) (doc : nat) (st st' : State) :
    reachable st -> get documentOrId st = Some (doc, st') -> reachable st'
| reachable_getOrAdd (documentOrId : DocumentOrId) (doc : nat) (st st' : State) :
    reachable st -> getOrAdd documentOrId st = inr (doc, st') -> reachable st'.

(** The record [r] is the one that belongs under key [k]: its document is
    the document of the key, or its key string is the key. *)
Definition filedUnder (k : Key) (r : TrackedDocument) : Prop :=
  match k with
  | KDocument o => object (tracked_document r) = o
  | KString s => key r = s
  end.

(** Every entry of the document map holds a record that is not disposed and
    that belongs under the key of the entry. *)
Definition mapConsistent (st : State) : Prop :=
  forall k doc,
    _documentMap st !! k = Some doc ->
    exists r, trackedDocuments st !! doc = Some r
              /\ disposed r = false
              /\ filedUnder k r.

(** A method of tracked documents that leaves document, key and the
    disposed flag as they are. *)
Definition keepsIdentity (f : TrackedDocument -> TrackedDocument) : Prop :=
  forall r, tracked_document (f r) = tracked_document r
            /\ key (f r) = key r
            /\ disposed (f r) = disposed r.

(** The store [l'] holds, at every index of [l], a record with the same
    document, key and disposed flag. *)
Definition sameIdentities (l l' : list TrackedDocument) : Prop :=
  forall i r, l !! i = Some r ->
    exists r', l' !! i = Some r'
               /\ tracked_document r' = tracked_document r
               /\ key r' = key r
               /\ disposed r' = disposed r.

(** A method of tracked documents that leaves document and key as they
    are and never clears the disposed flag. *)
Definition keepsRecord (f : TrackedDocument -> TrackedDocument) : Prop :=
  forall r, tracked_document (f r) = tracked_document r
            /\ key (f r) = key r
            /\ (disposed r = true -> disposed (f r) = true).

(** The store [l'] still holds every record of [l], at its index, with its
    document and key; and the records disposed in [l] are disposed in
    [l']. *)
Definition recordsKept (l l' : list TrackedDocument) : Prop :=
  forall i r, l !! i = Some r ->
    exists r', l' !! i = Some r'
               /\ tracked_document r' = tracked_document r
               /\ key r' = key r
               /\ (disposed r = true -> disposed r' = true).

(** Every debounced idle trigger waits for a positive delay, the one the
    tracker holds waits for the configured delay, and the debounced delivery
    of "clean" waits for 250ms. *)
Definition debouncedAsConfigured (st : State) : Prop :=
  Forall (fun x => 0 < wait x) (idleDebounced st)
  /\ match _dirtyIdleTriggeredDebounced st with
     | Some t => exists x, idleDebounced st !! t = Some x
                           /\ wait x = _dirtyIdleTriggerDelay st
     | None => True
     end
  /\ match _dirtyStateChangedDebounced st with
     | Some x => wait x = 250
     | None => True
     end.

End Handlers.

End DocumentTracker.

(* ===================================================================== *)
(** * CurrentLineController *)
(* ===================================================================== *)

Module CurrentLineController.
Import Host Functions.

(** ** Data read from the Git provider and from the configuration *)

(** [GitCommit], by its sha. *)
Record GitCommit : Set := mkGitCommit { commit_sha : string }.

(** [GitBlameLine]: [line.line] and [commit]. *)
Record GitBlameLine : Set := mkGitBlameLine {
  blame_line : Z;
  blame_commit : GitCommit
}.

(** [GitLineState] *)
Record GitLineState : Set := mkGitLineState {
  lineState_commit : GitCommit;
  logCommit : option GitCommit
}.

(** [new GitLineState(commit)] *)
Definition GitLineState_new (c : GitCommit) : GitLineState := mkGitLineState c None.

(** The settings of [IConfig] that the controller reads. *)
Record IConfig : Set := mkIConfig {
  currentLine_enabled : bool;
  statusBar_enabled : bool;
  statusBar_reduceFlicker : bool;
  hovers_enabled : bool;
  hovers_currentLine_enabled : bool;
  hovers_currentLine_details : bool;
  hovers_currentLine_changes : bool;
  advanced_blame_sizeThresholdAfterEdit : Z
}.

(** What the controller reads of a [TrackedDocument] it was handed. *)
Record TrackedDocument : Set := mkTrackedDocument {
  tracked_uri : Uri;
  isBlameable : bool
}.

(** The status bar item: the commit its text was formatted from, and
    whether it is shown. *)
Record StatusBarItem : Set := mkStatusBarItem {
  text : option GitCommit;
  visible : bool
}.

(** A trailing decoration: [Annotations.trailing(commit, ...)] with its
    range at the end of [line]. *)
Record Decoration : Set := mkDecoration {
  decoration_line : Z;
  decoration_commit : GitCommit
}.

Inductive HoverProvider : Set := ChangesHover | DetailsHover.

(** The arguments of the debounced [updateBlame]. *)
Definition UpdateBlameArgs : Set := (list Z * TextEditor * TrackedDocument)%type.

(** Calls that leave the controller. *)
Inductive Effect : Set :=
| SetDecorations (editor : nat) (decorations : list Decoration)
| SetForceDirtyStateChangeOnNextDocumentChange (d : DocumentObject).

(** The four blame queries of the Git provider that [updateBlame] awaits. *)
Inductive BlameRequest : Set :=
| GetBlameForLine (u : Uri) (line : Z)
| GetBlameForLineContents (u : Uri) (line : Z)
| GetBlameForFile (u : Uri)
| GetBlameForFileContents (u : Uri).

(** Their results: a blame line, or the blame of the file as the commit of
    each line ([blame.lines[l]] with [blame.commits.get(sha)]); [None] is
    [undefined]. *)
Inductive BlameResult : Set :=
| LineBlame (r : option GitBlameLine)
| FileBlame (r : option (list GitBlameLine)).

(** ** The state of the controller *)

(** The private fields keep their names.  [lineTracker_lines] and
    [lineTracker_state] are what the controller uses of its line tracker:
    the active lines and the commit state cached per line.  [config] is
    [Container.config], and [effects] the calls made so far, oldest
    first. *)
Record State : Type := mkState {
  _blameAnnotationState : option AnnotationState.t;
  _editor : option TextEditor;
  _statusBarItem : option StatusBarItem;
  _hoverProviderDisposable : option (list HoverProvider);
  _updateBlameDebounced : option (Debounced UpdateBlameArgs);
  lineTracker_lines : option (list Z);
  lineTracker_state : gmap Z GitLineState;
  config : IConfig;
  effects : list Effect
}.

Definition set_blameAnnotationState (v : option AnnotationState.t)
    (st : State) : State :=
  mkState v (_editor st) (_statusBarItem st) (_hoverProviderDisposable st)
    (_updateBlameDebounced st) (lineTracker_lines st) (lineTracker_state st)
    (config st) (effects st).

Definition set_editor (v : option TextEditor) (st : State) : State :=
  mkState (_blameAnnotationState st) v (_statusBarItem st)
    (_hoverProviderDisposable st) (_updateBlameDebounced st) (lineTracker_lines st)
    (lineTracker_state st) (config st) (effects st).

Definition set_statusBarItem (v : option StatusBarItem) (st : State) : State :=
  mkState (_blameAnnotationState st) (_editor st) v (_hoverProviderDisposable st)
    (_updateBlameDebounced st) (lineTracker_lines st) (lineTracker_state st)
    (config st) (effects st).

Definition set_hoverProviderDisposable (v : option (list HoverProvider))
    (st : State) : State :=
  mkState (_blameAnnotationState st) (_editor st) (_statusBarItem st) v
    (_updateBlameDebounced st) (lineTracker_lines st) (lineTracker_state st)
    (config st) (effects st).

Definition set_updateBlameDebounced (v : option (Debounced UpdateBlameArgs))
    (st : State) : State :=
  mkState (_blameAnnotationState st) (_editor st) (_statusBarItem st)
    (_hoverProviderDisposable st) v (lineTracker_lines st) (lineTracker_state st)
    (config st) (effects st).

Definition set_lineTracker_lines (v : option (list Z)) (st : State) : State :=
  mkState (_blameAnnotationState st) (_editor st) (_statusBarItem st)
    (_hoverProviderDisposable st) (_updateBlameDebounced st) v
    (lineTracker_state st) (config st) (effects st).

Definition set_lineTracker_state (v : gmap Z GitLineState) (st : State) : State :=
  mkState (_blameAnnotationState st) (_editor st) (_statusBarItem st)
    (_hoverProviderDisposable st) (_updateBlameDebounced st) (lineTracker_lines st)
    v (config st) (effects st).

Definition set_config (v : IConfig) (st : State) : State :=
  mkState (_blameAnnotationState st) (_editor st) (_statusBarItem st)
    (_hoverProviderDisposable st) (_updateBlameDebounced st) (lineTracker_lines st)
    (lineTracker_state st) v (effects st).

Definition set_effects (v : list Effect) (st : State) : State :=
  mkState (_blameAnnotationState st) (_editor st) (_statusBarItem st)
    (_hoverProviderDisposable st) (_updateBlameDebounced st) (lineTracker_lines st)
    (lineTracker_state st) (config st) v.

(** [LinesChangeEvent] of the line tracker. *)
Record LinesChangeEvent : Set := mkLinesChange {
  lines_editor : option TextEditor;
  lines : option (list Z);
  lines_pending : bool;
  reason_is_lines : bool
}.

Section Controller.
Context {env : Env}.

(** ** The line tracker *)

(** Modelled from the spec: GitLineTracker.includesAll, "same active line
    set": every given line is among the active lines. *)
Definition includesAll (ls : list Z) (st : State) : bool :=
  match lineTracker_lines st with
  | None => false
  | Some active => forallb (fun l => existsb (Z.eqb l) active) ls
  end.

(** Modelled from the spec: GitLineTracker.reset, the per-line cache is
    "invalidated on each refresh cycle". *)
Definition lineTracker_reset (st : State) : State :=
  set_lineTracker_state ∅ st.

(** Modelled from the spec: GitLineTracker.setState, the "per-line cached
    commit state". *)
Definition lineTracker_setState (line : Z) (ls : GitLineState) (st : State) : State :=
  set_lineTracker_state (<[line := ls]> (lineTracker_state st)) st.

(** ** Private helpers of the controller *)

(** [this._updateBlameDebounced && this._updateBlameDebounced.pending!()] *)
Definition updateBlame_pending (st : State) : bool :=
  match _updateBlameDebounced st with
  | Some d => pending d
  | None => false
  end.

(** [getBlameAnnotationState().enabled] *)
Definition getBlameAnnotationState_enabled (st : State) : bool :=
  match _blameAnnotationState st with
  | Some s => AnnotationState.enabled s
  | None => currentLine_enabled (config st)
  end.

(** [clearAnnotations(editor)] *)
Definition clearAnnotations (editor : option TextEditor) (st : State) : State :=
  match editor with
  | None => st
  | Some ed =>
      if _disposed ed then st
      else set_effects (effects st ++ [SetDecorations (editor_object ed) []]) st
  end.

(** [unregisterHoverProviders()] *)
Definition unregisterHoverProviders (st : State) : State :=
  match _hoverProviderDisposable st with
  | Some _ => set_hoverProviderDisposable None st
  | None => st
  end.

(** [registerHoverProviders(editor, providers)] *)
Definition registerHoverProviders (editor : option TextEditor)
    (details changes : bool) (st : State) : State :=
  let st1 := unregisterHoverProviders st in
  match editor with
  | None => st1
  | Some _ =>
      if negb details && negb changes then st1
      else set_hoverProviderDisposable
             (Some ((if changes then [ChangesHover] else [])
                    ++ (if details then [DetailsHover] else [])))
             st1
  end.

(** [a !== b] on optional editors. *)
Definition differs (a b : option TextEditor) : bool :=
  match a, b with
  | Some x, Some y => negb (same_editor x y)
  | None, None => false
  | _, _ => true
  end.

(** [clear(editor, reason)]; [reason_lines] says that [reason === 'lines']. *)
Definition clear (editor : option TextEditor) (reason_lines : bool) (st : State) : State :=
  let st1 :=
    if differs (_editor st) editor
       && match _editor st with Some _ => true | None => false end
    then clearAnnotations (_editor st) st
    else st in
  let st2 := lineTracker_reset (unregisterHoverProviders (clearAnnotations editor st1)) in
  match _statusBarItem st2 with
  | Some item =>
      if negb reason_lines
      then set_statusBarItem (Some (mkStatusBarItem (text item) false)) st2
      else st2
  | None => st2
  end.

(** [refresh(editor, options)].  [getOrAdd] is what
    [Container.tracker.getOrAdd(editor.document)] resolves to, and [now] the
    time at which the debounced [updateBlame] is called. *)
Definition refresh (editor : option TextEditor) (full : bool)
    (trackedDocument : option TrackedDocument) (getOrAdd : TrackedDocument)
    (now : Z) (st : State) : State :=
  match editor, _editor st with
  | None, None => st
  | _, _ =>
      match editor, lineTracker_lines st with
      | Some ed, Some _ =>
          let '(full1, st1) :=
            if differs (_editor st) (Some ed)
            then (true, set_editor (Some ed) (clearAnnotations (_editor st) st))
            else (full, st) in
          let cfg := config st1 in
          if getBlameAnnotationState_enabled st1 || statusBar_enabled cfg
             || (hovers_enabled cfg && hovers_currentLine_enabled cfg)
          then
            let td := match trackedDocument with Some t => t | None => getOrAdd end in
            if isBlameable td then
              let st2 :=
                if hovers_enabled cfg && hovers_currentLine_enabled cfg
                   && (full1 || match _hoverProviderDisposable st1 with
                                | None => true
                                | Some _ => false
                                end)
                then registerHoverProviders (Some ed)
                       (hovers_currentLine_details cfg) (hovers_currentLine_changes cfg) st1
                else st1 in
              let d := match _updateBlameDebounced st2 with
                       | Some d => d
                       | None => debounce 50
                       end in
              match lineTracker_lines st2 with
              | Some ls => set_updateBlameDebounced (Some (schedule now (ls, ed, td) d)) st2
              | None => st2
              end
            else clear (Some ed) false st1
          else clear (Some ed) false st1
      | _, _ => clear (_editor st) false st
      end
  end.

(** [resumeBlameAnnotations(reason, editor, options)] *)
Definition resumeBlameAnnotations (reason : AnnotationState.SuspendReason)
    (editor : option TextEditor) (force : bool)
    (getOrAdd : TrackedDocument) (now : Z) (st : State) : State :=
  if negb force
     && match _blameAnnotationState st with
        | None => true
        | Some s => negb (AnnotationState.suspended s)
        end
  then st
  else
    let '(st1, refresh1) :=
      match _blameAnnotationState st with
      | Some s =>
          let '(s', r) := AnnotationState.resume reason s in
          (set_blameAnnotationState (Some s') st, r)
      | None => (st, false)
      end in
    match editor with
    | None => st1
    | Some ed =>
        if negb force && negb refresh1 then st1
        else refresh (Some ed) false None getOrAdd now st1
    end.

(** [suspendBlameAnnotations(reason, editor, options)] *)
Definition suspendBlameAnnotations (reason : AnnotationState.SuspendReason)
    (editor : option TextEditor) (force : bool)
    (getOrAdd : TrackedDocument) (now : Z) (st : State) : State :=
  let enabled := getBlameAnnotationState_enabled st in
  match _blameAnnotationState st, enabled with
  | None, false => st
  | _, _ =>
      let s := match _blameAnnotationState st with
               | Some s => s
               | None => AnnotationState.new enabled
               end in
      let '(s', refresh1) := AnnotationState.suspend reason s in
      let st1 := set_blameAnnotationState (Some s') st in
      match editor with
      | None => st1
      | Some ed =>
          if negb force && negb refresh1 then st1
          else refresh (Some ed) false None getOrAdd now st1
      end
  end.

(** [setBlameAnnotationState(enabled, editor)] *)
Definition setBlameAnnotationState (enabled : bool) (editor : option TextEditor)
    (getOrAdd : TrackedDocument) (now : Z) (st : State) : State :=
  let '(st1, refresh1) :=
    match _blameAnnotationState st with
    | None => (set_blameAnnotationState (Some (AnnotationState.new enabled)) st, true)
    | Some s =>
        let '(s', r) := AnnotationState.reset enabled s in
        (set_blameAnnotationState (Some s') st, r)
    end in
  match editor with
  | None => st1
  | Some ed =>
      if negb refresh1 then st1
      else refresh (Some ed) false None getOrAdd now st1
  end.

(** [toggleAnnotations(editor)] *)
Definition toggleAnnotations (editor : option TextEditor)
    (getOrAdd : TrackedDocument) (now : Z) (st : State) : State :=
  setBlameAnnotationState (negb (getBlameAnnotationState_enabled st)) editor getOrAdd now st.

(** ** Event handlers *)

(** Each handler takes the parts of its event that it reads, and
    [window.activeTextEditor] as [active]. *)

(** [onDirtyIdleTriggered(e)], with [e.document.lineCount]. *)
Definition onDirtyIdleTriggered (lineCount : Z) (active : option TextEditor)
    (getOrAdd : TrackedDocument) (now : Z) (st : State) : State :=
  let maxLines := advanced_blame_sizeThresholdAfterEdit (config st) in
  if (0 <? maxLines) && (maxLines <? lineCount) then st
  else resumeBlameAnnotations AnnotationState.dirty active false getOrAdd now st.

(** [onDirtyStateChanged(e)], with [e.dirty]. *)
Definition onDirtyStateChanged (dirty : bool) (active : option TextEditor)
    (getOrAdd : TrackedDocument) (now : Z) (st : State) : State :=
  if dirty
  then suspendBlameAnnotations AnnotationState.dirty active false getOrAdd now st
  else resumeBlameAnnotations AnnotationState.dirty active true getOrAdd now st.

(** [onActiveLinesChanged(e)] *)
Definition onActiveLinesChanged (e : LinesChangeEvent)
    (getOrAdd : TrackedDocument) (now : Z) (st : State) : State :=
  match lines_pending e, lines e with
  | false, Some _ => refresh (lines_editor e) false None getOrAdd now st
  | _, _ =>
      clear (lines_editor e)
        (statusBar_reduceFlicker (config st) && reason_is_lines e
         && match lines e with Some _ => true | None => false end)
        st
  end.

(** [onBlameStateChanged(e)], with [e.blameable] and [e.editor]. *)
Definition onBlameStateChanged (blameable : bool) (editor : option TextEditor)
    (getOrAdd : TrackedDocument) (now : Z) (st : State) : State :=
  if blameable then refresh editor false None getOrAdd now st
  else clear editor false st.

(** ** The blame update *)

(** [updateStatusBar(commit, editor)]; the tooltip and command chosen by
    [cfg.command] are not part of the state. *)
Definition updateStatusBar (commit : GitCommit) (editor : TextEditor) (st : State) : State :=
  match _statusBarItem st with
  | None => st
  | Some _ =>
      if negb (statusBar_enabled (config st)) || negb (isTextEditor editor) then st
      else set_statusBarItem (Some (mkStatusBarItem (Some commit) true)) st
  end.

(** [updateTrailingAnnotations(lines, editor)] *)
Definition updateTrailingAnnotations (bls : list GitBlameLine) (editor : TextEditor)
    (st : State) : State :=
  if negb (getBlameAnnotationState_enabled st) || negb (isTextEditor editor)
  then clearAnnotations (Some editor) st
  else set_effects
         (effects st
          ++ [SetDecorations (editor_object editor)
                (map (fun l => mkDecoration (blame_line l) (blame_commit l)) bls)])
         st.

(** [updateBlame(lines, editor, trackedDocument)] up to its first [await]:
    the state, and the blame query it waits for, if any. *)
Definition updateBlame_begin (ls : list Z) (editor : TextEditor)
    (trackedDocument : TrackedDocument) (st : State) : State * option BlameRequest :=
  let st1 := lineTracker_reset st in
  if negb (includesAll ls st1) || updateBlame_pending st1 then (st1, None)
  else
    let u := tracked_uri trackedDocument in
    let dirty := isDirty (document editor) in
    match ls with
    | [l] => (st1, Some (if dirty then GetBlameForLineContents u l else GetBlameForLine u l))
    | _ => (st1, Some (if dirty then GetBlameForFileContents u else GetBlameForFile u))
    end.

(** [blameLines] as computed from the awaited result: [None] when the
    provider returned [undefined], [Some None] when [blame.lines[l]] is
    undefined for some line (reading its [sha] throws). *)
Definition blameLines_of (ls : list Z) (result : BlameResult)
  : option (option (list GitBlameLine)) :=
  match result with
  | LineBlame None => None
  | LineBlame (Some b) => Some (Some [b])
  | FileBlame None => None
  | FileBlame (Some blame) =>
      Some (mapM (fun l => if l <? 0 then None else blame !! Z.to_nat l) ls)
  end.

(** [updateBlame] from the point where the awaited blame query resolves
    with [result], run in the state the controller is in at that time.
    [editor] and [trackedDocument] are read as they are then;
    [tracker_get] says whether [Container.tracker.get(editor.document)]
    finds a tracked document. *)
Definition updateBlame_resume (ls : list Z) (editor : TextEditor)
    (trackedDocument : TrackedDocument) (result : BlameResult)
    (tracker_get : bool) (st : State) : State :=
  match blameLines_of ls result with
  | None => clear (Some editor) false st
  | Some None => st
  | Some (Some blameLines) =>
      let checked : State * bool :=
        if includesAll ls st && isBlameable trackedDocument
           && negb (updateBlame_pending st)
        then
          if negb (getBlameAnnotationState_enabled st) then
            if negb (statusBar_enabled (config st))
            then (clear (Some editor) false st, true)
            else (clearAnnotations (Some editor) st, false)
          else (st, false)
        else (st, false) in
      let '(st1, returned) := checked in
      if returned then st1
      else
        match blameLines with
        | [] => st1
        | activeLine :: _ =>
            let st2 := lineTracker_setState (blame_line activeLine)
                         (GitLineState_new (blame_commit activeLine)) st1 in
            let st3 :=
              if isDirty (document editor) && tracker_get
              then set_effects
                     (effects st2
                      ++ [SetForceDirtyStateChangeOnNextDocumentChange
                            (object (document editor))])
                     st2
              else st2 in
            updateTrailingAnnotations blameLines editor
              (updateStatusBar (blame_commit activeLine) editor st3)
        end
  end.

(** The timer of the debounced [updateBlame] expires at [now]: the call
    starts with the arguments of the last request. *)
Definition updateBlame_elapsed (now : Z) (st : State)
  : option (State * UpdateBlameArgs * option BlameRequest) :=
  match _updateBlameDebounced st with
  | Some d =>
      match timer d with
      | Some (deadline, (ls, editor, td)) =>
          if deadline <=? now then
            let '(st1, request) :=
              updateBlame_begin ls editor td
                (set_updateBlameDebounced (Some (cancel d)) st) in
            Some (st1, (ls, editor, td), request)
          else None
      | None => None
      end
  | None => None
  end.

(** ** Debug sessions and the annotation commands *)

(** [onDebugSessionStarted()], as far as the state goes: the listener for
    the end of the session is a disposable outside the state. *)
Definition onDebugSessionStarted (active : option TextEditor)
    (getOrAdd : TrackedDocument) (now : Z) (st : State) : State :=
  suspendBlameAnnotations AnnotationState.debugging active false getOrAdd now st.

(** [onDebugSessionEnded()] *)
Definition onDebugSessionEnded (active : option TextEditor)
    (getOrAdd : TrackedDocument) (now : Z) (st : State) : State :=
  resumeBlameAnnotations AnnotationState.debugging active false getOrAdd now st.

(** [showAnnotations(editor)] *)
Definition showAnnotations (editor : option TextEditor)
    (getOrAdd : TrackedDocument) (now : Z) (st : State) : State :=
  setBlameAnnotationState true editor getOrAdd now st.

(** [onFileAnnotationsToggled()] *)
Definition onFileAnnotationsToggled (active : option TextEditor)
    (getOrAdd : TrackedDocument) (now : Z) (st : State) : State :=
  refresh active false None getOrAdd now st.

(** An effect that puts no decoration on an editor. *)
Definition decoratesNothing (e : Effect) : bool :=
  match e with
  | SetDecorations _ [] => true
  | SetDecorations _ (_ :: _) => false
  | SetForceDirtyStateChangeOnNextDocumentChange _ => true
  end.

(** Something that needs the blame of the current line is switched on:
    the condition under which [refresh] goes on to the tracker. *)
Definition wantsBlame (st : State) : bool :=
  getBlameAnnotationState_enabled st || statusBar_enabled (config st)
  || (hovers_enabled (config st) && hovers_currentLine_enabled (config st)).

(** The state [refresh] goes on with for [editor]: when the editor
    differs from the current one, the decorations of the current one are
    cleared and [editor] becomes the current one. *)
Definition refresh_switch (ed : TextEditor) (st : State) : State :=
  if differs (_editor st) (Some ed)
  then set_editor (Some ed) (clearAnnotations (_editor st) st)
  else st.

(** The debounced [updateBlame] with a call at [now] for the active lines:
    what [refresh] leaves in [_updateBlameDebounced]. *)
Definition refresh_request (ed : TextEditor) (td : TrackedDocument) (now : Z)
    (st : State) : option (Debounced UpdateBlameArgs) :=
  match lineTracker_lines st with
  | Some ls =>
      Some (schedule now (ls, ed, td)
              (match _updateBlameDebounced st with
               | Some d => d
               | None => debounce 50
               end))
  | None => _updateBlameDebounced st
  end.

(** The state in which [refresh] calls the debounced [updateBlame]: the
    hover providers are registered anew on a full refresh, on a change of
    editor, or when none are registered. *)
Definition refresh_hovers (ed : TextEditor) (full : bool) (st : State) : State :=
  let st1 := refresh_switch ed st in
  let cfg := config st1 in
  if hovers_enabled cfg && hovers_currentLine_enabled cfg
     && ((if differs (_editor st) (Some ed) then true else full)
         || match _hoverProviderDisposable st1 with
            | None => true
            | Some _ => false
            end)
  then registerHoverProviders (Some ed)
         (hovers_currentLine_details cfg) (hovers_currentLine_changes cfg) st1
  else st1.

(** The blame query [updateBlame] issues for [ls] in [editor]. *)
Definition blameRequest_for (ls : list Z) (editor : TextEditor)
    (trackedDocument : TrackedDocument) : BlameRequest :=
  let u := tracked_uri trackedDocument in
  match ls with
  | [l] => if isDirty (document editor) then GetBlameForLineContents u l
           else GetBlameForLine u l
  | _ => if isDirty (document editor) then GetBlameForFileContents u
         else GetBlameForFile u
  end.

End Controller.

End CurrentLineController.

(* ===================================================================== *)
(** * ResultsExplorer *)
(* ===================================================================== *)

Module ResultsExplorer.

(** The classes of result nodes, with the constructor arguments that
    identify what they show. *)
Inductive NodeKind : Set :=
| ComparisonResultsNode (repoPath ref1 ref2 : string)
| CommitResultsNode (sha : string)
| CommitsResultsNode (repoPath : string)
| MessageNode (message : string).

(** An [ExplorerNode] object: its identity and its class. *)
Record ExplorerNode : Set := mkNode {
  node_object : nat;
  kind : NodeKind
}.

(** [ISavedComparisionResult | ISavedSearchResult], told apart by [type]. *)
Inductive SavedResult : Set :=
| SavedComparison (repoPath ref1 ref2 : string)
| SavedSearch (repoPath : string).

(** The private field [_roots]; the two settings the explorer reads (the
    workspace-state entry behind [keepResults], which may be absent, and the
    configured [resultsExplorer.savedResults], which may be undefined); the
    counter from which [new] takes object identities; and what the explorer
    did to nodes and to the tree view: [dispose()] and [refresh()] calls on
    nodes, and the arguments of [_onDidChangeTreeData.fire], oldest first. *)
Record State : Set := mkState {
  _roots : list ExplorerNode;
  workspaceState_keepResults : option bool;
  savedResults : option (list SavedResult);
  nextNode : nat;
  disposedNodes : list nat;
  refreshedNodes : list nat;
  treeDataChanged : list (option ExplorerNode)
}.

Definition set_roots (v : list ExplorerNode) (st : State) : State :=
  mkState v (workspaceState_keepResults st) (savedResults st) (nextNode st)
    (disposedNodes st) (refreshedNodes st) (treeDataChanged st).

Definition set_workspaceState_keepResults (v : option bool) (st : State) : State :=
  mkState (_roots st) v (savedResults st) (nextNode st) (disposedNodes st)
    (refreshedNodes st) (treeDataChanged st).

Definition set_savedResults (v : option (list SavedResult)) (st : State) : State :=
  mkState (_roots st) (workspaceState_keepResults st) v (nextNode st)
    (disposedNodes st) (refreshedNodes st) (treeDataChanged st).

Definition set_nextNode (v : nat) (st : State) : State :=
  mkState (_roots st) (workspaceState_keepResults st) (savedResults st) v
    (disposedNodes st) (refreshedNodes st) (treeDataChanged st).

Definition set_disposedNodes (v : list nat) (st : State) : State :=
  mkState (_roots st) (workspaceState_keepResults st) (savedResults st)
    (nextNode st) v (refreshedNodes st) (treeDataChanged st).

Definition set_refreshedNodes (v : list nat) (st : State) : State :=
  mkState (_roots st) (workspaceState_keepResults st) (savedResults st)
    (nextNode st) (disposedNodes st) v (treeDataChanged st).

Definition set_treeDataChanged (v : list (option ExplorerNode)) (st : State) : State :=
  mkState (_roots st) (workspaceState_keepResults st) (savedResults st)
    (nextNode st) (disposedNodes st) (refreshedNodes st) v.

(** [this._roots.includes(node)]: object identity. *)
Definition includes (node : ExplorerNode) (nodes : list ExplorerNode) : bool :=
  existsb (fun n => Nat.eqb (node_object n) (node_object node)) nodes.

(** [get keepResults()]: the workspace-state entry, [false] by default. *)
Definition keepResults (st : State) : bool :=
  match workspaceState_keepResults st with
  | Some b => b
  | None => false
  end.

(** [refresh(reason)]: logs, then fires the tree event without argument. *)
Definition refresh (st : State) : State :=
  set_treeDataChanged (treeDataChanged st ++ [None]) st.

(** [refreshNode(node, args)] with [args] undefined. *)
Definition refreshNode (node : ExplorerNode) (st : State) : State :=
  let st1 := set_refreshedNodes (refreshedNodes st ++ [node_object node]) st in
  set_treeDataChanged
    (treeDataChanged st1 ++ [if includes node (_roots st1) then None else Some node])
    st1.

(** The loop of [fromSaved()]: a new comparison node for each saved result
    of type ['comparison'], with object identities from [next] on. *)
Fixpoint fromSaved_nodes (saved : list SavedResult) (next : nat) : list ExplorerNode :=
  match saved with
  | [] => []
  | SavedComparison repoPath ref1 ref2 :: rest =>
      mkNode next (ComparisonResultsNode repoPath ref1 ref2)
      :: fromSaved_nodes rest (S next)
  | SavedSearch _ :: rest => fromSaved_nodes rest next
  end.

(** [fromSaved()] *)
Definition fromSaved (st : State) : list ExplorerNode * State :=
  let nodes :=
    match savedResults st with
    | Some saved => fromSaved_nodes saved (nextNode st)
    | None => []
    end in
  (nodes, set_nextNode (nextNode st + length nodes)%nat st).

(** [clearResults()] *)
Definition clearResults (st : State) : State :=
  match _roots st with
  | [] => st
  | _ =>
      let st1 := set_disposedNodes (disposedNodes st ++ map node_object (_roots st)) st in
      let '(nodes, st2) := fromSaved st1 in
      refresh (set_roots nodes st2)
  end.

(** [addResults(results)] *)
Definition addResults (results : ExplorerNode) (st : State) : bool * State :=
  if includes results (_roots st) then (false, st)
  else
    let st1 :=
      if (0 <? length (_roots st))%nat && negb (keepResults st)
      then clearResults st
      else st in
    let st2 := set_roots (results :: _roots st1) st1 in
    (true, refreshNode results st2).

(** [this._roots.findIndex(n => n === node)]; [None] is [-1]. *)
Fixpoint findIndex (node : ExplorerNode) (nodes : list ExplorerNode) : option nat :=
  match nodes with
  | [] => None
  | n :: rest =>
      if Nat.eqb (node_object n) (node_object node) then Some 0%nat
      else option_map S (findIndex node rest)
  end.

(** [clearResultsNode(node)] *)
Definition clearResultsNode (node : ExplorerNode) (st : State) : State :=
  match findIndex node (_roots st) with
  | None => st
  | Some i =>
      refresh
        (set_disposedNodes (disposedNodes st ++ [node_object node])
           (set_roots (delete i (_roots st)) st))
  end.

(** The nodes that [fromSaved()] builds in state [st]. *)
Definition savedNodes (st : State) : list ExplorerNode :=
  match savedResults st with
  | Some saved => fromSaved_nodes saved (nextNode st)
  | None => []
  end.

(** A state with two roots, nothing kept, and two saved results. *)
Definition explorer_example : State :=
  mkState [mkNode 0 (CommitResultsNode "abc"); mkNode 1 (CommitsResultsNode "/repo")]
          None
          (Some [SavedSearch "/repo"; SavedComparison "/repo" "master" "develop"])
          2 [] [] [].

(** ** The commands of the explorer *)

(** [new ...Node(...)]: a new object, of the given class. *)
Definition newNode (k : NodeKind) (st : State) : ExplorerNode * State :=
  (mkNode (nextNode st) k, set_nextNode (S (nextNode st)) st).

(** The two command contexts the explorer sets. *)
Inductive CommandContext : Set :=
| CommandContext_ResultsExplorer
| CommandContext_ResultsExplorerKeepResults.

(** What the explorer asks of the host. *)
Inductive HostCall : Set :=
| SetCommandContext (key : CommandContext) (value : bool)
| ExecuteCommand (command : string)
| ShowResultExplorerInfoMessage
| RegisterTreeDataProvider (viewId : string).

(** The explorer and its calls to the host, oldest first. *)
Record View : Set := mkView {
  explorer : State;
  hostCalls : list HostCall
}.

Definition call (c : HostCall) (v : View) : View :=
  mkView (explorer v) (hostCalls v ++ [c]).

Definition onExplorer (f : State -> State) (v : View) : View :=
  mkView (f (explorer v)) (hostCalls v).

(** The last value a command context was set to, if it was set. *)
Fixpoint lastContext (key : CommandContext) (calls : list HostCall) : option bool :=
  match calls with
  | [] => None
  | c :: rest =>
      match lastContext key rest with
      | Some b => Some b
      | None =>
          match c, key with
          | SetCommandContext CommandContext_ResultsExplorer b,
            CommandContext_ResultsExplorer => Some b
          | SetCommandContext CommandContext_ResultsExplorerKeepResults b,
            CommandContext_ResultsExplorerKeepResults => Some b
          | _, _ => None
          end
      end
  end.

(** [showResults()]; the awaited host command completes before anything
    else runs. *)
Definition showResults (v : View) : View :=
  call (SetCommandContext CommandContext_ResultsExplorer true)
    (call ShowResultExplorerInfoMessage
       (call (ExecuteCommand "workbench.view.explorer") v)).

(** [showComparisonInResults(repoPath, ref1, ref2)], the refs given by
    their [ref] strings. *)
Definition showComparisonInResults (repoPath ref1 ref2 : string) (v : View) : View :=
  let '(n, st1) := newNode (ComparisonResultsNode repoPath ref1 ref2) (explorer v) in
  showResults (mkView (snd (addResults n st1)) (hostCalls v)).

(** [showCommitInResults(commit)] *)
Definition showCommitInResults (sha : string) (v : View) : View :=
  let '(n, st1) := newNode (CommitResultsNode sha) (explorer v) in
  showResults (mkView (snd (addResults n st1)) (hostCalls v)).

(** [showCommitsInResults(results, resultsLabel)]; the label function only
    labels the node. *)
Definition showCommitsInResults (repoPath : string) (v : View) : View :=
  let '(n, st1) := newNode (CommitsResultsNode repoPath) (explorer v) in
  showResults (mkView (snd (addResults n st1)) (hostCalls v)).

(** [close()] *)
Definition close (v : View) : View :=
  call (SetCommandContext CommandContext_ResultsExplorer false)
    (onExplorer clearResults v).

(** [refreshNodes()] *)
Definition refreshNodes (st : State) : State :=
  let st1 := set_refreshedNodes (refreshedNodes st ++ map node_object (_roots st)) st in
  set_treeDataChanged (treeDataChanged st1 ++ [None]) st1.

(** [setKeepResults(enabled)] *)
Definition setKeepResults (enabled : bool) (v : View) : View :=
  call (SetCommandContext CommandContext_ResultsExplorerKeepResults enabled)
    (onExplorer (set_workspaceState_keepResults (Some enabled)) v).

(** [swapComparision(node)] *)
Definition swapComparision (node : ExplorerNode) (v : View) : View :=
  match kind node with
  | ComparisonResultsNode repoPath ref1 ref2 =>
      showComparisonInResults repoPath ref2 ref1 v
  | _ => v
  end.

(** [getChildren(node)]: [children] is [node.getChildren()]. *)
Definition getChildren (children : ExplorerNode -> list ExplorerNode)
    (node : option ExplorerNode) (st : State) : list ExplorerNode * State :=
  match _roots st with
  | [] => let '(n, st1) := newNode (MessageNode "No results") st in ([n], st1)
  | _ =>
      match node with
      | None => (_roots st, st)
      | Some n => (children n, st)
      end
  end.

(** What the handler reads of a [ConfigurationChangeEvent], and
    [Container.config.resultsExplorer.savedResults] as it is when the
    handler runs. *)
Record ConfigurationChangeEvent : Set := mkConfigurationChange {
  initializing : bool;
  changed_resultsExplorer : bool;
  changed_explorers : bool;
  changed_defaultGravatarsStyle : bool;
  config_savedResults : list SavedResult
}.

(** [onConfigurationChanged(e)] *)
Definition onConfigurationChanged (e : ConfigurationChangeEvent) (v : View) : View :=
  if negb (initializing e)
     && negb (changed_resultsExplorer e)
     && negb (changed_explorers e)
     && negb (changed_defaultGravatarsStyle e)
  then v
  else
    let v1 :=
      if negb (initializing e) && negb (0 =? length (_roots (explorer v)))%nat
      then onExplorer refresh v
      else v in
    if initializing e
    then
      let v2 :=
        if (0 <? length (config_savedResults e))%nat
        then
          let '(nodes, st2) := fromSaved (explorer v1) in
          call (SetCommandContext CommandContext_ResultsExplorer true)
            (mkView (set_roots nodes st2) (hostCalls v1))
        else v1 in
      call (RegisterTreeDataProvider "gitlens.resultsExplorer") v2
    else v1.

(** [new ResultsExplorer()], with the workspace state and the settings as
    they are then. *)
Definition new (keep : option bool) (saved : option (list SavedResult))
    (configSaved : list SavedResult) : View :=
  let st := mkState [] keep saved 0 [] [] [] in
  onConfigurationChanged (mkConfigurationChange true false false false configSaved)
    (call (SetCommandContext CommandContext_ResultsExplorerKeepResults (keepResults st))
       (mkView st [])).

(** What happens to an explorer: the commands it registers, the calls of
    other components and of the host, and a change of the saved results in
    the settings. *)
Inductive Command : Set :=
| ShowComparisonInResults (repoPath ref1 ref2 : string)
| ShowCommitInResults (sha : string)
| ShowCommitsInResults (repoPath : string)
| Close
| Refresh
| RefreshNode (node : ExplorerNode)
| RefreshNodes
| ClearResultsNode (node : ExplorerNode)
| SetKeepResults (enabled : bool)
| SwapComparision (node : ExplorerNode)
| GetChildren
| ConfigurationChanged (e : ConfigurationChangeEvent)
| SavedResultsUpdated (saved : option (list SavedResult)).

Definition exec (c : Command) (v : View) : View :=
  match c with
  | ShowComparisonInResults repoPath ref1 ref2 =>
      showComparisonInResults repoPath ref1 ref2 v
  | ShowCommitInResults sha => showCommitInResults sha v
  | ShowCommitsInResults repoPath => showCommitsInResults repoPath v
  | Close => close v
  | Refresh => onExplorer refresh v
  | RefreshNode node => onExplorer (refreshNode node) v
  | RefreshNodes => onExplorer refreshNodes v
  | ClearResultsNode node => onExplorer (clearResultsNode node) v
  | SetKeepResults enabled => setKeepResults enabled v
  | SwapComparision node => swapComparision node v
  | GetChildren => onExplorer (fun st => snd (getChildren (fun _ => []) None st)) v
  | ConfigurationChanged e => onConfigurationChanged e v
  | SavedResultsUpdated saved => onExplorer (set_savedResults saved) v
  end.

(** The views an explorer can be in. *)
Inductive reachable : View -> Prop :=
| reachable_new keep saved configSaved : reachable (new keep saved configSaved)
| reachable_exec c v : reachable v -> reachable (exec c v).

(** The roots are distinct objects, all made before the next [new]. *)
Definition rootsDistinct (st : State) : Prop :=
  NoDup (map node_object (_roots st))
  /\ Forall (fun n => (node_object n < nextNode st)%nat) (_roots st).

(** The class of the node that [fromSaved()] builds for a saved result. *)
Definition savedKind (r : SavedResult) : option NodeKind :=
  match r with
  | SavedComparison repoPath ref1 ref2 => Some (ComparisonResultsNode repoPath ref1 ref2)
  | SavedSearch _ => None
  end.

(** No root has been disposed, no node was disposed twice, and the disposed
    nodes were all made before the next [new]. *)
Definition rootsLive (st : State) : Prop :=
  Forall (fun n => ~ In (node_object n) (disposedNodes st)) (_roots st)
  /\ NoDup (disposedNodes st)
  /\ Forall (fun i => (i < nextNode st)%nat) (disposedNodes st).

(** The invariant of the explorer. *)
Definition explorer_ok (st : State) : Prop := rootsDistinct st /\ rootsLive st.

(** The class of the node a command shows, for the commands that show
    one. *)
Definition shownNode (c : Command) : option NodeKind :=
  match c with
  | ShowComparisonInResults repoPath ref1 ref2 =>
      Some (ComparisonResultsNode repoPath ref1 ref2)
  | ShowCommitInResults sha => Some (CommitResultsNode sha)
  | ShowCommitsInResults repoPath => Some (CommitsResultsNode repoPath)
  | SwapComparision node =>
      match kind node with
      | ComparisonResultsNode repoPath ref1 ref2 =>
          Some (ComparisonResultsNode repoPath ref2 ref1)
      | _ => None
      end
  | _ => None
  end.

(** The roots without the object [node]. *)
Definition withoutNode (node : ExplorerNode) (nodes : list ExplorerNode)
  : list ExplorerNode :=
  List.filter (fun n => negb (Nat.eqb (node_object n) (node_object node))) nodes.

(** A new explorer where one comparison is saved, and the node it shows
    for it. *)
Definition view_saved : View :=
  new None (Some [SavedSearch "/repo"; SavedComparison "/repo" "master" "develop"])
    [SavedSearch "/repo"; SavedComparison "/repo" "master" "develop"].

Definition node_saved : ExplorerNode :=
  mkNode 0 (ComparisonResultsNode "/repo" "master" "develop").

End ResultsExplorer.


(* ===================================================================== *)
(** * RecentChangesAnnotationProvider *)
(* ===================================================================== *)

Module RecentChangesAnnotationProvider.

(** What the provider reads of a line of a diff chunk: [line.line], which
    is undefined for a line that the current version does not have, and
    [line.state]. *)
Record GitDiffLine : Set := mkGitDiffLine {
  line : option string;
  state : string
}.

(** [GitDiffChunk]: [currentPosition.start] and [lines]. *)
Record GitDiffChunk : Set := mkGitDiffChunk {
  currentPosition_start : Z;
  lines : list GitDiffLine
}.

(** The settings under [hovers] that the provider reads. *)
Record Config : Set := mkConfig {
  hovers_enabled : bool;
  hovers_annotations_enabled : bool;
  hovers_annotations_details : bool;
  hovers_annotations_changes : bool
}.

(** The two hover messages, by what they are made from:
    [Annotations.getHoverMessage(commit, ...)] and
    [Annotations.getHoverDiffMessage(commit, uri, line)]. *)
Inductive HoverMessage : Set :=
| HoverDetails (commit : string)
| HoverDiff (commit : string) (l : GitDiffLine).

(** [DecorationOptions]; the range is what the document makes of the whole
    line [range_line] when it validates it. *)
Record DecorationOptions : Set := mkDecorationOptions {
  hoverMessage : option HoverMessage;
  range_line : Z
}.

(** The fields of the provider that [onProvideAnnotation] writes, and the
    decorations it has set on its editor, oldest first. *)
Record Provider : Set := mkProvider {
  annotationType_isRecentChanges : bool;
  decorations : list DecorationOptions;
  setDecorations : list (list DecorationOptions)
}.

(** The body of the inner loop for a line that the current version has and
    that is not unchanged: the decorations pushed for line [count]. *)
Definition lineDecorations (cfg : Config) (commit : string) (count : Z)
    (l : GitDiffLine) : list DecorationOptions :=
  let hovers := hovers_enabled cfg && hovers_annotations_enabled cfg in
  (if hovers && hovers_annotations_details cfg
   then [mkDecorationOptions (Some (HoverDetails commit)) count]
   else [])
  ++ [mkDecorationOptions
        (if hovers && hovers_annotations_changes cfg
         then Some (HoverDiff commit l)
         else None)
        count].

(** The inner loop, [for (const line of chunk.lines)], from the counter
    and the decorations pushed so far. *)
Fixpoint chunkLoop (cfg : Config) (commit : string) (count : Z)
    (ls : list GitDiffLine) (pushed : list DecorationOptions)
  : list DecorationOptions :=
  match ls with
  | [] => pushed
  | l :: rest =>
      match line l with
      | None => chunkLoop cfg commit count rest pushed
      | Some _ =>
          let count := count + 1 in
          if String.eqb (state l) "unchanged"
          then chunkLoop cfg commit count rest pushed
          else chunkLoop cfg commit count rest
                 (pushed ++ lineDecorations cfg commit count l)
      end
  end.

(** The outer loop, [for (const chunk of diff.chunks)]. *)
Fixpoint chunksLoop (cfg : Config) (commit : string) (chunks : list GitDiffChunk)
    (pushed : list DecorationOptions) : list DecorationOptions :=
  match chunks with
  | [] => pushed
  | chunk :: rest =>
      chunksLoop cfg commit rest
        (chunkLoop cfg commit (currentPosition_start chunk - 2) (lines chunk) pushed)
  end.

(** [onProvideAnnotation(shaOrLine)]: [commit] and [diff] are what
    [getRecentLogCommitForFile] and [getDiffForFile] resolve to, [None]
    being undefined. *)
Definition onProvideAnnotation (cfg : Config) (commit : option string)
    (diff : option (list GitDiffChunk)) (p : Provider) : bool * Provider :=
  let p1 := mkProvider true (decorations p) (setDecorations p) in
  match commit with
  | None => (false, p1)
  | Some c =>
      match diff with
      | None => (false, p1)
      | Some chunks =>
          let ds := chunksLoop cfg c chunks [] in
          (true, mkProvider true ds (setDecorations p1 ++ [ds]))
      end
  end.

(** The lines of a chunk that the current version has. *)
Definition currentLines (ls : list GitDiffLine) : list GitDiffLine :=
  List.filter (fun l => match line l with Some _ => true | None => false end) ls.

(** The decorations of a chunk, line by line: the [i]-th line that the
    current version has is line [start - 1 + i] of the editor, and is
    decorated unless it is unchanged. *)
Definition chunkDecorations (cfg : Config) (commit : string) (start : Z)
    (ls : list GitDiffLine) : list DecorationOptions :=
  concat (imap (fun i l =>
                  if String.eqb (state l) "unchanged" then []
                  else lineDecorations cfg commit (start - 1 + Z.of_nat i) l)
               (currentLines ls)).

(** The number of decorations pushed for each changed line. *)
Definition perLine (cfg : Config) : nat :=
  if hovers_enabled cfg && hovers_annotations_enabled cfg
     && hovers_annotations_details cfg
  then 2%nat else 1%nat.

(** The lines of a chunk that the current version has and that changed. *)
Definition changedLines (ls : list GitDiffLine) : list GitDiffLine :=
  List.filter (fun l => negb (String.eqb (state l) "unchanged")) (currentLines ls).

(** A diff of two chunks: one line replaced at line 3, and two lines added
    after an unchanged one at line 10. *)
Definition diff_example : list GitDiffChunk :=
  [mkGitDiffChunk 3 [mkGitDiffLine None "removed"; mkGitDiffLine (Some "b") "added"];
   mkGitDiffChunk 10 [mkGitDiffLine (Some "x") "unchanged";
                      mkGitDiffLine (Some "y") "added";
                      mkGitDiffLine (Some "z") "added"]].

End RecentChangesAnnotationProvider.

(* ===================================================================== *)
(** * BranchNode *)
(* ===================================================================== *)

Module BranchNode.

(** What the node reads of its [GitBranch]; [tracking] may be undefined,
    and [ahead] and [behind] are the two counters of [branch.state]. *)
Record GitBranch : Set := mkGitBranch {
  name : string;
  current : bool;
  remote : bool;
  tracking : option string;
  state_ahead : Z;
  state_behind : Z
}.

(** The values of [ResourceType] that a branch node takes. *)
Inductive ResourceType : Set :=
| RemoteBranch
| CurrentBranchWithTracking
| CurrentBranch
| BranchWithTracking
| Branch.

Inductive ExplorerBranchesLayout : Set := List | Tree.

(** The settings of the explorer that the node reads. *)
Record Config : Set := mkConfig {
  branches_layout : ExplorerBranchesLayout;
  showTrackingBranch : bool
}.

(** The [TreeItem] as the node fills it in; its collapsible state is always
    [Collapsed]. *)
Record TreeItem : Set := mkTreeItem {
  item_label : string;
  tooltip : string;
  contextValue : ResourceType;
  iconPath_dark : string;
  iconPath_light : string
}.

(** A string used as a condition: undefined and the empty string are
    false. *)
Definition truthy (s : option string) : bool :=
  match s with
  | Some s => negb (String.eqb s "")
  | None => false
  end.

(** A number used as a condition: zero is false. *)
Definition nonzero (n : Z) : bool := negb (n =? 0).

(** The line feed of a template string. *)
Definition newline : string := String (Ascii.ascii_of_nat 10) EmptyString.

Section Node.

(** The methods of [GitBranch], the glyphs of [GlyphChars], the printing
    of a number in a template string, and [context.asAbsolutePath], which
    are defined elsewhere. *)
Variable getName : GitBranch -> string.
Variable getBasename : GitBranch -> string.
Variable isValid : string -> bool.
Variable GlyphChars_Space GlyphChars_ArrowLeftRight GlyphChars_Dash GlyphChars_Check
  : string.
Variable Number_toString : Z -> string.
Variable asAbsolutePath : string -> string.

(** [get label()] *)
Definition label (cfg : Config) (branch : GitBranch) : string :=
  let branchName := getName branch in
  match branches_layout cfg with
  | List => branchName
  | Tree =>
      if isValid branchName && negb (current branch)
      then getBasename branch
      else branchName
  end.

(** [get ref()] *)
Definition ref (branch : GitBranch) : string := name branch.

(** The suffix of the icon: the branch is ahead and behind, ahead, behind,
    or neither, of the branch it tracks. *)
Definition iconSuffix (branch : GitBranch) : string :=
  if truthy (tracking branch) then
    if nonzero (state_ahead branch) && nonzero (state_behind branch) then "-yellow"
    else if nonzero (state_ahead branch) then "-green"
    else if nonzero (state_behind branch) then "-red"
    else ""
  else ""%string.

(** [getTreeItem()] *)
Definition getTreeItem (cfg : Config) (branch : GitBranch) : TreeItem :=
  (  let name0 := label cfg branch in
  let tooltip0 := name0 ++ (if current branch then " (current)" else "") in
  let '(name1, tooltip1) :=
    match remote branch, tracking branch, showTrackingBranch cfg with
    | false, Some t, true =>
        let name1 :=
          name0 ++ " " ++ GlyphChars_Space ++ GlyphChars_ArrowLeftRight
                ++ GlyphChars_Space ++ " " ++ t in
        let tooltip1 :=
          tooltip0 ++ newline ++ newline ++ "Tracking "
                   ++ GlyphChars_Dash ++ " " ++ t in
        let tooltip2 :=
          if nonzero (state_ahead branch) || nonzero (state_behind branch)
          then
            let tooltip_a :=
              if nonzero (state_ahead branch)
              then tooltip1 ++ newline ++ Number_toString (state_ahead branch)
                            ++ " "
                            ++ (if (state_ahead branch =? 1)%Z then "commit" else "commits")
                            ++ " ahead"
              else tooltip1 in
            if nonzero (state_behind branch)
            then tooltip_a ++ newline ++ Number_toString (state_behind branch)
                           ++ " "
                           ++ (if (state_behind branch =? 1)%Z then "commit" else "commits")
                           ++ " behind"
            else tooltip_a
          else tooltip1 ++ newline ++ "up-to-date" in
        (name1, tooltip2)
    | _, _, _ => (name0, tooltip0)
    end in
  let contextValue0 :=
    if remote branch then RemoteBranch
    else if current branch
    then (if truthy (tracking branch) then CurrentBranchWithTracking else CurrentBranch)
    else (if truthy (tracking branch) then BranchWithTracking else Branch) in
  mkTreeItem
    ((if current branch then GlyphChars_Check ++ " " ++ GlyphChars_Space else "")
     ++ name1)
    tooltip1
    contextValue0
    (asAbsolutePath ("images/dark/icon-branch" ++ iconSuffix branch ++ ".svg"))
    (asAbsolutePath ("images/light/icon-branch" ++ iconSuffix branch ++ ".svg")))%string.

End Node.

(** The context value says that the branch tracks another. *)
Definition withTracking (r : ResourceType) : bool :=
  match r with
  | CurrentBranchWithTracking | BranchWithTracking => true
  | _ => false
  end.

(** The context value says that the branch is the current one. *)
Definition isCurrent (r : ResourceType) : bool :=
  match r with
  | CurrentBranchWithTracking | CurrentBranch => true
  | _ => false
  end.

(** A local branch that is two commits ahead of the branch it tracks, and
    an explorer that shows branches as a tree, with the tracked branch. *)
Definition feature_branch : GitBranch :=
  mkGitBranch "feature/x" false false (Some "origin/feature/x") 2 0.

Definition config_tree : Config := mkConfig Tree true.

End BranchNode.

(* ===================================================================== *)
(** * Concrete hosts and documents *)
(* ===================================================================== *)

Module Examples.
Import Host.

Definition file_uri (path : string) : Uri := mkUri "file" path.

(** A document of the host, at [path], with the given dirty flag. *)
Definition host_document (n : nat) (path : string) (dirty : bool) (nlines : Z)
  : TextDocument :=
  mkTextDocument (HostObject n) LF path false dirty false "typescript" nlines
    (file_uri path) 1 None.

(** A host in which [/repo/gone.ts] no longer exists at the revision asked
    for, [/repo/locked.ts] cannot be read, and every other file opens. *)
#[global] Instance example_env : Env := {|
  toKey := fsPath;
  fileUri := gitUri_uri;
  openTextDocument := fun u =>
    if String.eqb (fsPath u) "/repo/gone.ts"
    then inl (mkException "Error: File not found (/repo/gone.ts)")
    else if String.eqb (fsPath u) "/repo/locked.ts"
    then inl (mkException "Error: EACCES: permission denied")
    else inr (host_document 100 (fsPath u) false 10);
  isTextEditor := fun _ => true;
  DocumentSchemes_File := "file"
|}.

Definition gone_at_revision : GitUri :=
  mkGitUri (file_uri "/repo/gone.ts") (Some "a1b2c3") (Some "/repo").

Definition locked_at_revision : GitUri :=
  mkGitUri (file_uri "/repo/locked.ts") (Some "a1b2c3") (Some "/repo").

(** The file [/repo/a.ts], read while its dirty flag is as given, and the
    editor showing it. *)
Definition a_ts (dirty : bool) : TextDocument := host_document 1 "/repo/a.ts" dirty 10.

Definition editor_a : TextEditor := mkTextEditor 1 (a_ts false) false.

(** A tracker constructed with the given delay and initialized while
    [editor_a] is the active editor: [/repo/a.ts] is tracked, clean. *)
Definition tracking_a (delayAfterEdit : Z) : DocumentTracker.State :=
  DocumentTracker.initialize (DocumentTracker.new delayAfterEdit (Some editor_a)).

(** The user sets [advanced.blame.delayAfterEdit] to 0. *)
Definition delay_set_to_zero : DocumentTracker.ConfigurationChangeEvent :=
  DocumentTracker.mkConfigurationChange false false false true 0.

(** The state a trace of events leads to; the state itself when the trace
    cannot happen. *)
Definition after (evs : list DocumentTracker.Event) (st : DocumentTracker.State)
  : DocumentTracker.State :=
  match DocumentTracker.run evs st with
  | Some st' => st'
  | None => st
  end.




(** ** The controller on [/repo/a.ts] *)

(** Trailing annotations and the status bar are on, hovers are off; the
    size threshold is as given. *)
Definition config_with (sizeThreshold : Z) : CurrentLineController.IConfig :=
  CurrentLineController.mkIConfig true true false false false false false sizeThreshold.

Definition tracked_a : CurrentLineController.TrackedDocument :=
  CurrentLineController.mkTrackedDocument (file_uri "/repo/a.ts") true.

(** A controller that shows nothing yet, with a status bar item, while the
    active lines are [ls]. *)
Definition controller_on (ls : list Z) (sizeThreshold : Z)
  : CurrentLineController.State :=
  CurrentLineController.mkState None None
    (Some (CurrentLineController.mkStatusBarItem None false)) None None
    (Some ls) ∅ (config_with sizeThreshold) [].

Definition commit_of_line_5 : CurrentLineController.GitCommit :=
  CurrentLineController.mkGitCommit "5f3a9c1".

(** The blame of line 5 as the Git provider returns it. *)
Definition blame_of_line_5 : CurrentLineController.BlameResult :=
  CurrentLineController.LineBlame
    (Some (CurrentLineController.mkGitBlameLine 5 commit_of_line_5)).

(** Line 5 is active and a refresh at time 0 requests a blame update; its
    debounce expires at time 50 and [updateBlame] starts for line 5. *)
Definition blame_started
  : option (CurrentLineController.State * CurrentLineController.UpdateBlameArgs
            * option CurrentLineController.BlameRequest) :=
  CurrentLineController.updateBlame_elapsed 50
    (CurrentLineController.refresh (Some editor_a) true None tracked_a 0
       (controller_on [5] 0)).

(** While the blame query for line 5 is awaited, the active line becomes
    line 9 at time 60: the line tracker holds [9] and announces it. *)
Definition line_moved (st : CurrentLineController.State) : CurrentLineController.State :=
  CurrentLineController.onActiveLinesChanged
    (CurrentLineController.mkLinesChange (Some editor_a) (Some [9]) false true)
    tracked_a 60
    (CurrentLineController.set_lineTracker_lines (Some [9]) st).

(** A large file, and the editor showing it. *)
Definition big_ts (dirty : bool) : TextDocument :=
  host_document 2 "/repo/big.ts" dirty 100000.

Definition editor_big : TextEditor := mkTextEditor 2 (big_ts false) false.

Definition tracked_big : CurrentLineController.TrackedDocument :=
  CurrentLineController.mkTrackedDocument (file_uri "/repo/big.ts") true.

(** A controller, with a threshold of 5000 lines, whose annotations were
    enabled and are suspended because the document became dirty. *)
Definition suspended_dirty : CurrentLineController.State :=
  CurrentLineController.mkState
    (Some (AnnotationState.mk true (Some AnnotationState.dirty)))
    (Some editor_big)
    (Some (CurrentLineController.mkStatusBarItem None false)) None None
    (Some [5]) ∅ (config_with 5000) [].

(** A controller with annotations, status bar and hovers all switched
    off, on line 5. *)
Definition controller_off : CurrentLineController.State :=
  CurrentLineController.mkState None (Some editor_a) None
    (Some [CurrentLineController.DetailsHover]) None (Some [5]) ∅
    (CurrentLineController.mkIConfig false false false false false false false 0) [].

(** The blame of a file of three lines. *)
Definition blame_of_three_lines : list CurrentLineController.GitBlameLine :=
  [CurrentLineController.mkGitBlameLine 0 (CurrentLineController.mkGitCommit "aaa0001");
   CurrentLineController.mkGitBlameLine 1 (CurrentLineController.mkGitCommit "bbb0002");
   CurrentLineController.mkGitBlameLine 2 (CurrentLineController.mkGitCommit "aaa0001")].

End Examples.
(* ===================================================================== *)
(** * Properties of AnnotationState *)
(* ===================================================================== *)

Section AnnotationStateProperties.
Import AnnotationState.





(** C1, as stated, fails: after [suspend('debugging')] and
    [suspend('dirty')], a single [resume('debugging')] on a state created
    enabled leaves it not suspended, and [enabled] is true again. *)
Lemma C1_resume_debugging_unsuspends :
  let s := run [Suspend debugging; Suspend dirty; Resume debugging] (new true) in
  suspended s = false /\ enabled s = true.
Proof. split; reflexivity. Qed.

(** C1, amended: after [suspend('debugging')] then [suspend('dirty')] the
    tracked reason is ['dirty'] and [enabled] is false; [resume] does not
    read its reason, so a single [resume('debugging')] clears the suspension
    and [enabled] is the underlying flag again. *)
Theorem C1_last_suspend_wins_and_resume_clears (s : t) :
  let s2 := run [Suspend debugging; Suspend dirty] s in
  let s3 := run [Resume debugging] s2 in
  _suspendReason s2 = Some dirty /\ enabled s2 = false
  /\ suspended s3 = false /\ enabled s3 = _enabled s.
Proof. repeat split. Qed.

(** C2: after any sequence of [reset], [suspend] and [resume] calls from any
    state, if a suspend reason is set then the [enabled] getter is false,
    whatever the underlying flag is. *)
Theorem C2_suspended_is_not_enabled (s : t) (cs : list Call) :
  _suspendReason (run cs s) <> None -> enabled (run cs s) = false.
Proof.
  intros H. unfold enabled, suspended.
  destruct (_suspendReason (run cs s)); [reflexivity|congruence].
Qed.

Lemma C2_suspended_is_not_enabled_witness :
  _enabled (run [Reset true; Suspend debugging] (new false)) = true
  /\ enabled (run [Reset true; Suspend debugging] (new false)) = false.
Proof.
  split; [reflexivity|].
  apply (C2_suspended_is_not_enabled (new false) [Reset true; Suspend debugging]).
  simpl. discriminate.
Defined.



End AnnotationStateProperties.

(* ===================================================================== *)
(** * Properties of ResultsExplorer *)
(* ===================================================================== *)

Section ResultsExplorerProperties.
Import ResultsExplorer.


(** When results are kept, or there are none yet, the node is put in front
    of the roots as they are. *)
Lemma addResults_keeps (results : ExplorerNode) (st : State) :
  includes results (_roots st) = false ->
  _roots st = [] \/ keepResults st = true ->
  fst (addResults results st) = true
  /\ _roots (snd (addResults results st)) = results :: _roots st.
Proof.
  intros Hin Hk. unfold addResults. rewrite Hin.
  assert (Hc : (0 <? length (_roots st))%nat && negb (keepResults st) = false).
  { destruct Hk as [Hk|Hk]; rewrite Hk; [reflexivity|apply andb_false_r]. }
  rewrite Hc. split; reflexivity.
Qed.



End ResultsExplorerProperties.

(* ===================================================================== *)
(** * Properties of DocumentTracker: adding documents *)
(* ===================================================================== *)

Section DocumentTrackerAdd.
Import Host Functions DocumentTracker.
Context {env : Env}.

(** [includes] is the substring test of JavaScript. *)
Example includes_examples :
  includes "File not found" "Error: File not found (/repo/gone.ts)" = true
  /\ includes "File not found" "Error: EACCES: permission denied" = false
  /\ includes "" "abc" = true
  /\ includes "abc" "ab" = false.
Proof. repeat split. Qed.

(** [addCore] appends the new record and registers it under both keys. *)
Lemma addCore_spec (d : TextDocument) (st : State) :
  let doc := length (trackedDocuments st) in
  fst (addCore d st) = doc
  /\ trackedDocuments (snd (addCore d st))
     = trackedDocuments st ++ [TrackedDocument_new d (toKey (uri d)) false]
  /\ _documentMap (snd (addCore d st)) !! KDocument (object d) = Some doc
  /\ _documentMap (snd (addCore d st)) !! KString (toKey (uri d)) = Some doc.
Proof.
  simpl. repeat split.
  - rewrite lookup_insert_ne by discriminate. apply lookup_insert_eq.
  - apply lookup_insert_eq.
Qed.

Lemma lookup_alter_last {A : Type} (f : A -> A) (l : list A) (x : A) :
  alter f (length l) (l ++ [x]) !! length l = Some (f x).
Proof.
  rewrite list_lookup_alter_eq.
  rewrite lookup_app_r by lia.
  replace (length l - length l)%nat with 0%nat by lia. reflexivity.
Qed.

(** C8: [add] of a [GitUri] whose document cannot be opened.  If the
    failure says 'File not found', [add] does not throw: it makes a
    missing-revision placeholder (a new object, never dirty, no lines, at
    the versioned uri), tracks it under both keys, initializes the record
    and returns it.  Any other failure is thrown to the caller. *)
Theorem C8_add_missing_revision (g : GitUri) (ex : Exception) (st : State) :
  openTextDocument (fileUri g) = inl ex ->
  (includes "File not found" (toString ex) = true ->
   let d := MissingRevisionTextDocument (nextPlaceholder st) g in
   exists st',
     add (OfGitUri g) st = inr (length (trackedDocuments st), st')
     /\ object d = PlaceholderObject (nextPlaceholder st)
     /\ isDirty d = false /\ lineCount d = 0 /\ uri d = fileUri g
     /\ gitUri d = Some g
     /\ trackedDocuments st' !! length (trackedDocuments st)
        = Some (TrackedDocument_ensureInitialized
                  (TrackedDocument_new d (toKey (uri d)) false))
     /\ _documentMap st' !! KDocument (object d) = Some (length (trackedDocuments st))
     /\ _documentMap st' !! KString (toKey (uri d)) = Some (length (trackedDocuments st)))
  /\ (includes "File not found" (toString ex) = false ->
      add (OfGitUri g) st = inl ex).
Proof.
  intros Hopen. split; intros Hmsg.
  - intros d. unfold add, _add. rewrite Hopen, Hmsg. cbn [negb].
    eexists. split; [reflexivity|].
    repeat split.
    + cbn. apply lookup_alter_last.
    + cbn. rewrite lookup_insert_ne by discriminate. apply lookup_insert_eq.
    + cbn. apply lookup_insert_eq.
  - unfold add, _add. rewrite Hopen, Hmsg. reflexivity.
Qed.

End DocumentTrackerAdd.

Section DocumentTrackerAddWitness.
Import Host Functions DocumentTracker Examples.

Lemma C8_add_missing_revision_witness :
  (exists st',
     add (OfGitUri gone_at_revision) (new 0 None) = inr (0%nat, st')
     /\ _documentMap st' !! KString "/repo/gone.ts" = Some 0%nat)
  /\ add (OfGitUri locked_at_revision) (new 0 None)
     = inl (mkException "Error: EACCES: permission denied").
Proof.
  split.
  - destruct (C8_add_missing_revision gone_at_revision
                (mkException "Error: File not found (/repo/gone.ts)")
                (new 0 None)) as [H _]; [reflexivity|].
    destruct H as (st' & Hadd & _ & _ & _ & _ & _ & _ & _ & Hkey); [reflexivity|].
    exists st'. split; [exact Hadd|exact Hkey].
  - destruct (C8_add_missing_revision locked_at_revision
                (mkException "Error: EACCES: permission denied")
                (new 0 None)) as [_ H]; [reflexivity|].
    apply H. reflexivity.
Defined.

End DocumentTrackerAddWitness.

(* ===================================================================== *)
(** * Properties of DocumentTracker: text changes *)
(* ===================================================================== *)

Section DocumentTrackerChanges.
Import Host Functions DocumentTracker.
Context {env : Env}.

Lemma afterIdleFeed_sources d doc st :
  dirtyStateSources (afterIdleFeed d doc st) = dirtyStateSources st.
Proof.
  unfold afterIdleFeed. cbn.
  destruct (_dirtyIdleTriggeredDebounced st); [destruct (isDirty d)|]; reflexivity.
Qed.

Lemma afterIdleFeed_tracked d doc r st :
  trackedDocuments st !! doc = Some r ->
  trackedDocuments (afterIdleFeed d doc st) !! doc = Some (TrackedDocument_reset r).
Proof.
  intros Hr. unfold afterIdleFeed. cbn.
  assert (alter TrackedDocument_reset doc (trackedDocuments st) !! doc
          = Some (TrackedDocument_reset r)) as H.
  { rewrite list_lookup_alter_eq, Hr. reflexivity. }
  destruct (_dirtyIdleTriggeredDebounced st); [destruct (isDirty d)|]; exact H.
Qed.

(** [onTextDocumentChanged] on a tracked document of the file scheme, step
    by step. *)
Lemma onTextDocumentChanged_tracked d doc r st :
  scheme (uri d) = DocumentSchemes_File ->
  _documentMap st !! KDocument (object d) = Some doc ->
  trackedDocuments st !! doc = Some r ->
  onTextDocumentChanged d st =
    let st3 := afterIdleFeed d doc st in
    if negb (forceDirtyStateChangeOnNextDocumentChange r)
       && Bool.eqb (dirty r) (isDirty d)
    then st3
    else
      let st4 := updateTracked doc (TrackedDocument_setDirty (isDirty d)) st3 in
      match activeTextEditor st with
      | None => st4
      | Some ed =>
          if negb (same_document (document ed) d) then st4
          else fireDocumentDirtyStateChanged (mkDirtyState ed doc (isDirty d)) st4
      end.
Proof.
  intros Hs Hm Hr. unfold onTextDocumentChanged.
  rewrite Hs, String.eqb_refl, Hm. cbn [negb].
  fold (afterIdleFeed d doc st).
  rewrite (afterIdleFeed_tracked d doc r st Hr). reflexivity.
Qed.

(** C7: on a text change of a tracked document, something from which a
    dirty-state-changed notification can come (a queued immediate, a timer
    of the debounced delivery, a delivered notification) changes only if the
    dirty flag of the record differs from that of the document or the
    force flag of the record is set, and the active editor shows the changed
    document; in every other case all of these stay as they were. *)
Theorem C7_dirty_state_only_on_flip_of_active_document
    (d : TextDocument) (doc : nat) (r : TrackedDocument) (st : State) :
  _documentMap st !! KDocument (object d) = Some doc ->
  trackedDocuments st !! doc = Some r ->
  dirtyStateSources (onTextDocumentChanged d st) <> dirtyStateSources st ->
  (dirty r <> isDirty d \/ forceDirtyStateChangeOnNextDocumentChange r = true)
  /\ exists ed, activeTextEditor st = Some ed /\ object (document ed) = object d.
Proof.
  intros Hm Hr Hne.
  destruct (String.eqb (scheme (uri d)) DocumentSchemes_File) eqn:Hs.
  2:{ exfalso. apply Hne. unfold onTextDocumentChanged. now rewrite Hs. }
  apply String.eqb_eq in Hs.
  rewrite (onTextDocumentChanged_tracked d doc r st Hs Hm Hr) in Hne.
  cbv zeta in Hne.
  destruct (forceDirtyStateChangeOnNextDocumentChange r) eqn:Hf;
    destruct (Bool.eqb (dirty r) (isDirty d)) eqn:Hd; cbn [negb andb] in Hne.
  all: try (exfalso; apply Hne; apply afterIdleFeed_sources).
  all: (split;
        [ first [ right; reflexivity
                | left; intros E; rewrite E, Bool.eqb_reflx in Hd; discriminate ]
        | ]).
  all: destruct (activeTextEditor st) as [ed|] eqn:Ha;
    [ | exfalso; apply Hne;
        exact (afterIdleFeed_sources d doc st) ].
  all: unfold same_document in Hne;
    destruct (bool_decide_reflect (object (document ed) = object d)) as [Ho|Ho];
    [ exists ed; split; [reflexivity|exact Ho]
    | exfalso; apply Hne; exact (afterIdleFeed_sources d doc st) ].
Qed.

End DocumentTrackerChanges.

Section DocumentTrackerChangesWitness.
Import Host Functions DocumentTracker Examples.

Lemma C7_dirty_state_only_on_flip_of_active_document_witness :
  (dirty (TrackedDocument_new (a_ts false) "/repo/a.ts" false) <> isDirty (a_ts true)
   \/ forceDirtyStateChangeOnNextDocumentChange
        (TrackedDocument_new (a_ts false) "/repo/a.ts" false) = true)
  /\ exists ed, activeTextEditor (tracking_a 0) = Some ed
                /\ object (document ed) = object (a_ts true).
Proof.
  apply (C7_dirty_state_only_on_flip_of_active_document (a_ts true) 0%nat
           (TrackedDocument_new (a_ts false) "/repo/a.ts" false) (tracking_a 0)).
  - reflexivity.
  - reflexivity.
  - vm_compute. discriminate.
Defined.

End DocumentTrackerChangesWitness.

(* ===================================================================== *)
(** * Properties of DocumentTracker: the idle trigger *)
(* ===================================================================== *)

Section DocumentTrackerIdle.
Import Host Functions DocumentTracker.
Context {env : Env}.

Lemma dirtyIdleObserved_fire (n : Notification) (st : State) :
  is_dirtyIdle (now st, n) = false ->
  dirtyIdleObserved (fire n st) = dirtyIdleObserved st.
Proof.
  intros Hn. unfold dirtyIdleObserved, fire. cbn [fired set_fired].
  rewrite List.filter_app. cbn [List.filter]. rewrite Hn. apply app_nil_r.
Qed.

Ltac idle_fields :=
  unfold idleDisabled, dirtyIdleObserved in *; cbn in *; intuition (try lia; try congruence).

Lemma idleDisabled_fireDocumentDirtyStateChanged e st :
  idleDisabled st -> idleDisabled (fireDocumentDirtyStateChanged e st).
Proof.
  intros (Hd & Hr & Hs & Ho). unfold fireDocumentDirtyStateChanged.
  destruct (dsc_dirty e).
  - cbn [_dirtyIdleTriggerDelay set_immediates].
    destruct (Z.ltb_spec 0 (_dirtyIdleTriggerDelay st)); [lia|]. idle_fields.
  - idle_fields.
Qed.

Lemma idleDisabled_updateTracked doc f st :
  idleDisabled st -> idleDisabled (updateTracked doc f st).
Proof. intros H. idle_fields. Qed.

Lemma idleDisabled_addCore d st :
  idleDisabled st -> idleDisabled (snd (addCore d st)).
Proof. intros H. idle_fields. Qed.

Lemma idleDisabled_onTextDocumentChanged d st :
  idleDisabled st -> idleDisabled (onTextDocumentChanged d st).
Proof.
  intros H. unfold onTextDocumentChanged.
  destruct (negb _); [exact H|].
  destruct (_documentMap st !! KDocument (object d)) as [doc|].
  - set (st2 := updateTracked doc TrackedDocument_reset st).
    assert (H2 : idleDisabled st2) by now apply idleDisabled_updateTracked.
    destruct H2 as (? & Hr & ? & ?). rewrite Hr.
    destruct (trackedDocuments st2 !! doc) as [r|]; [|repeat split; assumption].
    destruct (_ && _); [repeat split; assumption|].
    assert (H4 : idleDisabled (updateTracked doc (TrackedDocument_setDirty (isDirty d)) st2)).
    { apply idleDisabled_updateTracked. repeat split; assumption. }
    destruct (activeTextEditor st2) as [ed|]; [|exact H4].
    destruct (negb _); [exact H4|].
    now apply idleDisabled_fireDocumentDirtyStateChanged.
  - destruct (addCore d st) as [doc st1] eqn:E.
    assert (H1 : idleDisabled st1).
    { change st1 with (snd (doc, st1)). rewrite <- E. now apply idleDisabled_addCore. }
    set (st2 := updateTracked doc TrackedDocument_reset st1).
    assert (H2 : idleDisabled st2) by now apply idleDisabled_updateTracked.
    destruct H2 as (? & Hr & ? & ?). rewrite Hr.
    destruct (trackedDocuments st2 !! doc) as [r|]; [|repeat split; assumption].
    destruct (_ && _); [repeat split; assumption|].
    assert (H4 : idleDisabled (updateTracked doc (TrackedDocument_setDirty (isDirty d)) st2)).
    { apply idleDisabled_updateTracked. repeat split; assumption. }
    destruct (activeTextEditor st2) as [ed|]; [|exact H4].
    destruct (negb _); [exact H4|].
    now apply idleDisabled_fireDocumentDirtyStateChanged.
Qed.

Lemma idleDisabled_step ev st st' :
  idleDisabled st ->
  keepsDelayNonPositive ev = true ->
  step ev st = Some st' ->
  idleDisabled st'.
Proof.
  intros H Hk Hstep. destruct ev; cbn [step] in Hstep.
  - (* configuration *)
    injection Hstep as <-. cbn [keepsDelayNonPositive] in Hk.
    apply Z.leb_le in Hk. unfold onConfigurationChanged.
    destruct (negb (initializing e) && _); destruct (initializing e || _); idle_fields.
  - injection Hstep as <-. idle_fields.
  - injection Hstep as <-. unfold onActiveTextEditorChanged.
    destruct editor as [ed|]; [|exact H].
    destruct (negb _); [exact H|].
    destruct (_ !! _); [exact H|]. now apply idleDisabled_addCore.
  - injection Hstep as <-. now apply idleDisabled_onTextDocumentChanged.
  - injection Hstep as <-. unfold onTextDocumentClosed.
    destruct (_ !! _); [|exact H]. idle_fields.
  - injection Hstep as <-. unfold onTextDocumentSaved.
    destruct (_ !! _).
    + destruct H as (? & ? & ? & ?). repeat split; try assumption.
      now rewrite dirtyIdleObserved_fire.
    + destruct (isActiveDocument d st); [|exact H]. now apply idleDisabled_addCore.
  - (* add *)
    unfold add, _add in Hstep.
    destruct documentOrId as [d|g|u].
    + injection Hstep as <-. idle_fields.
    + destruct (openTextDocument (fileUri g)) as [ex|d].
      * destruct (negb _); injection Hstep as <-; [exact H|]. idle_fields.
      * injection Hstep as <-. idle_fields.
    + destruct (openTextDocument u) as [ex|d]; injection Hstep as <-; [exact H|].
      idle_fields.
  - injection Hstep as <-. idle_fields.
  - injection Hstep as <-. idle_fields.
  - (* immediate *)
    destruct (immediates st) as [|e rest] eqn:E; [discriminate|].
    injection Hstep as <-. unfold dirtyStateImmediate.
    destruct (_dirtyStateChangedDebounced (set_immediates rest st)) as [x|];
      destruct (negb _); try (idle_fields; fail).
    all: destruct H as (? & ? & ? & ?); repeat split; try assumption;
      rewrite dirtyIdleObserved_fire by reflexivity; assumption.
  - (* idle timer: there is none *)
    destruct H as (_ & _ & Hs & _). rewrite Hs in Hstep. discriminate.
  - (* state timer *)
    destruct (_dirtyStateChangedDebounced st) as [x|]; [|discriminate].
    destruct (timer x) as [[deadline e]|]; [|discriminate].
    destruct (deadline <=? now st); [|discriminate].
    injection Hstep as <-. unfold dirtyStateChanged.
    destruct (negb _); [idle_fields|].
    destruct H as (? & ? & ? & ?); repeat split; try assumption.
    rewrite dirtyIdleObserved_fire by reflexivity. assumption.
  - destruct (_ && _); [|discriminate]. injection Hstep as <-. idle_fields.
Qed.

(** While every configuration read gives a delay of zero or below, nothing
    arms an idle trigger: from a tracker constructed with such a delay, no
    sequence of events delivers an idle-trigger notification. *)
Lemma idle_never_fires_while_delay_nonpositive
    (delay : Z) (active : option TextEditor) (evs : list Event) (st : State) :
  delay <= 0 ->
  forallb keepsDelayNonPositive evs = true ->
  run evs (new delay active) = Some st ->
  dirtyIdleObserved st = [].
Proof.
  intros Hd Hk Hrun.
  assert (H0 : idleDisabled (new delay active)).
  { unfold new, onConfigurationChanged. cbn. repeat split. exact Hd. }
  revert Hk Hrun. generalize (new delay active) H0. clear Hd.
  induction evs as [|ev evs IH]; intros s Hs Hk Hrun; cbn in *.
  - injection Hrun as <-. apply Hs.
  - apply andb_prop in Hk as [Hev Hevs].
    destruct (step ev s) as [s'|] eqn:E; [|discriminate].
    apply (IH s'); [|exact Hevs|exact Hrun].
    now apply (idleDisabled_step ev s).
Qed.

End DocumentTrackerIdle.

Section DocumentTrackerIdleStaleTimer.
Import Host Functions DocumentTracker Examples.

(** C4 at the failing input.  The tracker is constructed with a delay of
    100ms; [/repo/a.ts] becomes dirty in the active editor, which arms the
    idle trigger; the delay is then set to 0.  After the change the tracker
    holds delay 0 and no debounced idle trigger, yet when the 100ms of the
    dropped debounced function have passed its timer expires and the
    idle-trigger notification is delivered. *)
Theorem C4_idle_fires_after_delay_set_to_zero :
  exists st1 st2,
    run [TextDocumentChanged (a_ts true); RunImmediate;
         ConfigurationChanged delay_set_to_zero; Wait 100] (tracking_a 100) = Some st1
    /\ _dirtyIdleTriggerDelay st1 = 0
    /\ _dirtyIdleTriggeredDebounced st1 = None
    /\ dirtyIdleObserved st1 = []
    /\ step (IdleTimerElapsed 0) st1 = Some st2
    /\ _dirtyIdleTriggerDelay st2 = 0
    /\ dirtyIdleObserved st2
       = [(100, DidTriggerDirtyIdle (mkDirtyIdle (Some editor_a) 0))].
Proof.
  eexists. eexists.
  split; [vm_compute; reflexivity|].
  repeat split; vm_compute; reflexivity.
Qed.

End DocumentTrackerIdleStaleTimer.

(* ===================================================================== *)
(** * Properties of DocumentTracker: delivery of dirty-state changes *)
(* ===================================================================== *)

Section DocumentTrackerDelivery.
Import Host Functions DocumentTracker.
Context {env : Env}.



(** A text change that flips the dirty flag of the tracked record of the
    active document reaches [fireDocumentDirtyStateChanged]. *)
Lemma onTextDocumentChanged_flip d doc r ed st :
  scheme (uri d) = DocumentSchemes_File ->
  _documentMap st !! KDocument (object d) = Some doc ->
  trackedDocuments st !! doc = Some r ->
  forceDirtyStateChangeOnNextDocumentChange r = false ->
  dirty r = negb (isDirty d) ->
  activeTextEditor st = Some ed ->
  object (document ed) = object d ->
  onTextDocumentChanged d st
  = fireDocumentDirtyStateChanged (mkDirtyState ed doc (isDirty d))
      (updateTracked doc (TrackedDocument_setDirty (isDirty d)) (afterIdleFeed d doc st)).
Proof.
  intros Hs Hm Hr Hf Hd Ha Ho.
  rewrite (onTextDocumentChanged_tracked d doc r st Hs Hm Hr).
  cbv zeta. rewrite Hf, Hd, Ha.
  unfold same_document. rewrite bool_decide_eq_true_2 by exact Ho.
  destruct (isDirty d); reflexivity.
Qed.


(** The active document becomes dirty: the delivery is queued for the next
    turn of the event loop; nothing is delivered yet and the debounced
    delivery of "clean" is as it was. *)
Lemma becomes_dirty d doc ed st :
  scheme (uri d) = DocumentSchemes_File ->
  activeTracked d doc ed false st ->
  let st' := onTextDocumentChanged (readDirty true d) st in
  activeTracked d doc ed true st'
  /\ immediates st' = immediates st ++ [mkDirtyState ed doc true]
  /\ _dirtyStateChangedDebounced st' = _dirtyStateChangedDebounced st
  /\ now st' = now st
  /\ fired st' = fired st.
Proof.
  intros Hs (Hm & (r & Hr & Hd & Hf) & Ha & Ho). intros st'.
  assert (E : st' = fireDocumentDirtyStateChanged (mkDirtyState ed doc true)
                 (updateTracked doc (TrackedDocument_setDirty true)
                    (afterIdleFeed (readDirty true d) doc st))).
  { subst st'. apply (onTextDocumentChanged_flip (readDirty true d) doc r ed st);
      assumption. }
  rewrite E. clear E st'.
  unfold fireDocumentDirtyStateChanged, afterIdleFeed, dirtyIdleTriggeredDebounced_ensure.
  cbn [dsc_dirty isDirty readDirty].
  assert (Hrec : alter (TrackedDocument_setDirty true) doc
                   (alter TrackedDocument_reset doc (trackedDocuments st)) !! doc
                 = Some (TrackedDocument_setDirty true (TrackedDocument_reset r))).
  { rewrite !list_lookup_alter_eq, Hr. reflexivity. }
  destruct (_dirtyIdleTriggeredDebounced st) as [t|] eqn:Et;
    cbn -[Z.add Z.ltb]; rewrite ?Et; cbn -[Z.add Z.ltb];
    destruct (0 <? _dirtyIdleTriggerDelay st); cbn -[Z.add Z.ltb]; rewrite ?Et;
    cbn -[Z.add Z.ltb].
  all: repeat split; try assumption.
  all: eexists; split; [exact Hrec|split; reflexivity].
Qed.






Lemma run_step ev evs st st' :
  step ev st = Some st' -> run (ev :: evs) st = run evs st'.
Proof. intros H. cbn [run]. now rewrite H. Qed.

Lemma run_stuck ev evs st :
  step ev st = None -> run (ev :: evs) st = None.
Proof. intros H. cbn [run]. now rewrite H. Qed.


End DocumentTrackerDelivery.

Section DocumentTrackerDeliveryExamples.
Import Host Functions DocumentTracker Examples.



End DocumentTrackerDeliveryExamples.

(* ===================================================================== *)
(** * Properties of CurrentLineController *)
(* ===================================================================== *)

Section CurrentLineControllerProperties.
Import Host Functions CurrentLineController.
Context {env : Env}.

Lemma clearAnnotations_fields editor st :
  _blameAnnotationState (clearAnnotations editor st) = _blameAnnotationState st
  /\ lineTracker_state (clearAnnotations editor st) = lineTracker_state st
  /\ _statusBarItem (clearAnnotations editor st) = _statusBarItem st.
Proof.
  unfold clearAnnotations. destruct editor as [ed|]; [destruct (_disposed ed)|];
    repeat split.
Qed.

Lemma clear_blameAnnotationState editor reason st :
  _blameAnnotationState (clear editor reason st) = _blameAnnotationState st.
Proof.
  unfold clear, lineTracker_reset, unregisterHoverProviders, clearAnnotations.
  repeat (case_match; cbn); reflexivity.
Qed.

(** A refresh does not touch the annotation state. *)
Lemma refresh_blameAnnotationState editor full trackedDocument getOrAdd now st :
  _blameAnnotationState (refresh editor full trackedDocument getOrAdd now st)
  = _blameAnnotationState st.
Proof.
  unfold refresh.
  destruct editor as [ed|]; destruct (_editor st) as [cur|] eqn:Ecur;
    try reflexivity; try apply clear_blameAnnotationState.
  all: destruct (lineTracker_lines st) as [ls|] eqn:Els;
    try apply clear_blameAnnotationState.
  all: destruct (differs _ _).
  all: cbv zeta iota beta.
  all: repeat match goal with
         | |- context [if ?c then _ else _] => destruct c
         end;
       rewrite ?clear_blameAnnotationState; try reflexivity.
  all: unfold registerHoverProviders, unregisterHoverProviders, clearAnnotations.
  all: repeat (case_match; cbn); try reflexivity.
Qed.

(** [resumeBlameAnnotations] on a suspended state, forced or not. *)
Lemma resumeBlameAnnotations_suspended reason editor force getOrAdd now s st :
  _blameAnnotationState st = Some s ->
  AnnotationState.suspended s = true ->
  let st1 := set_blameAnnotationState
               (Some (AnnotationState.mk (AnnotationState._enabled s) None)) st in
  resumeBlameAnnotations reason editor force getOrAdd now st
  = match editor with
    | None => st1
    | Some ed => refresh (Some ed) false None getOrAdd now st1
    end.
Proof.
  intros Hs Hsusp. unfold resumeBlameAnnotations. rewrite Hs, Hsusp.
  cbn [negb andb]. rewrite andb_false_r.
  unfold AnnotationState.resume. rewrite Hsusp. cbn [negb andb].
  rewrite andb_false_r. reflexivity.
Qed.

(** C6, amended.  While the annotations are suspended with reason 'dirty':
    when the document becomes clean the controller resumes them, and
    refreshes the active editor, whatever the size of the document, as
    [onDirtyStateChanged] does not read the size threshold; on the idle
    trigger the controller resumes them unless the threshold is positive and
    the line count of the document exceeds it, in which case nothing
    changes. *)
Theorem C6_clean_resumes_idle_respects_threshold
    (s : AnnotationState.t) (nlines : Z) (active : option TextEditor)
    (getOrAdd : TrackedDocument) (now : Z) (st : State) :
  _blameAnnotationState st = Some s ->
  AnnotationState._suspendReason s = Some AnnotationState.dirty ->
  let maxLines := advanced_blame_sizeThresholdAfterEdit (config st) in
  let resumed := Some (AnnotationState.mk (AnnotationState._enabled s) None) in
  let refreshed :=
    match active with
    | None => set_blameAnnotationState resumed st
    | Some ed => refresh (Some ed) false None getOrAdd now
                   (set_blameAnnotationState resumed st)
    end in
  onDirtyStateChanged false active getOrAdd now st = refreshed
  /\ _blameAnnotationState refreshed = resumed
  /\ (0 < maxLines < nlines ->
      onDirtyIdleTriggered nlines active getOrAdd now st = st)
  /\ (~ 0 < maxLines < nlines ->
      onDirtyIdleTriggered nlines active getOrAdd now st = refreshed).
Proof.
  intros Hs Hreason maxLines resumed refreshed.
  assert (Hsusp : AnnotationState.suspended s = true).
  { unfold AnnotationState.suspended. now rewrite Hreason. }
  split; [|split; [|split]].
  - unfold onDirtyStateChanged.
    apply (resumeBlameAnnotations_suspended _ _ _ _ _ s st Hs Hsusp).
  - subst refreshed. destruct active as [ed|]; [|reflexivity].
    now rewrite refresh_blameAnnotationState.
  - intros [H0 H1]. unfold onDirtyIdleTriggered. fold maxLines.
    destruct (Z.ltb_spec 0 maxLines); [|lia].
    destruct (Z.ltb_spec maxLines nlines); [|lia]. reflexivity.
  - intros Hn. unfold onDirtyIdleTriggered. fold maxLines.
    rewrite (resumeBlameAnnotations_suspended _ _ _ _ _ s st Hs Hsusp).
    destruct (Z.ltb_spec 0 maxLines); destruct (Z.ltb_spec maxLines nlines);
      cbn [andb]; try reflexivity.
    lia.
Qed.

(** A blame result that resolves when the active lines no longer include
    the lines it was fetched for, or when a newer update is pending, is
    applied all the same: the check after the [await] guards only the
    branch for disabled annotations, and the line state of the first blamed
    line is written whatever the check gives. *)
Lemma stale_result_writes_line_state ls editor td result tracker_get bl rest st :
  includesAll ls st && isBlameable td && negb (updateBlame_pending st) = false ->
  blameLines_of ls result = Some (Some (bl :: rest)) ->
  lineTracker_state (updateBlame_resume ls editor td result tracker_get st)
    !! blame_line bl
  = Some (GitLineState_new (blame_commit bl)).
Proof.
  intros Hstale Hres. unfold updateBlame_resume. rewrite Hres, Hstale.
  unfold updateTrailingAnnotations, updateStatusBar, clearAnnotations,
    lineTracker_setState.
  repeat (case_match; cbn); apply lookup_insert_eq.
Qed.

End CurrentLineControllerProperties.

Section CurrentLineControllerExamples.
Import Host Functions CurrentLineController Examples.

(** C6, as stated, fails.  The annotations are suspended with reason
    'dirty', the threshold is 5000 lines and the active document has 100000
    lines.  When it becomes clean the annotations are resumed and a blame
    update is requested: the resumption is not skipped. *)
Lemma C6_clean_resumes_above_threshold :
  let st := onDirtyStateChanged false (Some editor_big) tracked_big 1000 suspended_dirty in
  advanced_blame_sizeThresholdAfterEdit (config suspended_dirty) = 5000
  /\ lineCount (document editor_big) = 100000
  /\ _blameAnnotationState suspended_dirty
     = Some (AnnotationState.mk true (Some AnnotationState.dirty))
  /\ _blameAnnotationState st = Some (AnnotationState.mk true None)
  /\ updateBlame_pending st = true.
Proof. repeat split. Qed.

Lemma C6_clean_resumes_idle_respects_threshold_witness :
  onDirtyIdleTriggered 100000 (Some editor_big) tracked_big 1000 suspended_dirty
  = suspended_dirty
  /\ _blameAnnotationState
       (onDirtyStateChanged false (Some editor_big) tracked_big 1000 suspended_dirty)
     = Some (AnnotationState.mk true None).
Proof.
  destruct (C6_clean_resumes_idle_respects_threshold
              (AnnotationState.mk true (Some AnnotationState.dirty)) 100000
              (Some editor_big) tracked_big 1000 suspended_dirty)
    as (Hclean & Hresumed & Hskip & _); [reflexivity|reflexivity|].
  split.
  - apply Hskip. cbn. lia.
  - rewrite Hclean. exact Hresumed.
Defined.

(** C5 at the failing input.  Line 5 is active; the debounced [updateBlame]
    starts for line 5 and awaits [getBlameForLine]; the active line becomes
    line 9, which requests a new update; then the blame of line 5 arrives.
    The active lines do not include line 5 and a newer update is pending,
    yet the line state of line 5 is written, the status bar shows the commit
    of line 5, and the trailing decoration of line 5 is set. *)
Theorem C5_stale_blame_is_applied :
  exists st ed td,
    blame_started
    = Some (st, ([5], ed, td), Some (GetBlameForLine (file_uri "/repo/a.ts") 5))
    /\ includesAll [5] (line_moved st) = false
    /\ updateBlame_pending (line_moved st) = true
    /\ lineTracker_state (line_moved st) !! 5 = None
    /\ let st' := updateBlame_resume [5] ed td blame_of_line_5 true (line_moved st) in
       lineTracker_state st' !! 5 = Some (GitLineState_new commit_of_line_5)
       /\ _statusBarItem st' = Some (mkStatusBarItem (Some commit_of_line_5) true)
       /\ effects st'
          = effects (line_moved st) ++ [SetDecorations 1 [mkDecoration 5 commit_of_line_5]].
Proof.
  do 3 eexists. split; [vm_compute; reflexivity|].
  repeat split; vm_compute; reflexivity.
Qed.

End CurrentLineControllerExamples.

(* ===================================================================== *)
(** * Further properties of AnnotationState *)
(* ===================================================================== *)

Section AnnotationStateSignals.
Import AnnotationState.

Lemma reset_getters (en : bool) (s : t) :
  enabled (fst (reset en s)) = en /\ suspended (fst (reset en s)) = false.
Proof.
  unfold reset.
  destruct (Bool.eqb (_enabled s) en) eqn:E; destruct (suspended s) eqn:Hs;
    cbn [andb negb fst]; unfold enabled; rewrite ?Hs; cbn; try (split; reflexivity).
  apply Bool.eqb_prop in E. now split.
Qed.

(** X1: each of [reset], [suspend] and [resume] returns "refresh required"
    exactly when the call changes what the getters show: [enabled] or
    [suspended]. *)
Theorem X1_refresh_required_iff_getters_change (c : Call) (s : t) :
  snd (call c s) = true
  <-> (enabled (fst (call c s)) <> enabled s
       \/ suspended (fst (call c s)) <> suspended s).
Proof.
  destruct s as [e [r|]]; destruct c as [en|r'|r']; destruct e; try destruct en;
    cbn; split; intros H; try reflexivity; try discriminate;
    try (left; discriminate); try (right; discriminate);
    destruct H as [H|H]; congruence.
Qed.

(** X2: after [reset(enabled)] the getter [enabled] gives the argument and
    the state is not suspended, from every state, also when [reset] returns
    without writing. *)
Theorem X2_reset_sets_enabled_and_clears_suspension (en : bool) (s : t) :
  enabled (fst (reset en s)) = en
  /\ suspended (fst (reset en s)) = false
  /\ (snd (reset en s) = false -> fst (reset en s) = s).
Proof.
  destruct (reset_getters en s) as [He Hs]. repeat split; try assumption.
  unfold reset. destruct (_ && _); [reflexivity|discriminate].
Qed.

End AnnotationStateSignals.

(* ===================================================================== *)
(** * Further properties of CurrentLineController *)
(* ===================================================================== *)

Section CurrentLineControllerCommands.
Import Host Functions CurrentLineController.
Context {env : Env}.

Lemma clear_config editor reason st :
  config (clear editor reason st) = config st.
Proof.
  unfold clear, lineTracker_reset, unregisterHoverProviders, clearAnnotations.
  repeat (case_match; cbn); reflexivity.
Qed.

Lemma refresh_config editor full trackedDocument getOrAdd now st :
  config (refresh editor full trackedDocument getOrAdd now st) = config st.
Proof.
  unfold refresh.
  destruct editor as [ed|]; destruct (_editor st) as [cur|] eqn:Ecur;
    try reflexivity; try apply clear_config.
  all: destruct (lineTracker_lines st) as [ls|] eqn:Els;
    try apply clear_config.
  all: destruct (differs _ _).
  all: cbv zeta iota beta.
  all: repeat match goal with
         | |- context [if ?c then _ else _] => destruct c
         end;
       rewrite ?clear_config; try reflexivity.
  all: unfold registerHoverProviders, unregisterHoverProviders, clearAnnotations.
  all: repeat (case_match; cbn); try reflexivity.
Qed.

Lemma refresh_enabled editor full trackedDocument getOrAdd now st :
  getBlameAnnotationState_enabled (refresh editor full trackedDocument getOrAdd now st)
  = getBlameAnnotationState_enabled st.
Proof.
  unfold getBlameAnnotationState_enabled.
  now rewrite refresh_blameAnnotationState, refresh_config.
Qed.

#[local] Arguments refresh : simpl never.

Lemma setBlameAnnotationState_enabled en editor getOrAdd now st :
  getBlameAnnotationState_enabled (setBlameAnnotationState en editor getOrAdd now st) = en.
Proof.
  unfold setBlameAnnotationState.
  destruct (_blameAnnotationState st) as [s|] eqn:Es.
  - destruct (AnnotationState.reset en s) as [s' r] eqn:Er.
    assert (He : AnnotationState.enabled s' = en).
    { change s' with (fst (s', r)). rewrite <- Er.
      unfold AnnotationState.reset.
      destruct (Bool.eqb (AnnotationState._enabled s) en) eqn:E;
        destruct (AnnotationState.suspended s) eqn:Hs;
        cbn [andb negb fst]; unfold AnnotationState.enabled; rewrite ?Hs; cbn;
        try reflexivity.
      now apply Bool.eqb_prop in E. }
    destruct editor as [ed|]; [destruct (negb r)|]; rewrite ?refresh_enabled;
      unfold getBlameAnnotationState_enabled; cbn; exact He.
  - destruct editor as [ed|]; cbn [negb]; rewrite ?refresh_enabled;
      unfold getBlameAnnotationState_enabled; cbn; destruct en; reflexivity.
Qed.

(** X3: [toggleAnnotations] flips what [getBlameAnnotationState().enabled]
    gives, from every state (suspended ones included, for which it gives
    true afterwards); toggling twice gives the value before. *)
Theorem X3_toggleAnnotations_flips
    (e1 e2 : option TextEditor) (g1 g2 : TrackedDocument) (t1 t2 : Z) (st : State) :
  getBlameAnnotationState_enabled (toggleAnnotations e1 g1 t1 st)
  = negb (getBlameAnnotationState_enabled st)
  /\ getBlameAnnotationState_enabled
       (toggleAnnotations e2 g2 t2 (toggleAnnotations e1 g1 t1 st))
     = getBlameAnnotationState_enabled st.
Proof.
  unfold toggleAnnotations. rewrite !setBlameAnnotationState_enabled.
  split; [reflexivity|apply negb_involutive].
Qed.

Lemma suspendBlameAnnotations_enabled reason editor force getOrAdd now st :
  getBlameAnnotationState_enabled
    (suspendBlameAnnotations reason editor force getOrAdd now st) = false.
Proof.
  unfold suspendBlameAnnotations.
  destruct (_blameAnnotationState st) as [s|] eqn:Es.
  - cbn. destruct editor as [ed|]; [destruct (negb force && _)|];
      rewrite ?refresh_enabled; reflexivity.
  - destruct (getBlameAnnotationState_enabled st) eqn:En; [|exact En].
    cbn. destruct editor as [ed|]; [destruct (negb force && _)|];
      rewrite ?refresh_enabled; reflexivity.
Qed.

Lemma resumeBlameAnnotations_enabled reason editor getOrAdd now st :
  getBlameAnnotationState_enabled
    (resumeBlameAnnotations reason editor true getOrAdd now st)
  = match _blameAnnotationState st with
    | Some s => AnnotationState._enabled s
    | None => currentLine_enabled (config st)
    end.
Proof.
  unfold resumeBlameAnnotations. cbn [negb andb].
  destruct (_blameAnnotationState st) as [s|] eqn:Es.
  - cbn. destruct editor as [ed|]; rewrite ?refresh_enabled; reflexivity.
  - destruct editor as [ed|]; rewrite ?refresh_enabled;
      unfold getBlameAnnotationState_enabled; now rewrite Es.
Qed.

Lemma suspendBlameAnnotations_flag reason editor force getOrAdd now st :
  match _blameAnnotationState
          (suspendBlameAnnotations reason editor force getOrAdd now st) with
  | Some s => AnnotationState._enabled s
  | None => currentLine_enabled (config st)
  end
  = match _blameAnnotationState st with
    | Some s => AnnotationState._enabled s
    | None => currentLine_enabled (config st)
    end.
Proof.
  unfold suspendBlameAnnotations.
  destruct (_blameAnnotationState st) as [s|] eqn:Es.
  - cbn. destruct editor as [ed|]; [destruct (negb force && _)|];
      rewrite ?refresh_blameAnnotationState; reflexivity.
  - unfold getBlameAnnotationState_enabled. rewrite Es.
    destruct (currentLine_enabled (config st)) eqn:Ec; [|now rewrite Es].
    cbn. destruct editor as [ed|]; [destruct (negb force && _)|];
      rewrite ?refresh_blameAnnotationState; reflexivity.
Qed.

Lemma suspendBlameAnnotations_config reason editor force getOrAdd now st :
  config (suspendBlameAnnotations reason editor force getOrAdd now st) = config st.
Proof.
  unfold suspendBlameAnnotations.
  destruct (_blameAnnotationState st) as [s|] eqn:Es.
  - cbn. destruct editor as [ed|]; [destruct (negb force && _)|];
      rewrite ?refresh_config; reflexivity.
  - destruct (getBlameAnnotationState_enabled st); [|reflexivity].
    cbn. destruct editor as [ed|]; [destruct (negb force && _)|];
      rewrite ?refresh_config; reflexivity.
Qed.

(** X4: after the document became dirty the annotations are not enabled,
    from every state; and when it becomes clean again they are enabled
    exactly as they were before it became dirty, provided they were not
    suspended then. *)
Theorem X4_dirty_suspends_clean_restores
    (a1 a2 : option TextEditor) (g1 g2 : TrackedDocument) (t1 t2 : Z) (st : State) :
  let dirtied := onDirtyStateChanged true a1 g1 t1 st in
  getBlameAnnotationState_enabled dirtied = false
  /\ (match _blameAnnotationState st with
      | Some s => AnnotationState.suspended s = false
      | None => True
      end ->
      getBlameAnnotationState_enabled (onDirtyStateChanged false a2 g2 t2 dirtied)
      = getBlameAnnotationState_enabled st).
Proof.
  cbv zeta. unfold onDirtyStateChanged. split.
  - apply suspendBlameAnnotations_enabled.
  - intros Hs. rewrite resumeBlameAnnotations_enabled.
    rewrite suspendBlameAnnotations_config, suspendBlameAnnotations_flag.
    unfold getBlameAnnotationState_enabled, AnnotationState.enabled.
    destruct (_blameAnnotationState st) as [s|]; [|reflexivity].
    now rewrite Hs.
Qed.

End CurrentLineControllerCommands.

Section CurrentLineControllerRefresh.
Import Host Functions CurrentLineController.
Context {env : Env}.

(** What [clear] leaves behind. *)
Lemma clear_fields editor reason st :
  let st' := clear editor reason st in
  _updateBlameDebounced st' = _updateBlameDebounced st
  /\ lineTracker_state st' = ∅
  /\ _hoverProviderDisposable st' = None
  /\ lineTracker_lines st' = lineTracker_lines st
  /\ _editor st' = _editor st
  /\ exists added, effects st' = effects st ++ added
                   /\ forallb decoratesNothing added = true.
Proof.
  unfold clear, lineTracker_reset, unregisterHoverProviders, clearAnnotations.
  repeat (case_match; cbn); repeat split; try reflexivity; try assumption.
  all: first [ exists []; split; [symmetry; apply app_nil_r|reflexivity]
             | eexists; split; [rewrite <- ?app_assoc; reflexivity|reflexivity] ].
Qed.

Lemma refresh_switch_fields ed st :
  let st1 := refresh_switch ed st in
  _updateBlameDebounced st1 = _updateBlameDebounced st
  /\ wantsBlame st1 = wantsBlame st
  /\ lineTracker_lines st1 = lineTracker_lines st
  /\ exists added, effects st1 = effects st ++ added
                   /\ forallb decoratesNothing added = true.
Proof.
  unfold refresh_switch, clearAnnotations.
  destruct (differs (_editor st) (Some ed)) eqn:Ed.
  - destruct (_editor st) as [cur|]; [destruct (_disposed cur)|];
      cbn; repeat split;
      first [ exists []; split; [symmetry; apply app_nil_r|reflexivity]
            | eexists; split; [reflexivity|reflexivity] ].
  - cbn. repeat split. exists []. split; [symmetry; apply app_nil_r|reflexivity].
Qed.

(** [refresh] for an editor while there are active lines, in two cases. *)
Lemma refresh_with_lines ed full getOrAdd now ls st :
  lineTracker_lines st = Some ls ->
  refresh (Some ed) full None getOrAdd now st
  = if wantsBlame (refresh_switch ed st) && isBlameable getOrAdd
    then set_updateBlameDebounced
           (refresh_request ed getOrAdd now (refresh_hovers ed full st))
           (refresh_hovers ed full st)
    else clear (Some ed) false (refresh_switch ed st).
Proof.
  intros Els.
  assert (Hl : lineTracker_lines (refresh_hovers ed full st) = Some ls).
  { unfold refresh_hovers, refresh_switch, registerHoverProviders,
      unregisterHoverProviders, clearAnnotations.
    repeat (case_match; cbn); assumption. }
  unfold refresh_request. rewrite Hl.
  unfold refresh. rewrite Els.
  unfold refresh_hovers in *. unfold wantsBlame. unfold refresh_switch in *.
  destruct (_editor st) as [cur|] eqn:Ecur;
    destruct (differs _ (Some ed)) eqn:Ed; cbv zeta iota beta.
  all: match goal with
       | |- context [if ?c || ?d || ?e then _ else _] => destruct (c || d || e)
       end; cbn [andb]; try reflexivity.
  all: destruct (isBlameable getOrAdd); try reflexivity.
  all: match goal with
       | |- context [if ?c then registerHoverProviders _ _ _ _ else _] =>
           destruct c eqn:Eh
       end; rewrite Hl; reflexivity.
Qed.

Lemma refresh_hovers_fields ed full st :
  let st2 := refresh_hovers ed full st in
  _updateBlameDebounced st2 = _updateBlameDebounced st
  /\ lineTracker_lines st2 = lineTracker_lines st
  /\ lineTracker_state st2 = lineTracker_state st
  /\ _blameAnnotationState st2 = _blameAnnotationState st
  /\ config st2 = config st.
Proof.
  unfold refresh_hovers, refresh_switch, registerHoverProviders,
    unregisterHoverProviders, clearAnnotations.
  repeat (case_match; cbn); repeat split.
Qed.

Lemma includesAll_active ls st :
  lineTracker_lines st = Some ls -> includesAll ls st = true.
Proof.
  intros E. unfold includesAll. rewrite E.
  apply forallb_forall. intros l Hl. apply existsb_exists.
  exists l. split; [exact Hl|apply Z.eqb_refl].
Qed.

(** X5: a refresh for an editor while nothing needs the blame of the
    current line (annotations, status bar and current-line hovers are all
    off), or while the document is not blameable, requests no blame update:
    it empties the line cache, unregisters the hover providers, and sets no
    decoration other than clearing them. *)
Theorem X5_refresh_requests_nothing_without_need
    (ed : TextEditor) (full : bool) (getOrAdd : TrackedDocument) (now : Z) (st : State) :
  wantsBlame st = false \/ isBlameable getOrAdd = false ->
  let st' := refresh (Some ed) full None getOrAdd now st in
  _updateBlameDebounced st' = _updateBlameDebounced st
  /\ lineTracker_state st' = ∅
  /\ _hoverProviderDisposable st' = None
  /\ exists added, effects st' = effects st ++ added
                   /\ forallb decoratesNothing added = true.
Proof.
  intros Hneed. cbv zeta.
  destruct (lineTracker_lines st) as [ls|] eqn:Els.
  - rewrite (refresh_with_lines ed full getOrAdd now ls st Els).
    destruct (refresh_switch_fields ed st) as (Hd & Hw & _ & (a1 & He1 & Ha1)).
    assert (Hc : wantsBlame (refresh_switch ed st) && isBlameable getOrAdd = false).
    { rewrite Hw. destruct Hneed as [->| ->]; [reflexivity|apply andb_false_r]. }
    rewrite Hc.
    destruct (clear_fields (Some ed) false (refresh_switch ed st))
      as (Hd2 & Hs2 & Hh2 & _ & _ & (a2 & He2 & Ha2)).
    cbv zeta in *. repeat split; try assumption.
    + now rewrite Hd2.
    + exists (a1 ++ a2). split.
      * now rewrite He2, He1, app_assoc.
      * rewrite forallb_app, Ha1, Ha2. reflexivity.
  - assert (Hr : refresh (Some ed) full None getOrAdd now st
                 = clear (_editor st) false st).
    { unfold refresh. rewrite Els. destruct (_editor st); reflexivity. }
    rewrite Hr.
    destruct (clear_fields (_editor st) false st) as (? & ? & ? & _ & _ & ?).
    cbv zeta in *. auto.
Qed.

(** X6: a refresh at time [now] for an editor with active lines [ls],
    while something needs the blame and the document is blameable, leaves
    exactly one pending call of the debounced [updateBlame], for [ls] in
    that editor: whatever call was pending before is replaced.  The call
    does not start before 50 milliseconds have passed, and when it starts
    then it issues the blame query for [ls]. *)
Theorem X6_refresh_requests_one_debounced_update
    (ed : TextEditor) (full : bool) (getOrAdd : TrackedDocument) (now : Z)
    (ls : list Z) (st : State) :
  lineTracker_lines st = Some ls ->
  wantsBlame st = true ->
  isBlameable getOrAdd = true ->
  match _updateBlameDebounced st with
  | Some d => wait d = 50
  | None => True
  end ->
  let st' := refresh (Some ed) full None getOrAdd now st in
  _updateBlameDebounced st'
  = Some (mkDebounced 50 (Some (now + 50, (ls, ed, getOrAdd))))
  /\ (forall t, t < now + 50 -> updateBlame_elapsed t st' = None)
  /\ exists st'',
       updateBlame_elapsed (now + 50) st'
       = Some (st'', (ls, ed, getOrAdd), Some (blameRequest_for ls ed getOrAdd))
       /\ updateBlame_pending st'' = false
       /\ lineTracker_state st'' = ∅.
Proof.
  intros Els Hw Hb Hwait. cbv zeta.
  rewrite (refresh_with_lines ed full getOrAdd now ls st Els).
  destruct (refresh_switch_fields ed st) as (_ & Hw1 & _ & _).
  cbv zeta in Hw1. rewrite Hw1, Hw, Hb. cbn [andb].
  destruct (refresh_hovers_fields ed full st) as (Hd2 & Hl2 & _ & _ & _).
  cbv zeta in Hd2, Hl2.
  set (st2 := refresh_hovers ed full st) in *.
  assert (Hreq : refresh_request ed getOrAdd now st2
                 = Some (mkDebounced 50 (Some (now + 50, (ls, ed, getOrAdd))))).
  { unfold refresh_request. rewrite Hl2, Els, Hd2.
    destruct (_updateBlameDebounced st) as [d|]; [|reflexivity].
    destruct d as [w tm]. cbn in Hwait. subst w. reflexivity. }
  rewrite Hreq. split; [reflexivity|]. split.
  - intros t Ht. unfold updateBlame_elapsed.
    cbn [_updateBlameDebounced set_updateBlameDebounced timer].
    destruct (Z.leb_spec (now + 50) t); [lia|reflexivity].
  - unfold updateBlame_elapsed.
    cbn [_updateBlameDebounced set_updateBlameDebounced timer].
    rewrite Z.leb_refl.
    unfold updateBlame_begin.
    set (st3 := lineTracker_reset _).
    assert (Hinc : includesAll ls st3 = true).
    { apply includesAll_active. subst st3. cbn. rewrite Hl2. exact Els. }
    rewrite Hinc. cbn [negb orb].
    assert (Hp : updateBlame_pending st3 = false) by reflexivity.
    rewrite Hp. eexists. split.
    + unfold blameRequest_for. destruct ls as [|l [|l' ls']]; reflexivity.
    + split; [exact Hp|reflexivity].
Qed.

End CurrentLineControllerRefresh.

Section CurrentLineControllerBlame.
Import Host Functions CurrentLineController.
Context {env : Env}.

Ltac added_effects :=
  first [ exists []; split; [symmetry; apply app_nil_r|reflexivity]
        | eexists; split; [rewrite <- ?app_assoc; reflexivity|reflexivity] ].

Lemma clearAnnotations_added editor st :
  exists added, effects (clearAnnotations editor st) = effects st ++ added
                /\ forallb decoratesNothing added = true.
Proof.
  unfold clearAnnotations. destruct editor as [ed|]; [destruct (_disposed ed)|];
    cbn; added_effects.
Qed.

Lemma updateStatusBar_fields commit editor st :
  effects (updateStatusBar commit editor st) = effects st
  /\ getBlameAnnotationState_enabled (updateStatusBar commit editor st)
     = getBlameAnnotationState_enabled st
  /\ lineTracker_state (updateStatusBar commit editor st) = lineTracker_state st.
Proof.
  unfold updateStatusBar. destruct (_statusBarItem st); [destruct (_ || _)|];
    repeat split.
Qed.

(** X7: while the annotations are not enabled (switched off, or suspended),
    a blame result that arrives sets no trailing decoration, whatever it is
    and whatever the staleness check gives: every call of [setDecorations]
    it causes passes the empty list. *)
Theorem X7_no_decoration_while_annotations_disabled
    (ls : list Z) (ed : TextEditor) (td : TrackedDocument) (result : BlameResult)
    (tracker_get : bool) (st : State) :
  getBlameAnnotationState_enabled st = false ->
  exists added,
    effects (updateBlame_resume ls ed td result tracker_get st) = effects st ++ added
    /\ forallb decoratesNothing added = true.
Proof.
  intros Hoff. unfold updateBlame_resume.
  destruct (blameLines_of ls result) as [[bls|]|].
  2:{ added_effects. }
  2:{ destruct (clear_fields (Some ed) false st) as (_ & _ & _ & _ & _ & H). exact H. }
  rewrite Hoff. cbn [negb].
  set (checked := if includesAll ls st && isBlameable td && negb (updateBlame_pending st)
                  then _ else _).
  assert (Hchecked :
    (checked = (clear (Some ed) false st, true))
    \/ (checked = (clearAnnotations (Some ed) st, false))
    \/ (checked = (st, false))).
  { subst checked. destruct (_ && _ && _); [destruct (negb _)|]; auto. }
  destruct Hchecked as [-> | [-> | ->]].
  - destruct (clear_fields (Some ed) false st) as (_ & _ & _ & _ & _ & H). exact H.
  - destruct (clearAnnotations_added (Some ed) st) as (a1 & He1 & Ha1).
    set (st1 := clearAnnotations (Some ed) st) in *.
    assert (Hoff1 : getBlameAnnotationState_enabled st1 = false).
    { subst st1. unfold clearAnnotations. destruct (_disposed ed); exact Hoff. }
    destruct bls as [|activeLine rest]; [exists a1; auto|].
    unfold updateTrailingAnnotations.
    destruct (updateStatusBar_fields (blame_commit activeLine) ed
                (if isDirty (document ed) && tracker_get
                 then set_effects
                        (effects (lineTracker_setState (blame_line activeLine)
                                    (GitLineState_new (blame_commit activeLine)) st1)
                         ++ [SetForceDirtyStateChangeOnNextDocumentChange
                               (object (document ed))])
                        (lineTracker_setState (blame_line activeLine)
                           (GitLineState_new (blame_commit activeLine)) st1)
                 else lineTracker_setState (blame_line activeLine)
                        (GitLineState_new (blame_commit activeLine)) st1))
      as (Hes & Hen & _).
    match goal with
    | |- context [updateStatusBar ?c ?e ?s] => set (st4 := updateStatusBar c e s) in *
    end.
    assert (Hoff4 : getBlameAnnotationState_enabled st4 = false).
    { rewrite Hen. destruct (_ && _); exact Hoff1. }
    rewrite Hoff4. cbn [negb orb].
    destruct (clearAnnotations_added (Some ed) st4) as (a4 & He4 & Ha4).
    rewrite He4, Hes.
    destruct (isDirty (document ed) && tracker_get); cbn [effects set_effects lineTracker_setState
      set_lineTracker_state]; rewrite He1.
    + eexists. split; [rewrite <- !app_assoc; reflexivity|].
      rewrite !forallb_app, Ha1, Ha4. reflexivity.
    + eexists. split; [rewrite <- !app_assoc; reflexivity|].
      rewrite !forallb_app, Ha1, Ha4. reflexivity.
  - destruct bls as [|activeLine rest]; [added_effects|].
    unfold updateTrailingAnnotations.
    destruct (updateStatusBar_fields (blame_commit activeLine) ed
                (if isDirty (document ed) && tracker_get
                 then set_effects
                        (effects (lineTracker_setState (blame_line activeLine)
                                    (GitLineState_new (blame_commit activeLine)) st)
                         ++ [SetForceDirtyStateChangeOnNextDocumentChange
                               (object (document ed))])
                        (lineTracker_setState (blame_line activeLine)
                           (GitLineState_new (blame_commit activeLine)) st)
                 else lineTracker_setState (blame_line activeLine)
                        (GitLineState_new (blame_commit activeLine)) st))
      as (Hes & Hen & _).
    match goal with
    | |- context [updateStatusBar ?c ?e ?s] => set (st4 := updateStatusBar c e s) in *
    end.
    assert (Hoff4 : getBlameAnnotationState_enabled st4 = false).
    { rewrite Hen. destruct (_ && _); exact Hoff. }
    rewrite Hoff4. cbn [negb orb].
    destruct (clearAnnotations_added (Some ed) st4) as (a4 & He4 & Ha4).
    rewrite He4, Hes.
    destruct (isDirty (document ed) && tracker_get); cbn [effects set_effects lineTracker_setState
      set_lineTracker_state].
    + eexists. split; [rewrite <- !app_assoc; reflexivity|].
      rewrite !forallb_app, Ha4. reflexivity.
    + exists a4. auto.
Qed.

(** X8: a blame result that arrives while the lines it was fetched for
    are still the active ones, the document is blameable, no newer update is
    pending, and annotations and status bar are on, is shown: the commit of
    the first blamed line is cached for its line and put in the status bar,
    which is shown, and the editor gets one trailing decoration per blamed
    line, in order. *)
Theorem X8_fresh_blame_is_shown
    (ls : list Z) (ed : TextEditor) (td : TrackedDocument) (result : BlameResult)
    (tracker_get : bool) (bl : GitBlameLine) (rest : list GitBlameLine)
    (item : StatusBarItem) (st : State) :
  includesAll ls st = true ->
  isBlameable td = true ->
  updateBlame_pending st = false ->
  getBlameAnnotationState_enabled st = true ->
  statusBar_enabled (config st) = true ->
  _statusBarItem st = Some item ->
  isTextEditor ed = true ->
  blameLines_of ls result = Some (Some (bl :: rest)) ->
  let st' := updateBlame_resume ls ed td result tracker_get st in
  lineTracker_state st'
  = <[blame_line bl := GitLineState_new (blame_commit bl)]> (lineTracker_state st)
  /\ _statusBarItem st' = Some (mkStatusBarItem (Some (blame_commit bl)) true)
  /\ effects st'
     = effects st
       ++ (if isDirty (document ed) && tracker_get
           then [SetForceDirtyStateChangeOnNextDocumentChange (object (document ed))]
           else [])
       ++ [SetDecorations (editor_object ed)
             (map (fun l => mkDecoration (blame_line l) (blame_commit l)) (bl :: rest))].
Proof.
  intros Hinc Hb Hp Hon Hsb Hitem Hte Hres. cbv zeta.
  unfold updateBlame_resume. rewrite Hres, Hinc, Hb, Hp, Hon. cbn [andb negb].
  unfold updateTrailingAnnotations, updateStatusBar, lineTracker_setState.
  destruct (isDirty (document ed) && tracker_get);
    cbn [_statusBarItem set_effects set_lineTracker_state config]; rewrite Hitem, Hsb, Hte;
    cbn [negb orb];
    unfold getBlameAnnotationState_enabled in *;
    cbn [_blameAnnotationState set_statusBarItem set_effects set_lineTracker_state config];
    rewrite Hon; cbn [negb orb]; cbn; repeat split;
    rewrite <- ?app_assoc, ?app_nil_r; reflexivity.
Qed.

(** X9: for the blame of a whole file the blamed lines are read at the
    active line numbers, one per active line and in their order; if an
    active line has no entry in the blame, reading it throws and the result
    changes nothing. *)
Theorem X9_file_blame_lines_follow_active_lines
    (ls : list Z) (blame : list GitBlameLine) (ed : TextEditor) (td : TrackedDocument)
    (tracker_get : bool) (st : State) :
  (Forall (fun l => 0 <= l < Z.of_nat (length blame)) ls ->
   exists bls,
     blameLines_of ls (FileBlame (Some blame)) = Some (Some bls)
     /\ Forall2 (fun l b => blame !! Z.to_nat l = Some b) ls bls)
  /\ (Exists (fun l => l < 0 \/ Z.of_nat (length blame) <= l) ls ->
      updateBlame_resume ls ed td (FileBlame (Some blame)) tracker_get st = st).
Proof.
  split.
  - intros Hrange.
    assert (Hsome : is_Some (mapM (fun l => if l <? 0 then None else blame !! Z.to_nat l) ls)).
    { apply mapM_is_Some. eapply Forall_impl; [exact Hrange|].
      intros l [H0 H1]. cbn. destruct (Z.ltb_spec l 0); [lia|].
      apply lookup_lt_is_Some. lia. }
    destruct Hsome as [bls Hbls]. exists bls. cbn [blameLines_of]. rewrite Hbls.
    split; [reflexivity|].
    apply mapM_Some in Hbls.
    eapply Forall2_impl; [exact Hbls|].
    intros l b. cbn. destruct (Z.ltb_spec l 0); [discriminate|auto].
  - intros Hex. unfold updateBlame_resume. cbn [blameLines_of].
    assert (Hnone : mapM (fun l => if l <? 0 then None else blame !! Z.to_nat l) ls = None).
    { destruct (mapM _ ls) as [bls|] eqn:E; [|reflexivity]. exfalso.
      apply mapM_Some in E. apply Exists_exists in Hex as (l & Hl & Hbad).
      apply list_elem_of_lookup in Hl as [i Hi].
      destruct (Forall2_lookup_l _ _ _ _ _ E Hi) as (b & _ & Hb).
      cbn in Hb. destruct (Z.ltb_spec l 0); [discriminate|].
      apply lookup_lt_Some in Hb. lia. }
    rewrite Hnone. reflexivity.
Qed.

End CurrentLineControllerBlame.

Section CurrentLineControllerFurtherExamples.
Import Host Functions CurrentLineController Examples.

Lemma X4_dirty_suspends_clean_restores_witness :
  getBlameAnnotationState_enabled
    (onDirtyStateChanged false (Some editor_a) tracked_a 300
       (onDirtyStateChanged true (Some editor_a) tracked_a 100 (controller_on [5] 0)))
  = getBlameAnnotationState_enabled (controller_on [5] 0).
Proof.
  destruct (X4_dirty_suspends_clean_restores (Some editor_a) (Some editor_a)
              tracked_a tracked_a 100 300 (controller_on [5] 0)) as [_ H].
  apply H. exact I.
Defined.

Lemma X5_refresh_requests_nothing_without_need_witness :
  _updateBlameDebounced (refresh (Some editor_a) false None tracked_a 0 controller_off) = None
  /\ _hoverProviderDisposable (refresh (Some editor_a) false None tracked_a 0 controller_off)
     = None.
Proof.
  destruct (X5_refresh_requests_nothing_without_need editor_a false tracked_a 0
              controller_off) as (H1 & _ & H3 & _); [left; reflexivity|].
  split; [exact H1|exact H3].
Defined.

Lemma X6_refresh_requests_one_debounced_update_witness :
  _updateBlameDebounced
    (refresh (Some editor_a) false None tracked_a 60
       (refresh (Some editor_a) true None tracked_a 0 (controller_on [5] 0)))
  = Some (mkDebounced 50 (Some (60 + 50, ([5], editor_a, tracked_a)))).
Proof.
  apply (X6_refresh_requests_one_debounced_update editor_a false tracked_a 60 [5]
           (refresh (Some editor_a) true None tracked_a 0 (controller_on [5] 0)));
    reflexivity.
Defined.

Lemma X7_no_decoration_while_annotations_disabled_witness :
  exists added,
    effects (updateBlame_resume [5] editor_big tracked_big blame_of_line_5 true
               suspended_dirty)
    = effects suspended_dirty ++ added
    /\ forallb decoratesNothing added = true.
Proof.
  apply (X7_no_decoration_while_annotations_disabled [5] editor_big tracked_big
           blame_of_line_5 true suspended_dirty).
  reflexivity.
Defined.

Lemma X8_fresh_blame_is_shown_witness :
  effects (updateBlame_resume [5] editor_a tracked_a blame_of_line_5 false
             (controller_on [5] 0))
  = effects (controller_on [5] 0) ++ []
    ++ [SetDecorations 1 [mkDecoration 5 commit_of_line_5]].
Proof.
  destruct (X8_fresh_blame_is_shown [5] editor_a tracked_a blame_of_line_5 false
              (mkGitBlameLine 5 commit_of_line_5) []
              (mkStatusBarItem None false) (controller_on [5] 0))
    as (_ & _ & H);
    [reflexivity|reflexivity|reflexivity|reflexivity|reflexivity|reflexivity
    |reflexivity|reflexivity|exact H].
Defined.

Lemma X9_file_blame_lines_follow_active_lines_witness :
  (exists bls,
     blameLines_of [1; 2] (FileBlame (Some blame_of_three_lines)) = Some (Some bls)
     /\ Forall2 (fun l b => blame_of_three_lines !! Z.to_nat l = Some b) [1; 2] bls)
  /\ updateBlame_resume [1; 7] editor_a tracked_a (FileBlame (Some blame_of_three_lines))
       false (controller_on [1; 7] 0)
     = controller_on [1; 7] 0.
Proof.
  split.
  - apply (X9_file_blame_lines_follow_active_lines [1; 2] blame_of_three_lines
             editor_a tracked_a false (controller_on [1; 2] 0)).
    repeat constructor; cbn; lia.
  - apply (X9_file_blame_lines_follow_active_lines [1; 7] blame_of_three_lines
             editor_a tracked_a false (controller_on [1; 7] 0)).
    apply Exists_cons_tl, Exists_cons_hd. right. cbn. lia.
Defined.

End CurrentLineControllerFurtherExamples.

(* ===================================================================== *)
(** * Further properties of DocumentTracker: the document map *)
(* ===================================================================== *)

Section DocumentTrackerMap.
Import Host Functions DocumentTracker.
Context {env : Env}.

Lemma sameIdentities_refl l : sameIdentities l l.
Proof. intros i r H. exists r. auto. Qed.

Lemma sameIdentities_alter f j l l' :
  keepsIdentity f -> sameIdentities l l' -> sameIdentities l (alter f j l').
Proof.
  intros Hf H i r Hr. destruct (H i r Hr) as (r' & Hr' & Hd & Hk & Hx).
  destruct (decide (j = i)) as [->|Hne].
  - exists (f r'). rewrite list_lookup_alter_eq, Hr'. cbn.
    destruct (Hf r') as (-> & -> & ->). auto.
  - exists r'. rewrite list_lookup_alter_ne by exact Hne. auto.
Qed.

Lemma sameIdentities_fold f (m : gmap Key nat) l :
  keepsIdentity f ->
  sameIdentities l (map_fold (fun _ doc docs => alter f doc docs) l m).
Proof.
  intros Hf.
  apply (map_fold_weak_ind (fun r _ => sameIdentities l r)).
  - apply sameIdentities_refl.
  - intros k doc m' r _ IH. now apply sameIdentities_alter.
Qed.

Lemma mapConsistent_records l' st :
  sameIdentities (trackedDocuments st) l' ->
  mapConsistent st ->
  mapConsistent (set_trackedDocuments l' st).
Proof.
  intros Hs H k doc Hk. destruct (H k doc Hk) as (r & Hr & Hd & Hf).
  destruct (Hs doc r Hr) as (r' & Hr' & Ed & Ek & Ex).
  exists r'. cbn. split; [exact Hr'|]. split; [congruence|].
  destruct k; cbn in *; congruence.
Qed.

Lemma mapConsistent_updateTracked doc f st :
  keepsIdentity f -> mapConsistent st -> mapConsistent (updateTracked doc f st).
Proof.
  intros Hf H. apply mapConsistent_records; [|exact H].
  apply sameIdentities_alter; [exact Hf|apply sameIdentities_refl].
Qed.

Lemma mapConsistent_frame st st' :
  _documentMap st' = _documentMap st ->
  trackedDocuments st' = trackedDocuments st ->
  mapConsistent st -> mapConsistent st'.
Proof. intros Hm Hl H k doc. rewrite Hm, Hl. apply H. Qed.

Lemma keepsIdentity_reset : keepsIdentity TrackedDocument_reset.
Proof. intros r. repeat split. Qed.

Lemma keepsIdentity_ensureInitialized : keepsIdentity TrackedDocument_ensureInitialized.
Proof. intros r. repeat split. Qed.

Lemma keepsIdentity_setDirty b : keepsIdentity (TrackedDocument_setDirty b).
Proof. intros r. repeat split. Qed.

Lemma keepsIdentity_setForce : keepsIdentity TrackedDocument_setForce.
Proof. intros r. repeat split. Qed.

Lemma keepsIdentity_setDirtyIdle :
  keepsIdentity (fun r => TrackedDocument_setDirtyIdle (TrackedDocument_ensureInitialized r)).
Proof. intros r. repeat split. Qed.

Lemma mapConsistent_addCore d st :
  mapConsistent st -> mapConsistent (snd (addCore d st)).
Proof.
  intros H k doc. cbn.
  destruct (decide (k = KString (toKey (uri d)))) as [->|Hk1].
  { rewrite lookup_insert_eq. intros [= <-].
    eexists. rewrite lookup_app_r, Nat.sub_diag by lia. cbn.
    split; [reflexivity|]. split; reflexivity. }
  rewrite lookup_insert_ne by congruence.
  destruct (decide (k = KDocument (object d))) as [->|Hk2].
  { rewrite lookup_insert_eq. intros [= <-].
    eexists. rewrite lookup_app_r, Nat.sub_diag by lia. cbn.
    split; [reflexivity|]. split; reflexivity. }
  rewrite lookup_insert_ne by congruence.
  intros Hk. destruct (H k doc Hk) as (r & Hr & Hd & Hf).
  exists r. rewrite lookup_app_l by (eapply lookup_lt_Some; exact Hr). auto.
Qed.

Lemma mapConsistent_fire n st : mapConsistent st -> mapConsistent (fire n st).
Proof. apply mapConsistent_frame; reflexivity. Qed.

Lemma fireDocumentDirtyStateChanged_tracked e st :
  _documentMap (fireDocumentDirtyStateChanged e st) = _documentMap st
  /\ trackedDocuments (fireDocumentDirtyStateChanged e st) = trackedDocuments st.
Proof.
  unfold fireDocumentDirtyStateChanged, dirtyIdleTriggeredDebounced_ensure.
  repeat (case_match; cbn); repeat split; simplify_eq; reflexivity.
Qed.

Lemma mapConsistent_onTextDocumentClosed d st :
  mapConsistent st -> mapConsistent (onTextDocumentClosed d st).
Proof.
  intros H. unfold onTextDocumentClosed.
  destruct (_documentMap st !! KDocument (object d)) as [doc|] eqn:Em; [|exact H].
  destruct (H _ _ Em) as (r & Hr & Hd & Hf). cbn in Hf.
  cbn. rewrite list_lookup_alter_eq, Hr. cbn.
  intros k doc' Hk. cbn in Hk.
  apply lookup_delete_Some in Hk as [Hk1 Hk].
  apply lookup_delete_Some in Hk as [Hk2 Hk].
  destruct (H k doc' Hk) as (r' & Hr' & Hd' & Hf').
  assert (doc' <> doc).
  { intros ->. rewrite Hr in Hr'. injection Hr' as <-.
    destruct k as [o|s]; cbn in Hf'; congruence. }
  exists r'. cbn. rewrite list_lookup_alter_ne by congruence. auto.
Qed.

Lemma mapConsistent_onTextDocumentChanged d st :
  mapConsistent st -> mapConsistent (onTextDocumentChanged d st).
Proof.
  intros H. unfold onTextDocumentChanged.
  destruct (negb _); [exact H|].
  assert (Hpre : exists doc st1,
            match _documentMap st !! KDocument (object d) with
            | Some doc => (doc, st)
            | None => addCore d st
            end = (doc, st1) /\ mapConsistent st1).
  { destruct (_documentMap st !! KDocument (object d)) as [doc|].
    - eauto.
    - eexists _, _. split; [reflexivity|]. now apply mapConsistent_addCore. }
  destruct Hpre as (doc & st1 & -> & H1).
  set (st2 := updateTracked doc TrackedDocument_reset st1).
  assert (H2 : mapConsistent st2).
  { apply mapConsistent_updateTracked; [apply keepsIdentity_reset|exact H1]. }
  match goal with
  | |- mapConsistent (match trackedDocuments ?s !! doc with _ => _ end) =>
      set (st3 := s)
  end.
  assert (H3 : mapConsistent st3).
  { subst st3. destruct (_dirtyIdleTriggeredDebounced st2); [destruct (isDirty d)|];
      try exact H2; revert H2; apply mapConsistent_frame; reflexivity. }
  destruct (trackedDocuments st3 !! doc) as [r|]; [|exact H3].
  destruct (_ && _); [exact H3|].
  assert (H4 : mapConsistent (updateTracked doc (TrackedDocument_setDirty (isDirty d)) st3)).
  { apply mapConsistent_updateTracked; [apply keepsIdentity_setDirty|exact H3]. }
  destruct (activeTextEditor st2); [|exact H4].
  destruct (negb _); [exact H4|].
  revert H4. apply mapConsistent_frame; apply fireDocumentDirtyStateChanged_tracked.
Qed.

Lemma mapConsistent__add x doc st st' :
  mapConsistent st -> _add x st = inr (doc, st') -> mapConsistent st'.
Proof.
  intros H Hadd. unfold _add in Hadd.
  assert (Hres : forall d st1, mapConsistent st1 ->
            (let '(doc0, st2) := addCore d st1 in
             @inr Exception _ (doc0, updateTracked doc0 TrackedDocument_ensureInitialized st2))
            = inr (doc, st') -> mapConsistent st').
  { intros d st1 H1 E. cbn in E. injection E as <- <-.
    apply mapConsistent_updateTracked; [apply keepsIdentity_ensureInitialized|].
    apply (mapConsistent_addCore d st1 H1). }
  destruct x as [d|g|u].
  - apply (Hres d st H Hadd).
  - destruct (openTextDocument (fileUri g)) as [ex|d].
    + destruct (negb _); [discriminate|].
      eapply Hres; [|exact Hadd]. revert H. apply mapConsistent_frame; reflexivity.
    + apply (Hres d st H Hadd).
  - destruct (openTextDocument u) as [ex|d]; [discriminate|].
    apply (Hres d st H Hadd).
Qed.

Lemma mapConsistent__get x doc st st' :
  mapConsistent st -> _get x st = Some (doc, st') -> mapConsistent st'.
Proof.
  intros H Hget. unfold _get in Hget.
  destruct (_documentMap st !! lookupKey x); [|discriminate].
  injection Hget as <- <-.
  apply mapConsistent_updateTracked; [apply keepsIdentity_ensureInitialized|exact H].
Qed.

Lemma mapConsistent_step ev st st' :
  mapConsistent st -> step ev st = Some st' -> mapConsistent st'.
Proof.
  intros H Hstep. destruct ev; cbn [step] in Hstep.
  - injection Hstep as <-. unfold onConfigurationChanged.
    assert (H1 : mapConsistent (forEachTracked TrackedDocument_reset st)).
    { apply mapConsistent_records; [|exact H].
      apply sameIdentities_fold, keepsIdentity_reset. }
    destruct (negb _ && _); destruct (_ || _); assumption.
  - injection Hstep as <-. revert H. apply mapConsistent_frame; reflexivity.
  - injection Hstep as <-. unfold onActiveTextEditorChanged.
    destruct editor as [ed|]; [|exact H].
    destruct (negb _); [exact H|].
    destruct (_ !! _); [exact H|]. now apply mapConsistent_addCore.
  - injection Hstep as <-. now apply mapConsistent_onTextDocumentChanged.
  - injection Hstep as <-. now apply mapConsistent_onTextDocumentClosed.
  - injection Hstep as <-. unfold onTextDocumentSaved.
    destruct (_ !! _); [now apply mapConsistent_fire|].
    destruct (isActiveDocument d st); [|exact H]. now apply mapConsistent_addCore.
  - unfold add in Hstep. destruct (_add documentOrId st) as [ex|[doc st1]] eqn:E.
    + now injection Hstep as <-.
    + injection Hstep as <-. eapply mapConsistent__add; eassumption.
  - injection Hstep as <-. intros k doc Hk. cbn in Hk.
    rewrite lookup_empty in Hk. discriminate.
  - injection Hstep as <-.
    apply mapConsistent_updateTracked; [apply keepsIdentity_setForce|exact H].
  - destruct (immediates st) as [|e rest]; [discriminate|].
    injection Hstep as <-. unfold dirtyStateImmediate.
    set (st1 := match _dirtyStateChangedDebounced _ with Some _ => _ | None => _ end).
    assert (H1 : mapConsistent st1).
    { subst st1. destruct (_dirtyStateChangedDebounced _);
        revert H; apply mapConsistent_frame; reflexivity. }
    destruct (negb _); [exact H1|].
    apply mapConsistent_fire, mapConsistent_updateTracked;
      [apply keepsIdentity_ensureInitialized|exact H1].
  - destruct (idleDebounced st !! d) as [x|]; [|discriminate].
    destruct (timer x) as [[deadline e]|]; [|discriminate].
    destruct (deadline <=? now st); [|discriminate].
    injection Hstep as <-. unfold dirtyIdleTriggered.
    set (st1 := set_idleDebounced _ st).
    assert (H1 : mapConsistent st1).
    { revert H. apply mapConsistent_frame; reflexivity. }
    destruct (match _dirtyIdleTriggeredDebounced st1 with Some _ => _ | None => _ end);
      [exact H1|].
    apply mapConsistent_fire, mapConsistent_updateTracked;
      [apply keepsIdentity_setDirtyIdle|exact H1].
  - destruct (_dirtyStateChangedDebounced st) as [x|]; [|discriminate].
    destruct (timer x) as [[deadline e]|]; [|discriminate].
    destruct (deadline <=? now st); [|discriminate].
    injection Hstep as <-. unfold dirtyStateChanged.
    set (st1 := set_dirtyStateChangedDebounced _ st).
    assert (H1 : mapConsistent st1).
    { revert H. apply mapConsistent_frame; reflexivity. }
    destruct (negb _); [exact H1|].
    apply mapConsistent_fire, mapConsistent_updateTracked;
      [apply keepsIdentity_ensureInitialized|exact H1].
  - destruct (_ && _); [|discriminate]. injection Hstep as <-.
    revert H. apply mapConsistent_frame; reflexivity.
Qed.

Lemma mapConsistent_reachable st : reachable st -> mapConsistent st.
Proof.
  induction 1 as [delay active|ev st st' _ IH Hstep|x doc st st' _ IH Hget
                 |x doc st st' _ IH Hgoa].
  - intros k doc Hk. unfold new, onConfigurationChanged in Hk. cbn in Hk.
    rewrite lookup_empty in Hk. discriminate.
  - eapply mapConsistent_step; eassumption.
  - eapply mapConsistent__get; eassumption.
  - unfold getOrAdd in Hgoa. destruct (_get x st) as [[doc0 st0]|] eqn:E.
    + injection Hgoa as <- <-. eapply mapConsistent__get; eassumption.
    + eapply mapConsistent__add; eassumption.
Qed.

(** X10: in every reachable state of the tracker, each entry of the
    document map holds a record that is not disposed and that carries the
    document or key string it is filed under; so a lookup that finds a
    record never returns a disposed one, and returns it initialized. *)
Theorem X10_lookup_never_returns_disposed_record
    (documentOrId : DocumentOrId) (doc : nat) (st st' : State) :
  reachable st ->
  get documentOrId st = Some (doc, st') ->
  mapConsistent st
  /\ exists r, trackedDocuments st' !! doc = Some r
               /\ disposed r = false
               /\ initialized r = true
               /\ filedUnder (lookupKey documentOrId) r.
Proof.
  intros Hreach Hget. pose proof (mapConsistent_reachable st Hreach) as H.
  split; [exact H|].
  unfold get, _get in Hget.
  destruct (_documentMap st !! lookupKey documentOrId) as [doc0|] eqn:Em; [|discriminate].
  injection Hget as <- <-.
  destruct (H _ _ Em) as (r & Hr & Hd & Hf).
  exists (TrackedDocument_ensureInitialized r). cbn.
  rewrite list_lookup_alter_eq, Hr. cbn. repeat split; assumption.
Qed.

Lemma updateTracked_twice doc f st :
  (forall r, f (f r) = f r) ->
  updateTracked doc f (updateTracked doc f st) = updateTracked doc f st.
Proof.
  intros Hf. unfold updateTracked, set_trackedDocuments. cbn. f_equal.
  rewrite list_alter_alter_eq. apply list_alter_ext; [|reflexivity].
  intros r _. apply Hf.
Qed.

Lemma _add_spec x doc st st' :
  _add x st = inr (doc, st') ->
  exists d st1,
    st' = updateTracked doc TrackedDocument_ensureInitialized (snd (addCore d st1))
    /\ doc = length (trackedDocuments st1)
    /\ trackedDocuments st1 = trackedDocuments st.
Proof.
  unfold _add. intros Hadd.
  destruct x as [d|g|u].
  - injection Hadd as <- <-. exists d, st. repeat split.
  - destruct (openTextDocument (fileUri g)) as [ex|d] eqn:Eo.
    + destruct (negb _); [discriminate|]. injection Hadd as <- <-.
      exists (MissingRevisionTextDocument (nextPlaceholder st) g),
             (set_nextPlaceholder (S (nextPlaceholder st)) st).
      repeat split.
    + injection Hadd as <- <-. exists d, st. repeat split.
  - destruct (openTextDocument u) as [ex|d] eqn:Eo; [discriminate|].
    injection Hadd as <- <-. exists d, st. repeat split.
Qed.

(** X11: the record that [add] returns starts clean and initialized, and is
    found again: a lookup by its document returns the same record and
    changes nothing, [has] is true for the document, and the record is filed
    under its key string as well. *)
Theorem X11_add_then_get_returns_the_record
    (documentOrId : DocumentOrId) (doc : nat) (st st' : State) :
  add documentOrId st = inr (doc, st') ->
  exists r,
    trackedDocuments st' !! doc = Some r
    /\ dirty r = false /\ initialized r = true /\ disposed r = false
    /\ get (OfDocument (tracked_document r)) st' = Some (doc, st')
    /\ has (OfDocument (tracked_document r)) st' = true
    /\ _documentMap st' !! KString (key r) = Some doc.
Proof.
  unfold add. intros Hadd.
  destruct (_add_spec _ _ _ _ Hadd) as (d & st1 & -> & -> & _).
  exists (TrackedDocument_ensureInitialized (TrackedDocument_new d (toKey (uri d)) false)).
  assert (Hm : _documentMap (snd (addCore d st1)) !! KDocument (object d)
               = Some (length (trackedDocuments st1))).
  { cbn. rewrite lookup_insert_ne by discriminate. apply lookup_insert_eq. }
  split; [cbn; apply lookup_alter_last|].
  repeat split.
  - unfold get, _get. cbn [lookupKey tracked_document TrackedDocument_ensureInitialized
      TrackedDocument_new].
    change (_documentMap (updateTracked _ _ (addCore d st1).2))
      with (_documentMap (snd (addCore d st1))).
    rewrite Hm. f_equal. f_equal. now apply updateTracked_twice.
  - unfold has. cbn [tracked_document TrackedDocument_ensureInitialized
      TrackedDocument_new].
    change (_documentMap (updateTracked _ _ (addCore d st1).2))
      with (_documentMap (snd (addCore d st1))).
    now rewrite Hm.
  - cbn. apply lookup_insert_eq.
Qed.

Lemma getOrAdd_again x doc st st' :
  getOrAdd x st = inr (doc, st') ->
  _documentMap st' !! lookupKey x = Some doc ->
  getOrAdd x st' = inr (doc, st').
Proof.
  intros Hgoa Hm. unfold getOrAdd, _get. rewrite Hm. f_equal. f_equal.
  unfold getOrAdd in Hgoa. destruct (_get x st) as [[doc0 st0]|] eqn:Eg.
  - injection Hgoa as <- <-. unfold _get in Eg.
    destruct (_documentMap st !! lookupKey x); [|discriminate].
    injection Eg as <- <-. now apply updateTracked_twice.
  - destruct (_add_spec _ _ _ _ Hgoa) as (d & st1 & -> & -> & _).
    now apply updateTracked_twice.
Qed.

(** X12: [getOrAdd] of a document never throws, and asking again returns
    the same record and changes nothing; the same holds for a [GitUri]
    whose revision is missing: the placeholder made by the first call is
    found by the second, and no second placeholder is made. *)
Theorem X12_getOrAdd_twice_returns_the_same_record (st : State) :
  (forall d, exists doc st1,
      getOrAdd (OfDocument d) st = inr (doc, st1)
      /\ getOrAdd (OfDocument d) st1 = inr (doc, st1))
  /\ (forall g ex,
        openTextDocument (fileUri g) = inl ex ->
        includes "File not found" (toString ex) = true ->
        exists doc st1,
          getOrAdd (OfGitUri g) st = inr (doc, st1)
          /\ getOrAdd (OfGitUri g) st1 = inr (doc, st1)
          /\ nextPlaceholder st1 <= S (nextPlaceholder st))%nat.
Proof.
  split.
  - intros d.
    destruct (getOrAdd (OfDocument d) st) as [ex|[doc st1]] eqn:E.
    { unfold getOrAdd, _get, _add in E. cbn in E.
      destruct (_documentMap st !! KDocument (object d)); discriminate. }
    exists doc, st1. split; [reflexivity|].
    apply (getOrAdd_again _ _ _ _ E).
    unfold getOrAdd, _get, _add in E. cbn [lookupKey] in *.
    destruct (_documentMap st !! KDocument (object d)) as [doc0|] eqn:Em.
    + injection E as <- <-. exact Em.
    + injection E as <- <-. cbn.
      rewrite lookup_insert_ne by discriminate. apply lookup_insert_eq.
  - intros g ex Hopen Hmsg.
    destruct (getOrAdd (OfGitUri g) st) as [ex'|[doc st1]] eqn:E.
    { unfold getOrAdd, _get, _add in E. cbn [lookupKey] in E.
      rewrite Hopen, Hmsg in E.
      destruct (_documentMap st !! KString (toKey (fileUri g))); discriminate. }
    exists doc, st1. split; [reflexivity|].
    assert (Hm : _documentMap st1 !! lookupKey (OfGitUri g) = Some doc
                 /\ (nextPlaceholder st1 <= S (nextPlaceholder st))%nat).
    { unfold getOrAdd, _get, _add in E. cbn [lookupKey] in *.
      rewrite Hopen, Hmsg in E.
      destruct (_documentMap st !! KString (toKey (fileUri g))) as [doc0|] eqn:Em.
      - injection E as <- <-. split; [exact Em|cbn; lia].
      - injection E as <- <-. cbn. split; [apply lookup_insert_eq|lia]. }
    destruct Hm as [Hm Hn]. split; [|exact Hn].
    now apply (getOrAdd_again _ _ _ _ E).
Qed.

(** X13: closing a tracked document disposes its record and removes both
    of its entries, so the document and its key string are no longer found;
    every other entry stays, and nothing is delivered to observers. *)
Theorem X13_close_removes_both_entries
    (d : TextDocument) (doc : nat) (r : TrackedDocument) (st : State) :
  _documentMap st !! KDocument (object d) = Some doc ->
  trackedDocuments st !! doc = Some r ->
  let st' := onTextDocumentClosed d st in
  get (OfDocument d) st' = None
  /\ has (OfDocument d) st' = false
  /\ _documentMap st' !! KString (key r) = None
  /\ trackedDocuments st' !! doc = Some (TrackedDocument_dispose r)
  /\ (forall k, k <> KDocument (object d) -> k <> KString (key r) ->
                _documentMap st' !! k = _documentMap st !! k)
  /\ fired st' = fired st.
Proof.
  intros Hm Hr. cbv zeta. unfold onTextDocumentClosed. rewrite Hm.
  cbn [trackedDocuments updateTracked set_trackedDocuments].
  rewrite list_lookup_alter_eq, Hr. cbn [fmap option_fmap option_map key
    TrackedDocument_dispose].
  assert (Hdel : forall m : gmap Key nat,
            delete (KString (key r)) (delete (KDocument (object d)) m)
              !! KDocument (object d) = None).
  { intros m. rewrite lookup_delete_ne by discriminate. apply lookup_delete_eq. }
  repeat split.
  - unfold get, _get. cbn. now rewrite Hdel.
  - unfold has. cbn. now rewrite Hdel.
  - cbn. apply lookup_delete_eq.
  - cbn. rewrite list_lookup_alter_eq, Hr. reflexivity.
  - intros k Hk1 Hk2. cbn. now rewrite !lookup_delete_ne by congruence.
Qed.

(** What a call of the method [f] on every record of the map does to the
    store: a record of the store is left alone or got [f], and every record
    that the map refers to got [f]. *)
Lemma forEachTracked_records f (m : gmap Key nat) (l : list TrackedDocument) :
  (forall r, f (f r) = f r) ->
  let l' := map_fold (fun _ doc docs => alter f doc docs) l m in
  (forall i r, l !! i = Some r -> l' !! i = Some r \/ l' !! i = Some (f r))
  /\ (forall k doc r, m !! k = Some doc -> l !! doc = Some r -> l' !! doc = Some (f r)).
Proof.
  intros Hf. cbv zeta.
  apply (map_fold_weak_ind
           (fun l' m =>
              (forall i r, l !! i = Some r -> l' !! i = Some r \/ l' !! i = Some (f r))
              /\ (forall k doc r, m !! k = Some doc -> l !! doc = Some r ->
                                  l' !! doc = Some (f r)))).
  - split; [auto|]. intros k doc r Hk. rewrite lookup_empty in Hk. discriminate.
  - intros k doc m' l' Hfresh [IH1 IH2]. split.
    + intros i r Hr. destruct (decide (doc = i)) as [->|Hne].
      * right. rewrite list_lookup_alter_eq.
        destruct (IH1 i r Hr) as [-> | ->]; cbn; [reflexivity|now rewrite Hf].
      * rewrite list_lookup_alter_ne by exact Hne. auto.
    + intros k' doc' r Hk' Hr.
      destruct (decide (doc = doc')) as [->|Hne].
      * rewrite list_lookup_alter_eq.
        destruct (IH1 doc' r Hr) as [-> | ->]; cbn; [reflexivity|now rewrite Hf].
      * rewrite list_lookup_alter_ne by exact Hne.
        destruct (decide (k = k')) as [->|Hk].
        -- rewrite lookup_insert_eq in Hk'. congruence.
        -- rewrite lookup_insert_ne in Hk' by exact Hk. eauto.
Qed.

(** X14: a configuration change of [blame.ignoreWhitespace] or
    [advanced.caching.enabled], other than the initializing one, resets the
    cached state of every record in the document map, and nothing else:
    the map, the dirty and force flags of the records, the queued callbacks
    and the delivered notifications are as before.  The initializing event
    resets no record. *)
Theorem X14_configuration_change_resets_every_tracked_record
    (e : ConfigurationChangeEvent) (st : State) :
  let st' := onConfigurationChanged e st in
  _documentMap st' = _documentMap st
  /\ fired st' = fired st
  /\ immediates st' = immediates st
  /\ (initializing e = true -> trackedDocuments st' = trackedDocuments st)
  /\ (initializing e = false ->
      changed_blame_ignoreWhitespace e || changed_advanced_caching_enabled e = true ->
      forall k doc r,
        _documentMap st !! k = Some doc ->
        trackedDocuments st !! doc = Some r ->
        trackedDocuments st' !! doc = Some (TrackedDocument_reset r))
  /\ (forall i r, trackedDocuments st !! i = Some r ->
        exists r', trackedDocuments st' !! i = Some r'
                   /\ dirty r' = dirty r
                   /\ forceDirtyStateChangeOnNextDocumentChange r'
                      = forceDirtyStateChangeOnNextDocumentChange r
                   /\ disposed r' = disposed r).
Proof.
  cbv zeta.
  destruct (forEachTracked_records TrackedDocument_reset (_documentMap st)
              (trackedDocuments st) (fun r => eq_refl)) as [H1 H2].
  cbv zeta in H1, H2.
  assert (Hkeep : forall i r, trackedDocuments st !! i = Some r ->
            exists r', trackedDocuments (forEachTracked TrackedDocument_reset st) !! i
                       = Some r'
                       /\ dirty r' = dirty r
                       /\ forceDirtyStateChangeOnNextDocumentChange r'
                          = forceDirtyStateChangeOnNextDocumentChange r
                       /\ disposed r' = disposed r).
  { intros i r Hr. cbn. destruct (H1 i r Hr) as [-> | ->]; eexists; repeat split. }
  unfold onConfigurationChanged.
  destruct (initializing e) eqn:Ei; cbn [negb andb orb].
  - repeat split; try discriminate. intros i r Hr. exists r. auto.
  - destruct (changed_blame_ignoreWhitespace e || changed_advanced_caching_enabled e) eqn:Ec;
      destruct (changed_advanced_blame_delayAfterEdit e); cbn; repeat split;
      try discriminate; try (intros _ _; exact H2); try exact Hkeep.
    all: intros i r Hr; exists r; auto.
Qed.

(** X15: [clear()] disposes every record in the document map and empties
    the map, so that afterwards nothing is found. *)
Theorem X15_clear_disposes_all_and_forgets_them (st : State) :
  (forall k doc r,
      _documentMap st !! k = Some doc ->
      trackedDocuments st !! doc = Some r ->
      trackedDocuments (clear st) !! doc = Some (TrackedDocument_dispose r))
  /\ (forall documentOrId,
        get documentOrId (clear st) = None /\ has documentOrId (clear st) = false)
  /\ fired (clear st) = fired st.
Proof.
  destruct (forEachTracked_records TrackedDocument_dispose (_documentMap st)
              (trackedDocuments st) (fun r => eq_refl)) as [_ H2].
  cbv zeta in H2. split; [exact H2|]. split; [|reflexivity].
  intros documentOrId. split.
  - unfold get, _get. cbn. now rewrite lookup_empty.
  - unfold has. cbn. destruct documentOrId; now rewrite lookup_empty.
Qed.

(** X16: when an editor of a text document becomes active its document is
    tracked afterwards, and the handler run again for the same editor
    changes nothing: a document is added at most once per activation. *)
Theorem X16_activation_tracks_the_document_once (ed : TextEditor) (st : State) :
  isTextEditor ed = true ->
  let st' := onActiveTextEditorChanged (Some ed) st in
  has (OfDocument (document ed)) st' = true
  /\ onActiveTextEditorChanged (Some ed) st' = st'
  /\ (length (trackedDocuments st') <= S (length (trackedDocuments st)))%nat.
Proof.
  intros Hte. cbv zeta. unfold onActiveTextEditorChanged. rewrite Hte. cbn [negb].
  destruct (_documentMap st !! KDocument (object (document ed))) as [doc|] eqn:Em.
  - rewrite Em. unfold has. rewrite Em. repeat split. lia.
  - assert (Hm : _documentMap (snd (addCore (document ed) st))
                   !! KDocument (object (document ed))
                 = Some (length (trackedDocuments st))).
    { cbn. rewrite lookup_insert_ne by discriminate. apply lookup_insert_eq. }
    rewrite Hm. unfold has. rewrite Hm. repeat split.
    cbn. rewrite length_app. cbn. lia.
Qed.

End DocumentTrackerMap.

(* ===================================================================== *)
(** * Further properties of DocumentTracker: debounced functions *)
(* ===================================================================== *)

Section DocumentTrackerDebounced.
Import Host Functions DocumentTracker.
Context {env : Env}.

Lemma debounced_frame st st' :
  idleDebounced st' = idleDebounced st ->
  _dirtyIdleTriggeredDebounced st' = _dirtyIdleTriggeredDebounced st ->
  _dirtyIdleTriggerDelay st' = _dirtyIdleTriggerDelay st ->
  _dirtyStateChangedDebounced st' = _dirtyStateChangedDebounced st ->
  debouncedAsConfigured st -> debouncedAsConfigured st'.
Proof. unfold debouncedAsConfigured. intros -> -> -> ->. auto. Qed.

(** Scheduling or cancelling a call leaves the delays as they are. *)
Lemma debounced_alter_idle g t st :
  (forall x, wait (g x) = wait x) ->
  debouncedAsConfigured st ->
  debouncedAsConfigured (set_idleDebounced (alter g t (idleDebounced st)) st).
Proof.
  intros Hg (Hpos & Href & Hstate). split; [|split]; cbn.
  - apply Forall_alter; [exact Hpos|]. intros x Hx. now rewrite Hg.
  - destruct (_dirtyIdleTriggeredDebounced st) as [t0|]; [|exact I].
    destruct Href as (x & Hx & Hw).
    destruct (decide (t = t0)) as [->|Hne].
    + exists (g x). rewrite list_lookup_alter_eq, Hx. cbn. now rewrite Hg.
    + exists x. now rewrite list_lookup_alter_ne.
  - exact Hstate.
Qed.

Lemma debounced_state g st :
  (forall x, wait (g x) = wait x) ->
  debouncedAsConfigured st ->
  debouncedAsConfigured
    (match _dirtyStateChangedDebounced st with
     | Some d => set_dirtyStateChangedDebounced (Some (g d)) st
     | None => st
     end).
Proof.
  intros Hg (Hpos & Href & Hstate).
  destruct (_dirtyStateChangedDebounced st) as [d|] eqn:Ed;
    (split; [|split]); cbn; rewrite ?Ed; try assumption.
  now rewrite Hg.
Qed.

Lemma debounced_fireDocumentDirtyStateChanged e st :
  debouncedAsConfigured st ->
  debouncedAsConfigured (fireDocumentDirtyStateChanged e st).
Proof.
  intros H. unfold fireDocumentDirtyStateChanged.
  destruct (dsc_dirty e).
  - cbn [_dirtyIdleTriggerDelay set_immediates].
    destruct (Z.ltb_spec 0 (_dirtyIdleTriggerDelay st)) as [Hpos|Hle].
    + unfold dirtyIdleTriggeredDebounced_ensure.
      cbn [_dirtyIdleTriggeredDebounced set_immediates].
      destruct (_dirtyIdleTriggeredDebounced st) as [t|] eqn:Et.
      * apply (debounced_alter_idle _ t (set_immediates (immediates st ++ [e]) st));
          [reflexivity|]. revert H. apply debounced_frame; reflexivity.
      * apply (debounced_alter_idle _ _
                 (set_dirtyIdleTriggeredDebounced (Some (length (idleDebounced st)))
                    (set_idleDebounced
                       (idleDebounced st ++ [debounce (_dirtyIdleTriggerDelay st)])
                       (set_immediates (immediates st ++ [e]) st))));
          [reflexivity|].
        destruct H as (Hp & _ & Hs). split; [|split]; cbn.
        -- apply Forall_app. split; [exact Hp|]. repeat constructor. exact Hpos.
        -- eexists. rewrite lookup_app_r, Nat.sub_diag by lia. cbn. split; reflexivity.
        -- exact Hs.
    + revert H. apply debounced_frame; reflexivity.
  - destruct H as (Hp & Hr & Hs). split; [|split]; cbn; try assumption.
    unfold dirtyStateChangedDebounced_ensure.
    destruct (_dirtyStateChangedDebounced st); [exact Hs|reflexivity].
Qed.

Lemma debounced_onTextDocumentChanged d st :
  debouncedAsConfigured st -> debouncedAsConfigured (onTextDocumentChanged d st).
Proof.
  intros H. unfold onTextDocumentChanged.
  destruct (negb _); [exact H|].
  assert (Hpre : exists doc st1,
            match _documentMap st !! KDocument (object d) with
            | Some doc => (doc, st)
            | None => addCore d st
            end = (doc, st1) /\ debouncedAsConfigured st1).
  { destruct (_documentMap st !! KDocument (object d)) as [doc|].
    - eauto.
    - eexists _, _. split; [reflexivity|]. revert H. apply debounced_frame; reflexivity. }
  destruct Hpre as (doc & st1 & -> & H1).
  set (st2 := updateTracked doc TrackedDocument_reset st1).
  assert (H2 : debouncedAsConfigured st2).
  { revert H1. apply debounced_frame; reflexivity. }
  match goal with
  | |- debouncedAsConfigured (match trackedDocuments ?s !! doc with _ => _ end) =>
      set (st3 := s)
  end.
  assert (H3 : debouncedAsConfigured st3).
  { subst st3. destruct (_dirtyIdleTriggeredDebounced st2); [destruct (isDirty d)|];
      try exact H2; apply debounced_alter_idle; try exact H2; reflexivity. }
  destruct (trackedDocuments st3 !! doc) as [r|]; [|exact H3].
  destruct (_ && _); [exact H3|].
  assert (H4 : debouncedAsConfigured
                 (updateTracked doc (TrackedDocument_setDirty (isDirty d)) st3)).
  { revert H3. apply debounced_frame; reflexivity. }
  destruct (activeTextEditor st2); [|exact H4].
  destruct (negb _); [exact H4|].
  now apply debounced_fireDocumentDirtyStateChanged.
Qed.

Lemma debounced__add x doc st st' :
  debouncedAsConfigured st -> _add x st = inr (doc, st') -> debouncedAsConfigured st'.
Proof.
  intros H Hadd. unfold _add in Hadd.
  destruct x as [d|g|u].
  - injection Hadd as <- <-. revert H. apply debounced_frame; reflexivity.
  - destruct (openTextDocument (fileUri g)) as [ex|d].
    + destruct (negb _); [discriminate|]. injection Hadd as <- <-.
      revert H. apply debounced_frame; reflexivity.
    + injection Hadd as <- <-. revert H. apply debounced_frame; reflexivity.
  - destruct (openTextDocument u) as [ex|d]; [discriminate|].
    injection Hadd as <- <-. revert H. apply debounced_frame; reflexivity.
Qed.

Lemma debounced__get x doc st st' :
  debouncedAsConfigured st -> _get x st = Some (doc, st') -> debouncedAsConfigured st'.
Proof.
  intros H Hget. unfold _get in Hget.
  destruct (_documentMap st !! lookupKey x); [|discriminate].
  injection Hget as <- <-. revert H. apply debounced_frame; reflexivity.
Qed.

Lemma debounced_step ev st st' :
  debouncedAsConfigured st -> step ev st = Some st' -> debouncedAsConfigured st'.
Proof.
  intros H Hstep. destruct ev; cbn [step] in Hstep.
  - injection Hstep as <-. unfold onConfigurationChanged.
    destruct H as (Hp & Hr & Hs).
    destruct (negb _ && _); destruct (_ || _); (split; [|split]); cbn; auto.
  - injection Hstep as <-. revert H. apply debounced_frame; reflexivity.
  - injection Hstep as <-. unfold onActiveTextEditorChanged.
    destruct editor as [ed|]; [|exact H].
    destruct (negb _); [exact H|].
    destruct (_ !! _); [exact H|]. revert H. apply debounced_frame; reflexivity.
  - injection Hstep as <-. now apply debounced_onTextDocumentChanged.
  - injection Hstep as <-. unfold onTextDocumentClosed.
    destruct (_ !! _); [|exact H]. revert H. apply debounced_frame; reflexivity.
  - injection Hstep as <-. unfold onTextDocumentSaved.
    destruct (_ !! _); [|destruct (isActiveDocument d st)]; try exact H;
      revert H; apply debounced_frame; reflexivity.
  - unfold add in Hstep. destruct (_add documentOrId st) as [ex|[doc st1]] eqn:E.
    + now injection Hstep as <-.
    + injection Hstep as <-. eapply debounced__add; eassumption.
  - injection Hstep as <-. revert H. apply debounced_frame; reflexivity.
  - injection Hstep as <-. revert H. apply debounced_frame; reflexivity.
  - destruct (immediates st) as [|e rest]; [discriminate|].
    injection Hstep as <-. unfold dirtyStateImmediate.
    assert (H0 : debouncedAsConfigured (set_immediates rest st)).
    { revert H. apply debounced_frame; reflexivity. }
    pose proof (debounced_state cancel _ (fun x => eq_refl) H0) as H1.
    destruct (negb _); [exact H1|].
    revert H1. apply debounced_frame; reflexivity.
  - destruct (idleDebounced st !! d) as [x|]; [|discriminate].
    destruct (timer x) as [[deadline e]|]; [|discriminate].
    destruct (deadline <=? now st); [|discriminate].
    injection Hstep as <-. unfold dirtyIdleTriggered.
    pose proof (debounced_alter_idle cancel d st (fun x => eq_refl) H) as H1.
    destruct (match _dirtyIdleTriggeredDebounced _ with Some _ => _ | None => _ end);
      [exact H1|].
    revert H1. apply debounced_frame; reflexivity.
  - destruct (_dirtyStateChangedDebounced st) as [x|] eqn:Ex; [|discriminate].
    destruct (timer x) as [[deadline e]|]; [|discriminate].
    destruct (deadline <=? now st); [|discriminate].
    injection Hstep as <-. unfold dirtyStateChanged.
    assert (H1 : debouncedAsConfigured
                   (set_dirtyStateChangedDebounced (Some (cancel x)) st)).
    { destruct H as (Hp & Hr & Hs). rewrite Ex in Hs.
      split; [|split]; cbn; assumption. }
    destruct (negb _); [exact H1|].
    revert H1. apply debounced_frame; reflexivity.
  - destruct (_ && _); [|discriminate]. injection Hstep as <-.
    revert H. apply debounced_frame; reflexivity.
Qed.

(** X17: in every reachable state of the tracker, every debounced idle
    trigger that exists waits for a positive delay, the one the tracker
    holds waits for the delay currently configured, and the debounced
    delivery of "clean" waits for 250 milliseconds. *)
Theorem X17_debounced_functions_wait_as_configured (st : State) :
  reachable st -> debouncedAsConfigured st.
Proof.
  induction 1 as [delay active|ev st st' _ IH Hstep|x doc st st' _ IH Hget
                 |x doc st st' _ IH Hgoa].
  - unfold new, onConfigurationChanged. cbn. repeat split. constructor.
  - eapply debounced_step; eassumption.
  - eapply debounced__get; eassumption.
  - unfold getOrAdd in Hgoa. destruct (_get x st) as [[doc0 st0]|] eqn:E.
    + injection Hgoa as <- <-. eapply debounced__get; eassumption.
    + eapply debounced__add; eassumption.
Qed.

Lemma none_due_before_lookup {A : Set} (t : Z) (ds : list (Debounced A)) :
  (forall j y deadline e, ds !! j = Some y -> timer y = Some (deadline, e) -> t <= deadline) ->
  none_due_before t ds = true.
Proof.
  intros H. unfold none_due_before. apply forallb_forall. intros y Hy.
  apply list_elem_of_In, list_elem_of_lookup in Hy as [j Hj].
  destruct (timer y) as [[deadline e]|] eqn:Et; [|reflexivity].
  apply Z.leb_le. eapply H; eassumption.
Qed.

(** The active document becomes dirty while a positive delay is
    configured: the idle trigger held by the tracker is the only one with a
    running timer, due one delay from now, for the active editor and this
    document. *)
Lemma becomes_dirty_arms_idle d doc ed st :
  scheme (uri d) = DocumentSchemes_File ->
  settled st ->
  debouncedAsConfigured st ->
  0 < _dirtyIdleTriggerDelay st ->
  activeTracked d doc ed false st ->
  let st' := onTextDocumentChanged (readDirty true d) st in
  exists t x,
    _dirtyIdleTriggeredDebounced st' = Some t
    /\ idleDebounced st' !! t = Some x
    /\ timer x = Some (now st + _dirtyIdleTriggerDelay st, mkDirtyIdle (Some ed) doc)
    /\ (forall j y, idleDebounced st' !! j = Some y -> j <> t -> timer y = None).
Proof.
  intros Hs (Hi & Hidle & Hstate) (Hpos & Href & _) Hdelay
    (Hm & (r & Hr & Hd & Hf) & Ha & Ho). intros st'.
  assert (E : st' = fireDocumentDirtyStateChanged (mkDirtyState ed doc true)
                 (updateTracked doc (TrackedDocument_setDirty true)
                    (afterIdleFeed (readDirty true d) doc st))).
  { subst st'. apply (onTextDocumentChanged_flip (readDirty true d) doc r ed st);
      assumption. }
  rewrite E. clear E st'.
  unfold fireDocumentDirtyStateChanged, afterIdleFeed, dirtyIdleTriggeredDebounced_ensure.
  cbn [dsc_dirty isDirty readDirty].
  assert (Hothers : forall j y, idleDebounced st !! j = Some y -> timer y = None).
  { intros j y Hy. rewrite Forall_forall in Hidle. apply Hidle.
    apply list_elem_of_lookup. eauto. }
  destruct (_dirtyIdleTriggeredDebounced st) as [t|] eqn:Et;
    cbn -[Z.add Z.ltb]; rewrite ?Et; cbn -[Z.add Z.ltb];
    (destruct (Z.ltb_spec 0 (_dirtyIdleTriggerDelay st)); [|lia]);
    cbn -[Z.add Z.ltb]; rewrite ?Et; cbn -[Z.add Z.ltb].
  - destruct Href as (x & Hx & Hw).
    exists t. eexists. split; [first [reflexivity|exact Et]|].
    split; [rewrite !list_lookup_alter_eq, Hx; reflexivity|].
    split; [cbn -[Z.add]; rewrite Hw; reflexivity|].
    intros j y Hy Hne. rewrite !list_lookup_alter_ne in Hy by congruence. eauto.
  - exists (length (idleDebounced st)). eexists. split; [reflexivity|].
    split; [apply lookup_alter_last|].
    split; [reflexivity|].
    intros j y Hy Hne. rewrite list_lookup_alter_ne in Hy by congruence.
    apply lookup_app_Some in Hy as [Hy|[Hge Hy]]; [eauto|].
    exfalso. apply Hne.
    assert (j - length (idleDebounced st) = 0)%nat.
    { destruct (j - length (idleDebounced st))%nat; [reflexivity|discriminate]. }
    lia.
Qed.

(** The next turn of the event loop leaves the idle triggers alone. *)
Lemma immediate_keeps_idle e rest st :
  immediates st = e :: rest ->
  exists st',
    step RunImmediate st = Some st'
    /\ idleDebounced st' = idleDebounced st
    /\ _dirtyIdleTriggeredDebounced st' = _dirtyIdleTriggeredDebounced st
    /\ now st' = now st
    /\ immediates st' = rest
    /\ cleanDeliveryIdle st'
    /\ dirtyIdleObserved st' = dirtyIdleObserved st
    /\ length (trackedDocuments st') = length (trackedDocuments st).
Proof.
  intros Hi. cbn [step]. rewrite Hi. eexists. split; [reflexivity|].
  unfold dirtyStateImmediate, cleanDeliveryIdle.
  destruct (_dirtyStateChangedDebounced st) as [x|] eqn:Ex;
    cbn -[is_active_editor]; rewrite ?Ex; cbn -[is_active_editor];
    destruct (negb _); cbn; rewrite ?Ex; repeat split;
    try (unfold dirtyIdleObserved; cbn; rewrite List.filter_app; cbn;
         now rewrite app_nil_r);
    try apply length_alter.
Qed.

Lemma wait_step_due (dt : Z) (st : State) :
  0 <= dt ->
  immediates st = [] ->
  none_due_before (now st + dt) (idleDebounced st) = true ->
  cleanDeliveryIdle st ->
  step (Wait dt) st = Some (set_now (now st + dt) st).
Proof.
  intros Hdt Hi Hidle Hstate. cbn [step]. rewrite Hi, Hidle.
  destruct (Z.leb_spec 0 dt); [|lia]. cbn [andb].
  unfold cleanDeliveryIdle in Hstate.
  destruct (_dirtyStateChangedDebounced st) as [x|]; [|reflexivity].
  cbn [none_due_before forallb]. now rewrite Hstate.
Qed.

(** X18: a positive delay is configured, nothing is in flight, and the
    tracked document of the active editor becomes dirty.  Then an
    idle-trigger notification for the active editor and this document is
    delivered once the delay has passed without a further change, the record
    is marked dirty-idle, and before that no idle trigger can fire. *)
Theorem X18_idle_trigger_fires_after_the_delay d doc ed st b :
  scheme (uri d) = DocumentSchemes_File ->
  settled st ->
  debouncedAsConfigured st ->
  activeTracked d doc ed false st ->
  0 <= b < _dirtyIdleTriggerDelay st ->
  (forall j, run [TextDocumentChanged (readDirty true d); RunImmediate; Wait b;
                  IdleTimerElapsed j] st = None)
  /\ exists t st2,
       run [TextDocumentChanged (readDirty true d); RunImmediate;
            Wait (_dirtyIdleTriggerDelay st); IdleTimerElapsed t] st = Some st2
       /\ dirtyIdleObserved st2
          = dirtyIdleObserved st
            ++ [(now st + _dirtyIdleTriggerDelay st,
                 DidTriggerDirtyIdle (mkDirtyIdle (Some ed) doc))]
       /\ exists r, trackedDocuments st2 !! doc = Some r /\ isDirtyIdle r = true.
Proof.
  intros Hs Hset Hcfg Hat Hb.
  assert (Hdelay : 0 < _dirtyIdleTriggerDelay st) by lia.
  destruct (becomes_dirty d doc ed st Hs Hat) as (Hat_d & Hi_d & Hsd_d & Hnow_d & Hfired_d).
  destruct (becomes_dirty_arms_idle d doc ed st Hs Hset Hcfg Hdelay Hat)
    as (t & x & Href & Hx & Htimer & Hothers).
  set (st_d := onTextDocumentChanged (readDirty true d) st) in *.
  destruct Hset as (Hi & _ & Hstate).
  rewrite Hi in Hi_d. cbn [app] in Hi_d.
  destruct (immediate_keeps_idle _ _ st_d Hi_d)
    as (st_i & Hstep_i & Hidle_i & Href_i & Hnow_i & Himm_i & Hclean_i & Hobs_i & Hlen_i).
  assert (Hchange : forall evs,
            run (TextDocumentChanged (readDirty true d) :: RunImmediate :: evs) st
            = run evs st_i).
  { intros evs.
    rewrite (run_step (TextDocumentChanged (readDirty true d)) _ st st_d eq_refl).
    now apply run_step. }
  assert (Hwait : forall dt, 0 <= dt <= _dirtyIdleTriggerDelay st ->
            step (Wait dt) st_i = Some (set_now (now st + dt) st_i)).
  { intros dt Hdt. rewrite <- Hnow_d, <- Hnow_i.
    apply wait_step_due; try assumption; [lia|].
    apply none_due_before_lookup. intros j y deadline e Hy Hty.
    rewrite Hidle_i in Hy. destruct (decide (j = t)) as [->|Hne].
    - rewrite Hx in Hy. injection Hy as <-. rewrite Htimer in Hty.
      injection Hty as <- <-. lia.
    - rewrite (Hothers j y Hy Hne) in Hty. discriminate. }
  split.
  - intros j.
    assert (Hb' : 0 <= b <= _dirtyIdleTriggerDelay st) by lia.
    rewrite Hchange, (run_step _ _ _ _ (Hwait b Hb')).
    apply run_stuck. cbn [step idleDebounced set_now now]. rewrite Hidle_i.
    destruct (idleDebounced st_d !! j) as [y|] eqn:Hy; [|reflexivity].
    destruct (decide (j = t)) as [->|Hne].
    + rewrite Hx in Hy. injection Hy as <-. rewrite Htimer.
      destruct (Z.leb_spec (now st + _dirtyIdleTriggerDelay st) (now st + b));
        [lia|reflexivity].
    + now rewrite (Hothers j y Hy Hne).
  - exists t.
    assert (Hd' : 0 <= _dirtyIdleTriggerDelay st <= _dirtyIdleTriggerDelay st) by lia.
    rewrite Hchange, (run_step _ _ _ _ (Hwait _ Hd')).
    cbn [run step idleDebounced set_now now]. rewrite Hidle_i, Hx, Htimer, Z.leb_refl.
    eexists. split; [reflexivity|].
    unfold dirtyIdleTriggered.
    cbn [_dirtyIdleTriggeredDebounced set_idleDebounced set_now idleDebounced].
    rewrite Href_i, Href, list_lookup_alter_eq, Hx.
    cbn [fmap option_fmap option_map pending cancel timer].
    split.
    + unfold dirtyIdleObserved, fire. cbn [fired set_fired updateTracked
        set_trackedDocuments set_idleDebounced set_now now].
      rewrite List.filter_app. cbn [List.filter is_dirtyIdle snd].
      fold (dirtyIdleObserved st_i). rewrite Hobs_i.
      unfold dirtyIdleObserved. now rewrite Hfired_d.
    + destruct Hat_d as (_ & (r & Hr & _) & _).
      assert (Hlt : (doc < length (trackedDocuments st_i))%nat).
      { rewrite Hlen_i. eapply lookup_lt_Some; exact Hr. }
      apply lookup_lt_is_Some in Hlt as [r_i Hr_i].
      eexists. cbn. rewrite list_lookup_alter_eq, Hr_i. cbn. split; reflexivity.
Qed.

End DocumentTrackerDebounced.

(* ===================================================================== *)
(** * Further properties of DocumentTracker at concrete inputs *)
(* ===================================================================== *)

Section DocumentTrackerFurtherExamples.
Import Host Functions DocumentTracker Examples.

Lemma X10_lookup_never_returns_disposed_record_witness :
  exists doc st',
    get (OfDocument (a_ts true)) (tracking_a 0) = Some (doc, st')
    /\ exists r, trackedDocuments st' !! doc = Some r
                 /\ disposed r = false /\ initialized r = true.
Proof.
  destruct (get (OfDocument (a_ts true)) (tracking_a 0)) as [[doc st']|] eqn:E;
    [|vm_compute in E; discriminate].
  exists doc, st'. split; [reflexivity|].
  destruct (X10_lookup_never_returns_disposed_record
              (OfDocument (a_ts true)) doc (tracking_a 0) st')
    as (_ & r & Hr & Hd & Hi & _).
  - apply (reachable_step (ActiveTextEditorChanged (Some editor_a))
             (new 0 (Some editor_a)) (tracking_a 0));
      [apply reachable_new|reflexivity].
  - exact E.
  - exists r. split; [exact Hr|]. split; [exact Hd|exact Hi].
Defined.

Lemma X11_add_then_get_returns_the_record_witness :
  exists doc st' r,
    add (OfDocument (a_ts false)) (new 0 None) = inr (doc, st')
    /\ trackedDocuments st' !! doc = Some r
    /\ has (OfDocument (tracked_document r)) st' = true.
Proof.
  destruct (add (OfDocument (a_ts false)) (new 0 None)) as [ex|[doc st']] eqn:E;
    [vm_compute in E; discriminate|].
  destruct (X11_add_then_get_returns_the_record
              (OfDocument (a_ts false)) doc (new 0 None) st' E)
    as (r & Hr & _ & _ & _ & _ & Hhas & _).
  exists doc, st', r. split; [reflexivity|]. split; [exact Hr|exact Hhas].
Defined.

Lemma X13_close_removes_both_entries_witness :
  has (OfDocument (a_ts false)) (tracking_a 0) = true
  /\ has (OfDocument (a_ts false)) (onTextDocumentClosed (a_ts false) (tracking_a 0))
     = false
  /\ _documentMap (onTextDocumentClosed (a_ts false) (tracking_a 0))
       !! KString "/repo/a.ts" = None.
Proof.
  split; [reflexivity|].
  destruct (X13_close_removes_both_entries (a_ts false) 0%nat
              (TrackedDocument_new (a_ts false) "/repo/a.ts" false) (tracking_a 0))
    as (_ & Hhas & Hkey & _); [reflexivity|reflexivity|].
  split; [exact Hhas|exact Hkey].
Defined.

Lemma X16_activation_tracks_the_document_once_witness :
  has (OfDocument (a_ts false)) (new 0 None) = false
  /\ has (OfDocument (a_ts false)) (onActiveTextEditorChanged (Some editor_a) (new 0 None))
     = true.
Proof.
  split; [reflexivity|].
  destruct (X16_activation_tracks_the_document_once editor_a (new 0 None))
    as (Hhas & _); [reflexivity|].
  exact Hhas.
Defined.

Lemma X17_debounced_functions_wait_as_configured_witness :
  debouncedAsConfigured
    (after [TextDocumentChanged (a_ts true); RunImmediate] (tracking_a 5000)).
Proof.
  apply (X17_debounced_functions_wait_as_configured
           (after [TextDocumentChanged (a_ts true); RunImmediate] (tracking_a 5000))).
  apply (reachable_step RunImmediate
           (onTextDocumentChanged (a_ts true) (tracking_a 5000)));
    [|vm_compute; reflexivity].
  apply (reachable_step (TextDocumentChanged (a_ts true)) (tracking_a 5000));
    [|reflexivity].
  apply (reachable_step (ActiveTextEditorChanged (Some editor_a))
           (new 5000 (Some editor_a)));
    [apply reachable_new|reflexivity].
Defined.

Lemma X18_idle_trigger_fires_after_the_delay_witness :
  (forall j, run [TextDocumentChanged (readDirty true (a_ts false)); RunImmediate;
                  Wait 4999; IdleTimerElapsed j] (tracking_a 5000) = None)
  /\ exists t st2,
       run [TextDocumentChanged (readDirty true (a_ts false)); RunImmediate;
            Wait 5000; IdleTimerElapsed t] (tracking_a 5000) = Some st2
       /\ dirtyIdleObserved st2
          = [(5000, DidTriggerDirtyIdle (mkDirtyIdle (Some editor_a) 0%nat))].
Proof.
  destruct (X18_idle_trigger_fires_after_the_delay (a_ts false) 0%nat editor_a
              (tracking_a 5000) 4999) as (Hnot & t & st2 & Hrun & Hobs & _).
  - reflexivity.
  - split; [reflexivity|]. split; [apply Forall_nil_2|exact I].
  - split; [apply Forall_nil_2|]. split; exact I.
  - split; [reflexivity|]. split; [|split; reflexivity].
    eexists. split; [vm_compute; reflexivity|]. split; reflexivity.
  - vm_compute. split; [discriminate|reflexivity].
  - split; [exact Hnot|]. exists t, st2. split; [exact Hrun|exact Hobs].
Defined.

End DocumentTrackerFurtherExamples.

(* ===================================================================== *)
(** * Further properties of DocumentTracker: change events *)
(* ===================================================================== *)

Section DocumentTrackerChangeEvents.
Import Host Functions DocumentTracker.
Context {env : Env}.

(** X25: the tracker has one idle timer for all documents.  Every change
    event of a file document feeds it, whether or not the document is
    tracked, active, or changed its dirty flag: a dirty document restarts
    the delay, with the active editor and the changed document as what will
    be reported, and a clean one cancels the timer.  The delay is the one
    the timer was made with. *)
Theorem X25_every_change_feeds_the_one_idle_timer
    (d : TextDocument) (t : nat) (x : Debounced DocumentDirtyIdleTriggerEvent)
    (st : State) :
  scheme (uri d) = DocumentSchemes_File ->
  _dirtyIdleTriggeredDebounced st = Some t ->
  idleDebounced st !! t = Some x ->
  let st' := onTextDocumentChanged d st in
  _dirtyIdleTriggeredDebounced st' = Some t
  /\ (forall j, j <> t -> idleDebounced st' !! j = idleDebounced st !! j)
  /\ exists doc x',
       _documentMap st' !! KDocument (object d) = Some doc
       /\ idleDebounced st' !! t = Some x'
       /\ wait x' = wait x
       /\ timer x' = if isDirty d
                     then Some (now st + wait x, mkDirtyIdle (activeTextEditor st) doc)
                     else None.
Proof.
  intros Hs Ht Hx st'. subst st'. unfold onTextDocumentChanged.
  rewrite Hs, String.eqb_refl. cbn [negb].
  assert (Htail : forall doc st1,
    _dirtyIdleTriggeredDebounced st1 = Some t ->
    idleDebounced st1 = idleDebounced st ->
    now st1 = now st ->
    activeTextEditor st1 = activeTextEditor st ->
    let st2 := updateTracked doc TrackedDocument_reset st1 in
    let st3 :=
      match _dirtyIdleTriggeredDebounced st2 with
      | Some t =>
          if isDirty d
          then set_idleDebounced
                 (alter (schedule (now st2) (mkDirtyIdle (activeTextEditor st2) doc)) t
                        (idleDebounced st2)) st2
          else set_idleDebounced (alter cancel t (idleDebounced st2)) st2
      | None => st2
      end in
    let st' :=
      match trackedDocuments st3 !! doc with
      | None => st3
      | Some r =>
          if negb (forceDirtyStateChangeOnNextDocumentChange r)
             && Bool.eqb (dirty r) (isDirty d)
          then st3
          else
            let st4 := updateTracked doc (TrackedDocument_setDirty (isDirty d)) st3 in
            match activeTextEditor st2 with
            | None => st4
            | Some ed =>
                if negb (same_document (document ed) d) then st4
                else fireDocumentDirtyStateChanged (mkDirtyState ed doc (isDirty d)) st4
            end
      end in
    _dirtyIdleTriggeredDebounced st' = Some t
    /\ _documentMap st' = _documentMap st1
    /\ (forall j, j <> t -> idleDebounced st' !! j = idleDebounced st !! j)
    /\ exists x',
         idleDebounced st' !! t = Some x'
         /\ wait x' = wait x
         /\ timer x' = if isDirty d
                       then Some (now st + wait x,
                                  mkDirtyIdle (activeTextEditor st) doc)
                       else None).
  { intros doc st1 Ht1 Hi1 Hn1 Ha1. cbn -[Z.add]. rewrite Ht1, Hi1, Hn1, Ha1.
    assert (Hfin : forall l : list (Debounced DocumentDirtyIdleTriggerEvent),
      l = alter (if isDirty d
                 then schedule (now st) (mkDirtyIdle (activeTextEditor st) doc)
                 else cancel) t (idleDebounced st) ->
      (forall j, j <> t -> l !! j = idleDebounced st !! j)
      /\ exists x',
           l !! t = Some x'
           /\ wait x' = wait x
           /\ timer x' = if isDirty d
                         then Some (now st + wait x,
                                    mkDirtyIdle (activeTextEditor st) doc)
                         else None).
    { intros l ->. split.
      - intros j Hj. now rewrite list_lookup_alter_ne by congruence.
      - rewrite list_lookup_alter_eq, Hx. eexists. split; [reflexivity|].
        destruct (isDirty d); split; reflexivity. }
    destruct (isDirty d) eqn:Ed.
    - cbn -[Z.add].
      destruct (alter TrackedDocument_reset doc (trackedDocuments st1) !! doc) as [r|];
        [|split; [exact Ht1|]; split; [reflexivity|]; apply Hfin; reflexivity].
      destruct (negb _ && _);
        [split; [exact Ht1|]; split; [reflexivity|]; apply Hfin; reflexivity|].
      destruct (activeTextEditor st) as [ed|] eqn:Ea;
        [|split; [exact Ht1|]; split; [reflexivity|]; apply Hfin; reflexivity].
      destruct (negb (same_document (document ed) d));
        [split; [exact Ht1|]; split; [reflexivity|]; apply Hfin; reflexivity|].
      unfold fireDocumentDirtyStateChanged, dirtyIdleTriggeredDebounced_ensure.
      cbn -[Z.add Z.ltb]. rewrite Ht1.
      destruct (0 <? _dirtyIdleTriggerDelay st1); cbn -[Z.add Z.ltb];
        [|split; [exact Ht1|]; split; [reflexivity|]; apply Hfin; reflexivity].
      rewrite Hn1. split; [exact Ht1|]. split; [reflexivity|]. apply Hfin.
      rewrite list_alter_alter_eq. apply list_alter_ext; [|reflexivity].
      intros y _. reflexivity.
    - cbn -[Z.add].
      destruct (alter TrackedDocument_reset doc (trackedDocuments st1) !! doc) as [r|];
        [|split; [exact Ht1|]; split; [reflexivity|]; apply Hfin; reflexivity].
      destruct (negb _ && _);
        [split; [exact Ht1|]; split; [reflexivity|]; apply Hfin; reflexivity|].
      destruct (activeTextEditor st) as [ed|] eqn:Ea;
        [|split; [exact Ht1|]; split; [reflexivity|]; apply Hfin; reflexivity].
      destruct (negb (same_document (document ed) d));
        [split; [exact Ht1|]; split; [reflexivity|]; apply Hfin; reflexivity|].
      unfold fireDocumentDirtyStateChanged. cbn -[Z.add Z.ltb].
      split; [exact Ht1|]. split; [reflexivity|]. apply Hfin; reflexivity. }
  destruct (_documentMap st !! KDocument (object d)) as [doc|] eqn:Em.
  - destruct (Htail doc st Ht eq_refl eq_refl eq_refl) as (H1 & H2 & H3 & x' & H4).
    split; [exact H1|]. split; [exact H3|]. exists doc, x'.
    split; [|exact H4].
    etransitivity; [exact (f_equal (fun m => m !! KDocument (object d)) H2)|exact Em].
  - unfold addCore.
    set (doc := length (trackedDocuments st)).
    set (st1 := set_documentMap _ _).
    destruct (Htail doc st1 Ht eq_refl eq_refl eq_refl) as (H1 & H2 & H3 & x' & H4).
    split; [exact H1|]. split; [exact H3|]. exists doc, x'.
    split; [|exact H4].
    etransitivity; [exact (f_equal (fun m => m !! KDocument (object d)) H2)|].
    subst st1. cbn.
    rewrite lookup_insert_ne by discriminate. apply lookup_insert_eq.
Qed.

(** X26: after a change event of a file document the record of the
    document mirrors it: the record exists, is the record of this document,
    holds the dirty flag the document was read with, no longer asks for a
    forced notification, and has its cached state reset.  A change event of
    a document of another scheme changes nothing. *)
Theorem X26_change_event_mirrors_the_dirty_flag (d : TextDocument) (st : State) :
  mapConsistent st ->
  let st' := onTextDocumentChanged d st in
  (scheme (uri d) <> DocumentSchemes_File -> st' = st)
  /\ (scheme (uri d) = DocumentSchemes_File ->
      exists doc r,
        _documentMap st' !! KDocument (object d) = Some doc
        /\ trackedDocuments st' !! doc = Some r
        /\ dirty r = isDirty d
        /\ forceDirtyStateChangeOnNextDocumentChange r = false
        /\ hasCachedState r = false
        /\ object (tracked_document r) = object d).
Proof.
  intros Hmap st'. subst st'. unfold onTextDocumentChanged. split.
  { intros Hs. destruct (String.eqb_spec (scheme (uri d)) DocumentSchemes_File);
      [contradiction|reflexivity]. }
  intros Hs. rewrite Hs, String.eqb_refl. cbn [negb].
  assert (Htail : forall doc st1 r0,
    trackedDocuments st1 !! doc = Some r0 ->
    object (tracked_document r0) = object d ->
    let st2 := updateTracked doc TrackedDocument_reset st1 in
    let st3 :=
      match _dirtyIdleTriggeredDebounced st2 with
      | Some t =>
          if isDirty d
          then set_idleDebounced
                 (alter (schedule (now st2) (mkDirtyIdle (activeTextEditor st2) doc)) t
                        (idleDebounced st2)) st2
          else set_idleDebounced (alter cancel t (idleDebounced st2)) st2
      | None => st2
      end in
    let st' :=
      match trackedDocuments st3 !! doc with
      | None => st3
      | Some r =>
          if negb (forceDirtyStateChangeOnNextDocumentChange r)
             && Bool.eqb (dirty r) (isDirty d)
          then st3
          else
            let st4 := updateTracked doc (TrackedDocument_setDirty (isDirty d)) st3 in
            match activeTextEditor st2 with
            | None => st4
            | Some ed =>
                if negb (same_document (document ed) d) then st4
                else fireDocumentDirtyStateChanged (mkDirtyState ed doc (isDirty d)) st4
            end
      end in
    _documentMap st' = _documentMap st1
    /\ exists r,
         trackedDocuments st' !! doc = Some r
         /\ dirty r = isDirty d
         /\ forceDirtyStateChangeOnNextDocumentChange r = false
         /\ hasCachedState r = false
         /\ object (tracked_document r) = object d).
  { intros doc st1 r0 Hr0 Hobj. cbn zeta.
    set (st2 := updateTracked doc TrackedDocument_reset st1).
    set (st3 := match _dirtyIdleTriggeredDebounced st2 with
                | Some t => _
                | None => st2
                end).
    assert (H3 : _documentMap st3 = _documentMap st1
                 /\ trackedDocuments st3 = alter TrackedDocument_reset doc
                                             (trackedDocuments st1)).
    { subst st3. destruct (_dirtyIdleTriggeredDebounced st2);
        [destruct (isDirty d)|]; split; reflexivity. }
    destruct H3 as (Hm3 & Ht3).
    assert (Hr3 : trackedDocuments st3 !! doc = Some (TrackedDocument_reset r0)).
    { rewrite Ht3, list_lookup_alter_eq, Hr0. reflexivity. }
    rewrite Hr3. cbn [TrackedDocument_reset forceDirtyStateChangeOnNextDocumentChange dirty].
    destruct (negb (forceDirtyStateChangeOnNextDocumentChange r0)
              && Bool.eqb (dirty r0) (isDirty d)) eqn:Ec.
    - split; [exact Hm3|]. eexists. split; [exact Hr3|].
      apply andb_true_iff in Ec as (Hf & Hd).
      apply negb_true_iff in Hf. apply Bool.eqb_prop in Hd.
      cbn. repeat split; assumption.
    - assert (Hr4 : trackedDocuments
                      (updateTracked doc (TrackedDocument_setDirty (isDirty d)) st3) !! doc
                    = Some (TrackedDocument_setDirty (isDirty d) (TrackedDocument_reset r0))).
      { unfold updateTracked. cbn. rewrite list_lookup_alter_eq, Hr3. reflexivity. }
      assert (Hgoal : forall st4 : State,
        _documentMap st4 = _documentMap st3 ->
        trackedDocuments st4
        = trackedDocuments (updateTracked doc (TrackedDocument_setDirty (isDirty d)) st3) ->
        _documentMap st4 = _documentMap st1
        /\ exists r,
             trackedDocuments st4 !! doc = Some r
             /\ dirty r = isDirty d
             /\ forceDirtyStateChangeOnNextDocumentChange r = false
             /\ hasCachedState r = false
             /\ object (tracked_document r) = object d).
      { intros st4 Hm4 Ht4. split; [now rewrite Hm4|]. rewrite Ht4, Hr4.
        eexists. split; [reflexivity|]. cbn. repeat split. exact Hobj. }
      destruct (activeTextEditor st2) as [ed|]; [|apply Hgoal; reflexivity].
      destruct (negb (same_document (document ed) d)); [apply Hgoal; reflexivity|].
      destruct (fireDocumentDirtyStateChanged_tracked
                  (mkDirtyState ed doc (isDirty d))
                  (updateTracked doc (TrackedDocument_setDirty (isDirty d)) st3))
        as (Hfm & Hft).
      apply Hgoal; [exact Hfm|exact Hft]. }
  destruct (_documentMap st !! KDocument (object d)) as [doc|] eqn:Em.
  - destruct (Hmap _ _ Em) as (r0 & Hr0 & _ & Hfiled). cbn in Hfiled.
    destruct (Htail doc st r0 Hr0 Hfiled) as (H2 & r & H4).
    exists doc, r. split; [|exact H4].
    etransitivity; [exact (f_equal (fun m => m !! KDocument (object d)) H2)|exact Em].
  - unfold addCore.
    set (doc := length (trackedDocuments st)).
    set (st1 := set_documentMap _ _).
    assert (Hr0 : trackedDocuments st1 !! doc
                  = Some (TrackedDocument_new d (toKey (uri d)) false)).
    { subst st1 doc. cbn. rewrite lookup_app_r by lia. now rewrite Nat.sub_diag. }
    destruct (Htail doc st1 _ Hr0 eq_refl) as (H2 & r & H4).
    exists doc, r. split; [|exact H4].
    etransitivity; [exact (f_equal (fun m => m !! KDocument (object d)) H2)|].
    subst st1. cbn.
    rewrite lookup_insert_ne by discriminate. apply lookup_insert_eq.
Qed.

Lemma recordsKept_refl l : recordsKept l l.
Proof. intros i r H. exists r. auto. Qed.

Lemma recordsKept_trans l1 l2 l3 :
  recordsKept l1 l2 -> recordsKept l2 l3 -> recordsKept l1 l3.
Proof.
  intros H12 H23 i r Hr. destruct (H12 i r Hr) as (r2 & Hr2 & Hd2 & Hk2 & Hx2).
  destruct (H23 i r2 Hr2) as (r3 & Hr3 & Hd3 & Hk3 & Hx3).
  exists r3. split; [exact Hr3|]. split; [congruence|]. split; [congruence|auto].
Qed.

Lemma recordsKept_alter f j l l' :
  keepsRecord f -> recordsKept l l' -> recordsKept l (alter f j l').
Proof.
  intros Hf H i r Hr. destruct (H i r Hr) as (r' & Hr' & Hd & Hk & Hx).
  destruct (decide (j = i)) as [->|Hne].
  - exists (f r'). rewrite list_lookup_alter_eq, Hr'. cbn.
    destruct (Hf r') as (Hfd & Hfk & Hfx).
    split; [reflexivity|]. split; [congruence|]. split; [congruence|auto].
  - exists r'. rewrite list_lookup_alter_ne by exact Hne. auto.
Qed.

Lemma recordsKept_app l l' k : recordsKept l l' -> recordsKept l (l' ++ k).
Proof.
  intros H i r Hr. destruct (H i r Hr) as (r' & Hr' & Hrest).
  exists r'. split; [|exact Hrest]. now apply lookup_app_l_Some.
Qed.

Lemma recordsKept_fold f (m : gmap Key nat) l l' :
  keepsRecord f -> recordsKept l l' ->
  recordsKept l (map_fold (fun _ doc docs => alter f doc docs) l' m).
Proof.
  intros Hf H.
  apply (map_fold_weak_ind (fun r _ => recordsKept l r)).
  - exact H.
  - intros k doc m' r _ IH. now apply recordsKept_alter.
Qed.

Lemma keepsRecord_reset : keepsRecord TrackedDocument_reset.
Proof. intros r. repeat split. auto. Qed.

Lemma keepsRecord_dispose : keepsRecord TrackedDocument_dispose.
Proof. intros r. repeat split. Qed.

Lemma keepsRecord_ensureInitialized : keepsRecord TrackedDocument_ensureInitialized.
Proof. intros r. repeat split. auto. Qed.

Lemma keepsRecord_setDirty b : keepsRecord (TrackedDocument_setDirty b).
Proof. intros r. repeat split. auto. Qed.

Lemma keepsRecord_setForce : keepsRecord TrackedDocument_setForce.
Proof. intros r. repeat split. auto. Qed.

Lemma keepsRecord_setDirtyIdle :
  keepsRecord (fun r => TrackedDocument_setDirtyIdle (TrackedDocument_ensureInitialized r)).
Proof. intros r. repeat split. auto. Qed.

Create HintDb kept.

#[local] Hint Resolve recordsKept_refl recordsKept_alter recordsKept_app
  recordsKept_fold keepsRecord_reset keepsRecord_dispose
  keepsRecord_ensureInitialized keepsRecord_setDirty keepsRecord_setForce
  keepsRecord_setDirtyIdle : kept.

Lemma recordsKept_fireDocumentDirtyStateChanged e l st :
  recordsKept l (trackedDocuments st) ->
  recordsKept l (trackedDocuments (fireDocumentDirtyStateChanged e st)).
Proof.
  intros H. now rewrite (proj2 (fireDocumentDirtyStateChanged_tracked e st)).
Qed.

Lemma recordsKept_step ev st st' :
  step ev st = Some st' ->
  recordsKept (trackedDocuments st) (trackedDocuments st').
Proof.
  intros Hstep. destruct ev; cbn [step] in Hstep.
  - injection Hstep as <-. unfold onConfigurationChanged, forEachTracked.
    repeat (case_match; cbn); auto with kept.
  - injection Hstep as <-. apply recordsKept_refl.
  - injection Hstep as <-. unfold onActiveTextEditorChanged, addCore.
    repeat (case_match; cbn); auto with kept.
  - injection Hstep as <-. unfold onTextDocumentChanged, addCore.
    repeat (case_match; cbn [fst snd]); simplify_eq;
      try apply recordsKept_fireDocumentDirtyStateChanged;
      cbn; auto 10 with kept.
  - injection Hstep as <-. unfold onTextDocumentClosed.
    repeat (case_match; cbn); auto with kept.
  - injection Hstep as <-. unfold onTextDocumentSaved, addCore, fire.
    repeat (case_match; cbn); auto with kept.
  - unfold add, _add, addCore in Hstep.
    repeat (case_match; cbn in * ); simplify_eq; cbn; auto with kept.
  - injection Hstep as <-. unfold clear, forEachTracked. cbn. auto with kept.
  - injection Hstep as <-. cbn. auto with kept.
  - destruct (immediates st) as [|e rest]; [discriminate|].
    injection Hstep as <-. unfold dirtyStateImmediate, fire.
    repeat (case_match; cbn); auto with kept.
  - destruct (idleDebounced st !! d) as [x|]; [|discriminate].
    destruct (timer x) as [[deadline e]|]; [|discriminate].
    destruct (deadline <=? now st); [|discriminate].
    injection Hstep as <-. unfold dirtyIdleTriggered, fire.
    repeat (case_match; cbn); auto with kept.
  - destruct (_dirtyStateChangedDebounced st) as [x|]; [|discriminate].
    destruct (timer x) as [[deadline e]|]; [|discriminate].
    destruct (deadline <=? now st); [|discriminate].
    injection Hstep as <-. unfold dirtyStateChanged, fire.
    repeat (case_match; cbn); auto with kept.
  - destruct (_ && _); [|discriminate]. injection Hstep as <-. apply recordsKept_refl.
Qed.

Lemma mapConsistent_run evs st st' :
  mapConsistent st -> run evs st = Some st' -> mapConsistent st'.
Proof.
  revert st. induction evs as [|ev evs IH]; intros st Hmap Hrun.
  - now injection Hrun as <-.
  - cbn [run] in Hrun. destruct (step ev st) as [st1|] eqn:E; [|discriminate].
    apply (IH st1); [|exact Hrun]. eapply mapConsistent_step; eassumption.
Qed.

(** X27: along every run of events the tracker keeps its records: a
    record, once made, stays at its place with its document and key, and a
    record that was disposed is never revived, nor is it entered in the
    document map again: a document that is tracked again after its record
    was disposed gets another record. *)
Theorem X27_records_are_kept_and_never_revived
    (evs : list Event) (st st' : State) :
  run evs st = Some st' ->
  recordsKept (trackedDocuments st) (trackedDocuments st')
  /\ (mapConsistent st ->
      forall i r k,
        trackedDocuments st !! i = Some r ->
        disposed r = true ->
        _documentMap st' !! k <> Some i).
Proof.
  intros Hrun.
  assert (Hkept : recordsKept (trackedDocuments st) (trackedDocuments st')).
  { revert st Hrun. induction evs as [|ev evs IH]; intros st Hrun.
    - injection Hrun as <-. apply recordsKept_refl.
    - cbn [run] in Hrun. destruct (step ev st) as [st1|] eqn:E; [|discriminate].
      eapply recordsKept_trans; [eapply recordsKept_step; exact E|now apply IH]. }
  split; [exact Hkept|].
  intros Hmap i r k Hr Hd Hk.
  destruct (mapConsistent_run evs st st' Hmap Hrun k i Hk) as (r' & Hr' & Hlive & _).
  destruct (Hkept i r Hr) as (r'' & Hr'' & _ & _ & Hdisp).
  rewrite Hr' in Hr''. injection Hr'' as <-. rewrite (Hdisp Hd) in Hlive. discriminate.
Qed.

End DocumentTrackerChangeEvents.

Section DocumentTrackerChangeEventsExamples.
Import Host Functions DocumentTracker Examples.

Lemma X25_every_change_feeds_the_one_idle_timer_witness :
  exists x',
    idleDebounced
      (onTextDocumentChanged (a_ts false)
         (after [TextDocumentChanged (a_ts true); RunImmediate] (tracking_a 5000)))
      !! 0%nat = Some x'
    /\ wait x' = 5000
    /\ timer x' = None.
Proof.
  destruct (X25_every_change_feeds_the_one_idle_timer (a_ts false) 0%nat
              (mkDebounced 5000
                 (Some (5000, mkDirtyIdle (Some editor_a) 0%nat)))
              (after [TextDocumentChanged (a_ts true); RunImmediate] (tracking_a 5000)))
    as (_ & _ & doc & x' & _ & Hx' & Hw & Ht);
    [reflexivity|reflexivity|reflexivity|].
  exists x'. split; [exact Hx'|]. split; [exact Hw|exact Ht].
Defined.

Lemma X26_change_event_mirrors_the_dirty_flag_witness :
  exists doc r,
    _documentMap (onTextDocumentChanged (a_ts true) (tracking_a 0))
      !! KDocument (object (a_ts true)) = Some doc
    /\ trackedDocuments (onTextDocumentChanged (a_ts true) (tracking_a 0)) !! doc = Some r
    /\ dirty r = true.
Proof.
  destruct (X26_change_event_mirrors_the_dirty_flag (a_ts true) (tracking_a 0))
    as (_ & H).
  - apply mapConsistent_reachable.
    apply (reachable_step (ActiveTextEditorChanged (Some editor_a))
             (new 0 (Some editor_a)) (tracking_a 0));
      [apply reachable_new|reflexivity].
  - destruct H as (doc & r & Hm & Hr & Hd & _); [reflexivity|].
    exists doc, r. split; [exact Hm|]. split; [exact Hr|exact Hd].
Defined.

Lemma X27_records_are_kept_and_never_revived_witness :
  exists st',
    run [TextDocumentClosed (a_ts false); ActiveTextEditorChanged (Some editor_a)]
      (tracking_a 0) = Some st'
    /\ recordsKept (trackedDocuments (tracking_a 0)) (trackedDocuments st')
    /\ _documentMap st' !! KDocument (object (a_ts false)) = Some 1%nat.
Proof.
  eexists. split; [vm_compute; reflexivity|].
  split; [|vm_compute; reflexivity].
  refine (proj1 (X27_records_are_kept_and_never_revived
                   [TextDocumentClosed (a_ts false);
                    ActiveTextEditorChanged (Some editor_a)]
                   (tracking_a 0) _ _)).
  vm_compute. reflexivity.
Defined.

End DocumentTrackerChangeEventsExamples.

(* ===================================================================== *)
(** * Further properties of ResultsExplorer: the commands *)
(* ===================================================================== *)

Section ResultsExplorerCommands.
Import ResultsExplorer.

Lemma fromSaved_nodes_ids saved next :
  map node_object (fromSaved_nodes saved next)
  = seq next (length (fromSaved_nodes saved next)).
Proof.
  revert next. induction saved as [|[rp r1 r2|rp] saved IH]; intros next; cbn.
  - reflexivity.
  - now rewrite IH.
  - apply IH.
Qed.

Lemma fromSaved_nodes_kinds saved next :
  map kind (fromSaved_nodes saved next) = omap savedKind saved.
Proof.
  revert next. induction saved as [|[rp r1 r2|rp] saved IH]; intros next; cbn.
  - reflexivity.
  - now rewrite IH.
  - apply IH.
Qed.

Lemma savedNodes_fresh st :
  NoDup (map node_object (savedNodes st))
  /\ Forall (fun n => (nextNode st <= node_object n
                       < nextNode st + length (savedNodes st))%nat) (savedNodes st).
Proof.
  unfold savedNodes. destruct (savedResults st) as [saved|].
  - split.
    + rewrite fromSaved_nodes_ids. apply NoDup_seq.
    + apply List.Forall_forall. intros n Hn.
      assert (Hin : In (node_object n) (map node_object (fromSaved_nodes saved (nextNode st))))
        by (apply in_map, Hn).
      rewrite fromSaved_nodes_ids in Hin. apply in_seq in Hin. lia.
  - split; [constructor|constructor].
Qed.

Lemma clearResults_spec st :
  _roots st <> [] ->
  _roots (clearResults st) = savedNodes st
  /\ disposedNodes (clearResults st) = disposedNodes st ++ map node_object (_roots st)
  /\ nextNode (clearResults st) = (nextNode st + length (savedNodes st))%nat
  /\ workspaceState_keepResults (clearResults st) = workspaceState_keepResults st
  /\ savedResults (clearResults st) = savedResults st.
Proof.
  intros Hne. unfold clearResults, savedNodes.
  destruct (_roots st) as [|n ns] eqn:E; [congruence|].
  repeat split.
Qed.

Lemma explorer_ok_frame st st' :
  _roots st' = _roots st -> disposedNodes st' = disposedNodes st ->
  (nextNode st <= nextNode st')%nat ->
  explorer_ok st -> explorer_ok st'.
Proof.
  intros Hr Hd Hn ((Hnd & Hlt) & Hlive & Hdd & Hdlt).
  unfold explorer_ok, rootsDistinct, rootsLive. rewrite Hr, Hd.
  repeat split; try assumption.
  - eapply Forall_impl; [exact Hlt|]. cbn. intros. lia.
  - eapply Forall_impl; [exact Hdlt|]. cbn. intros. lia.
Qed.

Lemma explorer_ok_clearResults st : explorer_ok st -> explorer_ok (clearResults st).
Proof.
  intros Hok. destruct (_roots st) as [|n ns] eqn:E.
  { unfold clearResults. now rewrite E. }
  assert (Hne : _roots st <> []) by (rewrite E; discriminate).
  destruct (clearResults_spec st Hne) as (Hr & Hd & Hn & _ & _).
  destruct (savedNodes_fresh st) as (Hsnd & Hsr).
  destruct Hok as ((Hnd & Hlt) & Hlive & Hdd & Hdlt).
  unfold explorer_ok, rootsDistinct, rootsLive. rewrite Hr, Hd, Hn.
  repeat split.
  - exact Hsnd.
  - eapply Forall_impl; [exact Hsr|]. cbn. intros. lia.
  - apply List.Forall_forall. intros m Hm Hin.
    rewrite List.Forall_forall in Hsr. specialize (Hsr m Hm).
    apply in_app_or in Hin as [Hin|Hin].
    + rewrite List.Forall_forall in Hdlt.
      apply Hdlt in Hin. lia.
    + apply in_map_iff in Hin as (m' & Hid & Hm').
      rewrite List.Forall_forall in Hlt.
      apply Hlt in Hm'. lia.
  - apply NoDup_app. split; [exact Hdd|]. split; [|exact Hnd].
    intros i Hi Hi'. apply list_elem_of_In, in_map_iff in Hi' as (m & <- & Hm).
    rewrite List.Forall_forall in Hlive.
    apply (Hlive m Hm). now apply list_elem_of_In.
  - apply Forall_app. split.
    + eapply Forall_impl; [exact Hdlt|]. cbn. intros. lia.
    + apply List.Forall_forall. intros i Hi.
      apply in_map_iff in Hi as (m & <- & Hm).
      rewrite List.Forall_forall in Hlt. apply Hlt in Hm. lia.
Qed.

Lemma includes_In node nodes :
  includes node nodes = true <-> In (node_object node) (map node_object nodes).
Proof.
  unfold includes. rewrite existsb_exists. split.
  - intros (n & Hn & Heq). apply Nat.eqb_eq in Heq. rewrite <- Heq. now apply in_map.
  - intros Hin. apply in_map_iff in Hin as (n & Heq & Hn).
    exists n. split; [exact Hn|]. now apply Nat.eqb_eq.
Qed.

Lemma includes_fresh node st :
  Forall (fun n => (node_object n < nextNode st)%nat) (_roots st) ->
  (nextNode st <= node_object node)%nat ->
  includes node (_roots st) = false.
Proof.
  intros Hlt Hge. destruct (includes node (_roots st)) eqn:E; [|reflexivity].
  apply includes_In, in_map_iff in E as (n & Heq & Hn).
  rewrite List.Forall_forall in Hlt. apply Hlt in Hn. lia.
Qed.

(** What [addResults] does with a node that was just made. *)
Lemma addResults_new k st :
  explorer_ok st ->
  let n := mkNode (nextNode st) k in
  let st' := snd (addResults n (set_nextNode (S (nextNode st)) st)) in
  fst (addResults n (set_nextNode (S (nextNode st)) st)) = true
  /\ explorer_ok st'
  /\ (nextNode st < nextNode st')%nat
  /\ workspaceState_keepResults st' = workspaceState_keepResults st
  /\ savedResults st' = savedResults st
  /\ exists rest,
       _roots st' = n :: rest
       /\ (_roots st = [] \/ keepResults st = true -> rest = _roots st)
       /\ (_roots st <> [] -> keepResults st = false ->
           map kind rest = omap savedKind (default [] (savedResults st))
           /\ disposedNodes st' = disposedNodes st ++ map node_object (_roots st)).
Proof.
  intros Hok n st'. subst st'.
  set (st1 := set_nextNode (S (nextNode st)) st).
  assert (Hok1 : explorer_ok st1).
  { apply (explorer_ok_frame st); [reflexivity|reflexivity|cbn; lia|exact Hok]. }
  assert (Hin : includes n (_roots st1) = false).
  { change (_roots st1) with (_roots st). apply includes_fresh; [|cbn; lia].
    destruct Hok as ((_ & Hlt) & _). exact Hlt. }
  unfold addResults. rewrite Hin.
  set (st2 := if (0 <? length (_roots st1))%nat && negb (keepResults st1)
              then clearResults st1 else st1).
  assert (Hfresh : Forall (fun m => node_object m <> nextNode st) (_roots st2)
                   /\ ~ In (nextNode st) (disposedNodes st2)).
  { destruct Hok as ((_ & Hlt) & _ & _ & Hdlt).
    rewrite List.Forall_forall in Hlt, Hdlt.
    assert (Hold : Forall (fun m => node_object m <> nextNode st) (_roots st1)
                   /\ ~ In (nextNode st) (disposedNodes st1)).
    { split; [apply List.Forall_forall; intros m Hm; apply Hlt in Hm; lia|].
      intros Hd. apply Hdlt in Hd. lia. }
    subst st2.
    destruct ((0 <? length (_roots st1))%nat && negb (keepResults st1)) eqn:Ec;
      [|exact Hold].
    assert (Hne : _roots st1 <> []).
    { destruct (_roots st1); [discriminate|discriminate]. }
    destruct (clearResults_spec st1 Hne) as (Hr & Hd & _).
    destruct (savedNodes_fresh st1) as (_ & Hsr).
    rewrite Hr, Hd. split.
    - eapply Forall_impl; [exact Hsr|]. cbn. intros. lia.
    - intros Hin'. apply in_app_or in Hin' as [Hin'|Hin'].
      + apply Hdlt in Hin'. lia.
      + apply in_map_iff in Hin' as (m & Heq & Hm). apply Hlt in Hm. lia. }
  destruct Hfresh as (Hfr & Hfd).
  assert (Hok2 : explorer_ok st2
                 /\ (S (nextNode st) <= nextNode st2)%nat
                 /\ workspaceState_keepResults st2 = workspaceState_keepResults st
                 /\ savedResults st2 = savedResults st
                 /\ (_roots st = [] \/ keepResults st = true -> st2 = st1)
                 /\ (_roots st <> [] -> keepResults st = false ->
                     _roots st2 = savedNodes st1
                     /\ disposedNodes st2
                        = disposedNodes st ++ map node_object (_roots st))).
  { subst st2. change (keepResults st1) with (keepResults st).
    change (_roots st1) with (_roots st).
    destruct (_roots st) as [|m ms] eqn:E.
    - cbn [length Nat.ltb Nat.leb andb].
      split; [exact Hok1|]. split; [cbn; lia|].
      do 3 (split; [reflexivity|]). intros Hne. congruence.
    - destruct (keepResults st) eqn:Ek.
      + cbn [length Nat.ltb Nat.leb andb negb].
        split; [exact Hok1|]. split; [cbn; lia|].
        do 3 (split; [reflexivity|]). intros _ Hk. discriminate.
      + cbn [length Nat.ltb Nat.leb andb negb].
        assert (Hne : _roots st1 <> []) by (cbn; rewrite E; discriminate).
        destruct (clearResults_spec st1 Hne) as (Hr & Hd & Hn & Hk & Hs).
        split; [now apply explorer_ok_clearResults|].
        split; [rewrite Hn; cbn; lia|].
        split; [exact Hk|]. split; [exact Hs|].
        split; [intros [?|?]; congruence|].
        intros _ _. split; [exact Hr|]. rewrite Hd. cbn. now rewrite E. }
  destruct Hok2 as (((Hnd & Hlt) & Hlive & Hdd & Hdlt) & Hn2 & Hk2 & Hs2 & Hsame & Hclear).
  cbn [fst snd]. unfold refreshNode.
  cbn [_roots disposedNodes nextNode set_roots set_refreshedNodes set_treeDataChanged
       workspaceState_keepResults savedResults].
  split; [reflexivity|]. split; [|split; [lia|split; [exact Hk2|split; [exact Hs2|]]]].
  - unfold explorer_ok, rootsDistinct, rootsLive.
    cbn [_roots disposedNodes nextNode set_roots set_refreshedNodes set_treeDataChanged].
    repeat split.
    + cbn [map]. apply NoDup_cons. split; [|exact Hnd].
      intros Hin'. apply list_elem_of_In, in_map_iff in Hin' as (m & Heq & Hm).
      rewrite List.Forall_forall in Hfr. apply Hfr in Hm. cbn in Heq. lia.
    + constructor; [cbn; lia|exact Hlt].
    + constructor; [exact Hfd|exact Hlive].
    + exact Hdd.
    + exact Hdlt.
  - exists (_roots st2). split; [reflexivity|]. split.
    + intros H. now rewrite (Hsame H).
    + intros Hne Hk. destruct (Hclear Hne Hk) as (Hr & Hd).
      rewrite Hr, Hd. split; [|reflexivity].
      unfold savedNodes. change (savedResults st1) with (savedResults st).
      destruct (savedResults st); [apply fromSaved_nodes_kinds|reflexivity].
Qed.

Lemma findIndex_spec node nodes :
  NoDup (map node_object nodes) ->
  match findIndex node nodes with
  | Some i => delete i nodes = withoutNode node nodes
              /\ includes node nodes = true
  | None => withoutNode node nodes = nodes /\ includes node nodes = false
  end.
Proof.
  unfold withoutNode, includes.
  induction nodes as [|n ns IH]; intros Hnd; cbn [findIndex].
  - split; reflexivity.
  - cbn [map] in Hnd. apply NoDup_cons in Hnd as (Hn & Hnd).
    cbn [List.filter existsb].
    destruct (Nat.eqb_spec (node_object n) (node_object node)) as [Heq|Hne].
    + cbn [negb orb]. change (delete 0%nat (n :: ns)) with ns. split; [|reflexivity].
      symmetry. apply forallb_filter_id. apply forallb_forall. intros m Hm.
      apply negb_true_iff, Nat.eqb_neq. intros Hmn. apply Hn.
      apply list_elem_of_In, in_map_iff. exists m. split; [congruence|exact Hm].
    + cbn [negb orb]. specialize (IH Hnd).
      destruct (findIndex node ns) as [i|]; cbn [option_map].
      * destruct IH as (Hdel & Hinc).
        change (delete (S i) (n :: ns)) with (n :: delete i ns). rewrite Hdel.
        split; [reflexivity|exact Hinc].
      * destruct IH as (Hsame & Hinc). now rewrite Hsame.
Qed.

Lemma withoutNode_spec node nodes :
  includes node (withoutNode node nodes) = false
  /\ (forall m, In m (withoutNode node nodes)
                <-> In m nodes /\ node_object m <> node_object node).
Proof.
  split.
  - destruct (includes node (withoutNode node nodes)) eqn:E; [|reflexivity].
    unfold includes, withoutNode in E. apply existsb_exists in E as (m & Hm & Heq).
    apply filter_In in Hm as (_ & Hm). rewrite Heq in Hm. discriminate.
  - intros m. unfold withoutNode. rewrite filter_In, negb_true_iff, Nat.eqb_neq.
    reflexivity.
Qed.

Lemma explorer_ok_clearResultsNode node st :
  explorer_ok st -> explorer_ok (clearResultsNode node st).
Proof.
  intros Hok. pose proof Hok as ((Hnd & Hlt) & Hlive & Hdd & Hdlt).
  pose proof (findIndex_spec node (_roots st) Hnd) as Hspec.
  unfold clearResultsNode.
  destruct (findIndex node (_roots st)) as [i|]; [|exact Hok].
  destruct Hspec as (Hdel & Hinc).
  destruct (withoutNode_spec node (_roots st)) as (_ & Hmem).
  unfold explorer_ok, rootsDistinct, rootsLive, refresh.
  cbn [_roots disposedNodes nextNode set_roots set_disposedNodes set_treeDataChanged].
  rewrite Hdel. rewrite List.Forall_forall in Hlt, Hlive, Hdlt.
  apply includes_In, in_map_iff in Hinc as (m0 & Hid0 & Hm0).
  repeat split.
  - unfold withoutNode. clear -Hnd. induction (_roots st) as [|n ns IH]; [constructor|].
    cbn [map] in Hnd. apply NoDup_cons in Hnd as (Hn & Hnd). cbn [List.filter].
    destruct (negb _); [|now apply IH].
    cbn [map]. apply NoDup_cons. split; [|now apply IH].
    intros Hin. apply Hn. apply list_elem_of_In. apply list_elem_of_In in Hin.
    apply in_map_iff in Hin as (m & Heq & Hm). apply filter_In in Hm as (Hm & _).
    apply in_map_iff. now exists m.
  - apply List.Forall_forall. intros m Hm. apply Hmem in Hm as (Hm & _). now apply Hlt.
  - apply List.Forall_forall. intros m Hm Hin. apply Hmem in Hm as (Hm & Hne).
    apply in_app_or in Hin as [Hin|[Hin|[]]]; [now apply (Hlive m Hm)|congruence].
  - apply NoDup_app. split; [exact Hdd|]. split; [|apply NoDup_singleton].
    intros i' Hi' Hi''. apply list_elem_of_singleton in Hi''. subst i'.
    apply (Hlive m0 Hm0). rewrite Hid0. now apply list_elem_of_In.
  - apply List.Forall_forall. intros i' Hi'.
    apply in_app_or in Hi' as [Hi'|[<-|[]]]; [now apply Hdlt|].
    rewrite <- Hid0. now apply Hlt.
Qed.

Lemma explorer_ok_show k v :
  explorer_ok (explorer v) ->
  let '(n, st1) := newNode k (explorer v) in
  explorer_ok (explorer (showResults (mkView (snd (addResults n st1)) (hostCalls v)))).
Proof.
  intros Hok. unfold newNode, showResults, call. cbn [explorer].
  now destruct (addResults_new k (explorer v) Hok) as (_ & H & _).
Qed.

Lemma explorer_ok_getChildren children node st :
  explorer_ok st -> explorer_ok (snd (getChildren children node st)).
Proof.
  intros Hok. unfold getChildren.
  destruct (_roots st) eqn:E; [|destruct node; exact Hok].
  cbn [newNode snd].
  apply (explorer_ok_frame st); [reflexivity|reflexivity|cbn; lia|exact Hok].
Qed.

Lemma explorer_ok_fromSaved st :
  let '(nodes, st2) := fromSaved st in
  explorer_ok st -> explorer_ok (set_roots nodes st2).
Proof.
  unfold fromSaved. intros ((Hnd & Hlt) & Hlive & Hdd & Hdlt).
  destruct (savedNodes_fresh st) as (Hsnd & Hsr). unfold savedNodes in Hsnd, Hsr.
  rewrite List.Forall_forall in Hsr, Hdlt.
  unfold explorer_ok, rootsDistinct, rootsLive.
  cbn [_roots disposedNodes nextNode set_roots set_nextNode].
  repeat split.
  - exact Hsnd.
  - apply List.Forall_forall. intros m Hm. apply Hsr in Hm. lia.
  - apply List.Forall_forall. intros m Hm Hin. apply Hsr in Hm. apply Hdlt in Hin. lia.
  - exact Hdd.
  - apply List.Forall_forall. intros i Hi. apply Hdlt in Hi. lia.
Qed.

Lemma explorer_ok_onConfigurationChanged e v :
  explorer_ok (explorer v) -> explorer_ok (explorer (onConfigurationChanged e v)).
Proof.
  intros Hok. unfold onConfigurationChanged.
  destruct (negb (initializing e) && negb (changed_resultsExplorer e)
            && negb (changed_explorers e) && negb (changed_defaultGravatarsStyle e));
    [exact Hok|].
  set (v1 := if negb (initializing e) && negb (0 =? length (_roots (explorer v)))%nat
             then onExplorer refresh v else v).
  assert (Hok1 : explorer_ok (explorer v1)).
  { subst v1. destruct (negb (initializing e) && _); [|exact Hok].
    apply (explorer_ok_frame (explorer v)); [reflexivity|reflexivity|cbn; lia|exact Hok]. }
  destruct (initializing e); [|exact Hok1].
  destruct (0 <? length (config_savedResults e))%nat; [|exact Hok1].
  pose proof (explorer_ok_fromSaved (explorer v1)) as H.
  destruct (fromSaved (explorer v1)) as [nodes st2]. cbn. now apply H.
Qed.

Lemma explorer_ok_exec c v :
  explorer_ok (explorer v) -> explorer_ok (explorer (exec c v)).
Proof.
  intros Hok. destruct c; cbn [exec].
  - apply (explorer_ok_show (ComparisonResultsNode repoPath ref1 ref2) v Hok).
  - apply (explorer_ok_show (CommitResultsNode sha) v Hok).
  - apply (explorer_ok_show (CommitsResultsNode repoPath) v Hok).
  - cbn. now apply explorer_ok_clearResults.
  - apply (explorer_ok_frame (explorer v)); [reflexivity|reflexivity|cbn; lia|exact Hok].
  - apply (explorer_ok_frame (explorer v)); [reflexivity|reflexivity|cbn; lia|exact Hok].
  - apply (explorer_ok_frame (explorer v)); [reflexivity|reflexivity|cbn; lia|exact Hok].
  - cbn. now apply explorer_ok_clearResultsNode.
  - apply (explorer_ok_frame (explorer v)); [reflexivity|reflexivity|cbn; lia|exact Hok].
  - unfold swapComparision. destruct (kind node); try exact Hok.
    apply (explorer_ok_show (ComparisonResultsNode repoPath ref2 ref1) v Hok).
  - cbn [onExplorer explorer]. now apply explorer_ok_getChildren.
  - now apply explorer_ok_onConfigurationChanged.
  - apply (explorer_ok_frame (explorer v)); [reflexivity|reflexivity|cbn; lia|exact Hok].
Qed.

Lemma explorer_ok_reachable v : reachable v -> explorer_ok (explorer v).
Proof.
  induction 1 as [keep saved configSaved|c v _ IH].
  - unfold new. apply explorer_ok_onConfigurationChanged. cbn.
    repeat split; constructor.
  - now apply explorer_ok_exec.
Qed.

Lemma lastContext_set key b calls :
  lastContext key (calls ++ [SetCommandContext key b]) = Some b.
Proof.
  induction calls as [|h hs IH]; [now destruct key|].
  change ((h :: hs) ++ [SetCommandContext key b])
    with (h :: (hs ++ [SetCommandContext key b])).
  cbn [lastContext]. now rewrite IH.
Qed.

(** X19: in every view the explorer can reach, its roots are distinct
    objects, each made by an earlier [new]: no node is listed twice. *)
Theorem X19_roots_are_distinct_objects (v : View) :
  reachable v -> rootsDistinct (explorer v).
Proof. intros H. now destruct (explorer_ok_reachable v H). Qed.

(** X20: in every view the explorer can reach, no root has been disposed
    and no node was disposed twice. *)
Theorem X20_roots_are_never_disposed (v : View) :
  reachable v -> rootsLive (explorer v).
Proof. intros H. now destruct (explorer_ok_reachable v H). Qed.

(** X21: when the roots are distinct objects, [clearResultsNode] removes
    exactly the given node: the other roots stay, in their order, the node
    is not a root afterwards, it is disposed and the tree is refreshed; for
    a node that is no root nothing happens. *)
Theorem X21_clearResultsNode_removes_exactly_the_node
    (node : ExplorerNode) (st : State) :
  NoDup (map node_object (_roots st)) ->
  let st' := clearResultsNode node st in
  _roots st' = withoutNode node (_roots st)
  /\ includes node (_roots st') = false
  /\ (includes node (_roots st) = true ->
      disposedNodes st' = disposedNodes st ++ [node_object node]
      /\ treeDataChanged st' = treeDataChanged st ++ [None])
  /\ (includes node (_roots st) = false -> st' = st).
Proof.
  intros Hnd st'. subst st'.
  pose proof (findIndex_spec node (_roots st) Hnd) as Hspec.
  destruct (withoutNode_spec node (_roots st)) as (Hinc' & _).
  unfold clearResultsNode.
  destruct (findIndex node (_roots st)) as [i|].
  - destruct Hspec as (Hdel & Hinc).
    cbn [refresh _roots set_roots set_disposedNodes set_treeDataChanged
         disposedNodes treeDataChanged].
    rewrite Hdel. split; [reflexivity|]. split; [exact Hinc'|].
    split; [intros _; split; reflexivity|]. intros H. congruence.
  - destruct Hspec as (Hsame & Hinc). rewrite Hsame.
    split; [reflexivity|]. split; [exact Hinc|].
    split; [intros H; congruence|reflexivity].
Qed.

(** X22: in every view the explorer can reach, a command that shows
    results always adds: its new node becomes the first root and the host
    view is shown.  The other roots are the roots as they were when results
    are kept or there were none, and otherwise one new node for each saved
    comparison, the old roots being disposed. *)
Theorem X22_show_commands_always_add (c : Command) (k : NodeKind) (v : View) :
  reachable v ->
  shownNode c = Some k ->
  let st := explorer v in
  let st' := explorer (exec c v) in
  lastContext CommandContext_ResultsExplorer (hostCalls (exec c v)) = Some true
  /\ exists rest,
       _roots st' = mkNode (nextNode st) k :: rest
       /\ includes (mkNode (nextNode st) k) (_roots st) = false
       /\ (_roots st = [] \/ keepResults st = true -> rest = _roots st)
       /\ (_roots st <> [] -> keepResults st = false ->
           map kind rest = omap savedKind (default [] (savedResults st))
           /\ disposedNodes st' = disposedNodes st ++ map node_object (_roots st)).
Proof.
  intros Hr Hc st st'. subst st st'.
  pose proof (explorer_ok_reachable v Hr) as Hok.
  assert (Hshow : exec c v
                  = showResults
                      (mkView (snd (addResults (mkNode (nextNode (explorer v)) k)
                                      (set_nextNode (S (nextNode (explorer v)))
                                         (explorer v))))
                         (hostCalls v))).
  { destruct c; cbn in Hc; try discriminate; try (injection Hc as <-; reflexivity).
    cbn [exec]. unfold swapComparision.
    destruct (kind node); try discriminate. injection Hc as <-. reflexivity. }
  rewrite Hshow.
  destruct (addResults_new k (explorer v) Hok) as (_ & _ & _ & _ & _ & rest & H1 & H2 & H3).
  split.
  - unfold showResults, call. cbn [hostCalls]. apply lastContext_set.
  - exists rest. unfold showResults, call. cbn [explorer].
    split; [exact H1|]. split; [|split; [exact H2|exact H3]].
    apply includes_fresh; [|cbn; lia]. now destruct Hok as ((_ & Hlt) & _).
Qed.

Lemma swapComparision_spec node repoPath ref1 ref2 v :
  explorer_ok (explorer v) ->
  kind node = ComparisonResultsNode repoPath ref1 ref2 ->
  explorer_ok (explorer (swapComparision node v))
  /\ (nextNode (explorer v) < nextNode (explorer (swapComparision node v)))%nat
  /\ exists rest,
       _roots (explorer (swapComparision node v))
       = mkNode (nextNode (explorer v)) (ComparisonResultsNode repoPath ref2 ref1) :: rest.
Proof.
  intros Hok Hk. unfold swapComparision. rewrite Hk.
  unfold showComparisonInResults, newNode, showResults, call. cbn [explorer].
  destruct (addResults_new (ComparisonResultsNode repoPath ref2 ref1) (explorer v) Hok)
    as (_ & Hok' & Hn & _ & _ & rest & Hroots & _).
  split; [exact Hok'|]. split; [exact Hn|]. now exists rest.
Qed.

(** X23: swapping a comparison shows a new node with the two refs
    exchanged, and swapping that one shows a third node, which compares the
    refs in the original order and is another object than the second; when
    the node swapped first was a root, neither new node is that node.  A
    node that is no comparison is left alone. *)
Theorem X23_swapComparision_twice (node : ExplorerNode) (v : View) :
  reachable v ->
  (forall repoPath ref1 ref2,
      kind node = ComparisonResultsNode repoPath ref1 ref2 ->
      exists n1 rest1 n2 rest2,
        _roots (explorer (swapComparision node v)) = n1 :: rest1
        /\ kind n1 = ComparisonResultsNode repoPath ref2 ref1
        /\ _roots (explorer (swapComparision n1 (swapComparision node v))) = n2 :: rest2
        /\ kind n2 = ComparisonResultsNode repoPath ref1 ref2
        /\ node_object n2 <> node_object n1
        /\ (includes node (_roots (explorer v)) = true ->
            node_object n1 <> node_object node
            /\ node_object n2 <> node_object node))
  /\ ((forall repoPath ref1 ref2,
          kind node <> ComparisonResultsNode repoPath ref1 ref2) ->
      swapComparision node v = v).
Proof.
  intros Hr. split.
  - intros repoPath ref1 ref2 Hk.
    pose proof (explorer_ok_reachable v Hr) as Hok.
    destruct (swapComparision_spec node repoPath ref1 ref2 v Hok Hk)
      as (Hok1 & Hn1 & rest1 & Hroots1).
    set (n1 := mkNode (nextNode (explorer v)) (ComparisonResultsNode repoPath ref2 ref1))
      in *.
    destruct (swapComparision_spec n1 repoPath ref2 ref1 (swapComparision node v)
                Hok1 eq_refl) as (_ & _ & rest2 & Hroots2).
    exists n1, rest1,
      (mkNode (nextNode (explorer (swapComparision node v)))
         (ComparisonResultsNode repoPath ref1 ref2)), rest2.
    split; [exact Hroots1|]. split; [reflexivity|].
    split; [exact Hroots2|]. split; [reflexivity|].
    cbn [node_object n1]. split; [lia|].
    intros Hinc. apply includes_In, in_map_iff in Hinc as (m & Hid & Hm).
    destruct Hok as ((_ & Hlt) & _). rewrite List.Forall_forall in Hlt.
    apply Hlt in Hm. lia.
  - intros Hk. unfold swapComparision.
    destruct (kind node) eqn:E; try reflexivity. now destruct (Hk repoPath ref1 ref2).
Qed.

(** X24: a new explorer shows one comparison for each saved result of type
    comparison, in the saved order and with new objects, and none for a
    saved search, when the settings hold saved results; it shows nothing
    otherwise.  In both cases it registers itself as the tree data
    provider last, and reports the keep-results setting to the host. *)
Theorem X24_new_explorer_shows_saved_comparisons
    (keep : option bool) (saved : option (list SavedResult))
    (configSaved : list SavedResult) :
  let v := new keep saved configSaved in
  (configSaved <> [] ->
     map kind (_roots (explorer v)) = omap savedKind (default [] saved)
     /\ map node_object (_roots (explorer v)) = seq 0 (length (_roots (explorer v)))
     /\ nextNode (explorer v) = length (_roots (explorer v))
     /\ lastContext CommandContext_ResultsExplorer (hostCalls v) = Some true)
  /\ (configSaved = [] ->
      _roots (explorer v) = []
      /\ lastContext CommandContext_ResultsExplorer (hostCalls v) = None)
  /\ last (hostCalls v) = Some (RegisterTreeDataProvider "gitlens.resultsExplorer")
  /\ lastContext CommandContext_ResultsExplorerKeepResults (hostCalls v)
     = Some (default false keep)
  /\ disposedNodes (explorer v) = []
  /\ treeDataChanged (explorer v) = [].
Proof.
  intros v. subst v. unfold new, onConfigurationChanged.
  cbn [initializing negb andb config_savedResults].
  destruct configSaved as [|r rs].
  - cbn. split; [congruence|]. split; [intros _; split; reflexivity|].
    split; [reflexivity|]. split; [now destruct keep|]. split; reflexivity.
  - cbn [length Nat.ltb Nat.leb]. unfold fromSaved, call.
    cbn [explorer hostCalls savedResults nextNode set_roots set_nextNode _roots
         disposedNodes treeDataChanged].
    split; [intros _|split; [discriminate|]].
    + destruct saved as [saved|]; cbn [default].
      * split; [apply fromSaved_nodes_kinds|]. split; [apply fromSaved_nodes_ids|].
        split; reflexivity.
      * repeat split.
    + split; [reflexivity|]. split; [now destruct keep|]. split; reflexivity.
Qed.

Lemma X19_roots_are_distinct_objects_witness :
  rootsDistinct (explorer (exec (ShowCommitInResults "abc") view_saved)).
Proof.
  apply (X19_roots_are_distinct_objects (exec (ShowCommitInResults "abc") view_saved)).
  apply reachable_exec. apply reachable_new.
Defined.

Lemma X20_roots_are_never_disposed_witness :
  rootsLive (explorer (exec (ClearResultsNode node_saved) view_saved)).
Proof.
  apply (X20_roots_are_never_disposed (exec (ClearResultsNode node_saved) view_saved)).
  apply reachable_exec. apply reachable_new.
Defined.

Lemma X21_clearResultsNode_removes_exactly_the_node_witness :
  _roots (clearResultsNode (mkNode 0 (CommitResultsNode "abc")) explorer_example)
  = [mkNode 1 (CommitsResultsNode "/repo")]
  /\ disposedNodes (clearResultsNode (mkNode 0 (CommitResultsNode "abc")) explorer_example)
     = [0%nat].
Proof.
  destruct (X21_clearResultsNode_removes_exactly_the_node
              (mkNode 0 (CommitResultsNode "abc")) explorer_example)
    as (Hroots & _ & Hin & _).
  - cbn. apply NoDup_cons. split; [|apply NoDup_singleton].
    intros H. apply list_elem_of_singleton in H. discriminate.
  - split; [exact Hroots|]. destruct Hin as [Hd _]; [reflexivity|exact Hd].
Defined.

Lemma X22_show_commands_always_add_witness :
  exists rest,
    _roots (explorer (exec (ShowCommitInResults "abc") view_saved))
    = mkNode 1 (CommitResultsNode "abc") :: rest
    /\ map kind rest = [ComparisonResultsNode "/repo" "master" "develop"]
    /\ disposedNodes (explorer (exec (ShowCommitInResults "abc") view_saved)) = [0%nat].
Proof.
  destruct (X22_show_commands_always_add (ShowCommitInResults "abc")
              (CommitResultsNode "abc") view_saved)
    as (_ & rest & Hroots & _ & _ & Hcleared).
  - apply reachable_new.
  - reflexivity.
  - exists rest. split; [exact Hroots|].
    destruct Hcleared as [Hk Hd]; [discriminate|reflexivity|].
    split; [exact Hk|exact Hd].
Defined.

Lemma X23_swapComparision_twice_witness :
  exists n1 rest1 n2 rest2,
    _roots (explorer (swapComparision node_saved view_saved)) = n1 :: rest1
    /\ kind n1 = ComparisonResultsNode "/repo" "develop" "master"
    /\ _roots (explorer (swapComparision n1 (swapComparision node_saved view_saved)))
       = n2 :: rest2
    /\ kind n2 = ComparisonResultsNode "/repo" "master" "develop"
    /\ node_object n2 <> node_object node_saved.
Proof.
  destruct (X23_swapComparision_twice node_saved view_saved) as [H _].
  - apply reachable_new.
  - destruct (H "/repo" "master" "develop" eq_refl)
      as (n1 & rest1 & n2 & rest2 & H1 & H2 & H3 & H4 & _ & H5).
    exists n1, rest1, n2, rest2.
    split; [exact H1|]. split; [exact H2|]. split; [exact H3|]. split; [exact H4|].
    destruct H5 as [_ H5]; [reflexivity|exact H5].
Defined.

End ResultsExplorerCommands.

(* ===================================================================== *)
(** * Properties of RecentChangesAnnotationProvider *)
(* ===================================================================== *)

Section RecentChangesProperties.
Import RecentChangesAnnotationProvider.

Lemma imap_decorate_cons cfg commit start l ls :
  concat (imap (fun i l0 =>
                  if String.eqb (state l0) "unchanged" then []
                  else lineDecorations cfg commit (start - 1 + Z.of_nat i) l0)
               (l :: ls))
  = (if String.eqb (state l) "unchanged" then []
     else lineDecorations cfg commit (start - 1) l)
    ++ concat (imap (fun i l0 =>
                       if String.eqb (state l0) "unchanged" then []
                       else lineDecorations cfg commit (start + 1 - 1 + Z.of_nat i) l0)
                    ls).
Proof.
  cbn [imap concat]. replace (start - 1 + Z.of_nat 0) with (start - 1) by lia.
  f_equal. f_equal. apply imap_ext. intros i x _. cbn.
  replace (start - 1 + Z.of_nat (S i)) with (start + 1 - 1 + Z.of_nat i) by lia.
  reflexivity.
Qed.

Lemma chunkLoop_spec cfg commit count ls pushed :
  chunkLoop cfg commit count ls pushed
  = pushed ++ chunkDecorations cfg commit (count + 2) ls.
Proof.
  unfold chunkDecorations.
  revert count pushed. induction ls as [|l ls IH]; intros count pushed.
  - cbn. now rewrite app_nil_r.
  - cbn [chunkLoop currentLines List.filter].
    destruct (line l) as [s|]; [|apply IH].
    rewrite imap_decorate_cons.
    replace (count + 2 - 1) with (count + 1) by lia.
    replace (count + 2 + 1 - 1) with (count + 1 + 2 - 1) by lia.
    destruct (String.eqb (state l) "unchanged"); rewrite IH.
    + reflexivity.
    + now rewrite <- app_assoc.
Qed.

Lemma chunksLoop_spec cfg commit chunks pushed :
  chunksLoop cfg commit chunks pushed
  = pushed ++ concat (map (fun chunk =>
                             chunkDecorations cfg commit
                               (currentPosition_start chunk) (lines chunk))
                          chunks).
Proof.
  revert pushed. induction chunks as [|chunk chunks IH]; intros pushed; cbn.
  - now rewrite app_nil_r.
  - rewrite IH, chunkLoop_spec.
    replace (currentPosition_start chunk - 2 + 2) with (currentPosition_start chunk)
      by lia.
    now rewrite <- app_assoc.
Qed.

(** X28: the two loops of [onProvideAnnotation] decorate, in each chunk,
    the lines that the current version has and that are not unchanged, the
    [i]-th of the lines it has at line [start - 1 + i] of the editor: a
    line that the current version does not have is neither decorated nor
    counted.  The chunks are decorated one after the other. *)
Theorem X28_decorated_lines_follow_the_current_lines
    (cfg : Config) (commit : string) (chunks : list GitDiffChunk)
    (pushed : list DecorationOptions) :
  chunksLoop cfg commit chunks pushed
  = pushed ++ concat (map (fun chunk =>
                             chunkDecorations cfg commit
                               (currentPosition_start chunk) (lines chunk))
                          chunks).
Proof. apply chunksLoop_spec. Qed.

Lemma lineDecorations_spec cfg commit count l :
  length (lineDecorations cfg commit count l) = perLine cfg
  /\ Forall (fun dec => range_line dec = count) (lineDecorations cfg commit count l).
Proof.
  unfold lineDecorations, perLine.
  destruct (hovers_enabled cfg && hovers_annotations_enabled cfg
            && hovers_annotations_details cfg); cbn; split; try reflexivity;
    repeat constructor.
Qed.

Lemma chunkDecorations_spec cfg commit start ls :
  length (chunkDecorations cfg commit start ls)
  = (perLine cfg * length (changedLines ls))%nat
  /\ Forall (fun dec => start - 1 <= range_line dec
                        < start - 1 + Z.of_nat (length (currentLines ls)))
            (chunkDecorations cfg commit start ls).
Proof.
  unfold chunkDecorations, changedLines.
  generalize (currentLines ls). clear ls. intros ls.
  revert start. induction ls as [|l ls IH]; intros start.
  - cbn. split; [lia|constructor].
  - rewrite imap_decorate_cons. cbn [List.filter length].
    destruct (IH (start + 1)) as (Hlen & Hrange).
    assert (Hrange' :
      Forall (fun dec => start - 1 <= range_line dec
                         < start - 1 + Z.of_nat (S (length ls)))
        (concat (imap (fun i l0 =>
                         if String.eqb (state l0) "unchanged" then []
                         else lineDecorations cfg commit
                                (start + 1 - 1 + Z.of_nat i) l0) ls))).
    { eapply Forall_impl; [exact Hrange|]. cbn. intros. lia. }
    destruct (String.eqb (state l) "unchanged"); cbn [negb app].
    + split; [exact Hlen|exact Hrange'].
    + destruct (lineDecorations_spec cfg commit (start - 1) l) as (Hl & Hr).
      split.
      * rewrite length_app, Hl, Hlen. cbn [length]. lia.
      * apply Forall_app. split; [|exact Hrange'].
        eapply Forall_impl; [exact Hr|]. cbn. intros. lia.
Qed.

(** X29: [onProvideAnnotation] returns false and sets no decoration when
    there is no recent commit or no diff.  Otherwise it returns true and
    sets the decorations once, all of them at once; their number is the
    number of changed lines of the current version, twice that when the
    details hover is on; and each lies within the lines that its chunk
    covers in the current version. *)
Theorem X29_onProvideAnnotation_decorates_changed_lines_once
    (cfg : Config) (commit : option string) (diff : option (list GitDiffChunk))
    (p : Provider) :
  let result := onProvideAnnotation cfg commit diff p in
  annotationType_isRecentChanges (snd result) = true
  /\ (commit = None \/ diff = None ->
      fst result = false
      /\ setDecorations (snd result) = setDecorations p
      /\ decorations (snd result) = decorations p)
  /\ (forall c chunks,
        commit = Some c -> diff = Some chunks ->
        fst result = true
        /\ setDecorations (snd result) = setDecorations p ++ [decorations (snd result)]
        /\ length (decorations (snd result))
           = (perLine cfg
              * length (concat (map (fun chunk => changedLines (lines chunk)) chunks)))%nat
        /\ Forall (fun dec =>
                     exists chunk,
                       In chunk chunks
                       /\ currentPosition_start chunk - 1 <= range_line dec
                          < currentPosition_start chunk - 1
                            + Z.of_nat (length (currentLines (lines chunk))))
                  (decorations (snd result))).
Proof.
  intros result. subst result. unfold onProvideAnnotation. split; [|split].
  - destruct commit; [destruct diff|]; reflexivity.
  - intros [-> | ->]; [|destruct commit]; repeat split.
  - intros c chunks -> ->. cbn [fst snd decorations setDecorations].
    split; [reflexivity|]. split; [reflexivity|].
    rewrite chunksLoop_spec. cbn [app].
    induction chunks as [|chunk chunks IH]; cbn [map concat].
    + split; [cbn; lia|constructor].
    + destruct IH as (Hlen & Hrange).
      destruct (chunkDecorations_spec cfg c (currentPosition_start chunk) (lines chunk))
        as (Hl & Hr).
      split.
      * rewrite !length_app, Hl, Hlen. lia.
      * apply Forall_app. split.
        -- eapply Forall_impl; [exact Hr|]. cbn. intros dec Hdec.
           exists chunk. split; [now left|exact Hdec].
        -- eapply Forall_impl; [exact Hrange|]. cbn. intros dec (ch & Hin & Hdec).
           exists ch. split; [now right|exact Hdec].
Qed.

End RecentChangesProperties.

(* ===================================================================== *)
(** * Properties of BranchNode *)
(* ===================================================================== *)

Section BranchNodeProperties.
Import BranchNode.

Context (getName getBasename : GitBranch -> string) (isValid : string -> bool)
  (GlyphChars_Space GlyphChars_ArrowLeftRight GlyphChars_Dash GlyphChars_Check : string)
  (Number_toString : Z -> string) (asAbsolutePath : string -> string).

Lemma string_append_assoc (a b c : string) :
  ((a ++ b) ++ c = a ++ (b ++ c))%string.
Proof.
  induction a as [|x a IH]; [reflexivity|].
  change (String x ((a ++ b) ++ c) = String x (a ++ (b ++ c)))%string.
  now rewrite IH.
Qed.

(** X30: for a local branch whose tracked branch is shown, the three things
    the tree item says about tracking agree: the context value says that
    the branch tracks another, and the colour of the icon goes with the last
    line of the tooltip: no colour with "up-to-date", green with "ahead",
    red with "behind", and yellow with both, "ahead" first. *)
Theorem X30_icon_tooltip_and_context_value_agree
    (cfg : Config) (branch : GitBranch) (t : string) :
  remote branch = false ->
  showTrackingBranch cfg = true ->
  tracking branch = Some t ->
  t <> ""%string ->
  let item := getTreeItem getName getBasename isValid GlyphChars_Space
                GlyphChars_ArrowLeftRight GlyphChars_Dash GlyphChars_Check
                Number_toString asAbsolutePath cfg branch in
  withTracking (contextValue item) = true
  /\ isCurrent (contextValue item) = current branch
  /\ iconPath_dark item
     = asAbsolutePath ("images/dark/icon-branch" ++ iconSuffix branch ++ ".svg")%string
  /\ match nonzero (state_ahead branch), nonzero (state_behind branch) with
     | false, false =>
         iconSuffix branch = ""%string
         /\ exists p, tooltip item = (p ++ newline ++ "up-to-date")%string
     | true, false =>
         iconSuffix branch = "-green"%string
         /\ exists p, tooltip item = (p ++ " ahead")%string
     | false, true =>
         iconSuffix branch = "-red"%string
         /\ exists p, tooltip item = (p ++ " behind")%string
     | true, true =>
         iconSuffix branch = "-yellow"%string
         /\ exists p q, tooltip item = (p ++ " ahead" ++ q ++ " behind")%string
     end.
Proof.
  intros Hremote Hshow Htracking Ht item. subst item.
  assert (Htruthy : truthy (tracking branch) = true).
  { rewrite Htracking. cbn. now destruct (String.eqb_spec t ""). }
  unfold getTreeItem, iconSuffix. rewrite Htruthy, Hremote, Hshow, Htracking.
  cbn [contextValue tooltip iconPath_dark].
  split; [now destruct (current branch)|].
  split; [now destruct (current branch)|].
  split; [reflexivity|].
  destruct (nonzero (state_ahead branch)), (nonzero (state_behind branch));
    cbn [andb orb]; (split; [reflexivity|]).
  - match goal with
    | |- exists p q, ((?T ++ ?n1 ++ ?a ++ ?s1 ++ ?c1 ++ " ahead")
                      ++ ?n2 ++ ?b ++ ?s2 ++ ?c2 ++ " behind")%string = _ =>
        exists (T ++ n1 ++ a ++ s1 ++ c1)%string, (n2 ++ b ++ s2 ++ c2)%string
    end.
    now rewrite !string_append_assoc.
  - match goal with
    | |- exists p, (?T ++ ?n1 ++ ?a ++ ?s1 ++ ?c1 ++ " ahead")%string = _ =>
        exists (T ++ n1 ++ a ++ s1 ++ c1)%string
    end.
    now rewrite !string_append_assoc.
  - match goal with
    | |- exists p, (?T ++ ?n1 ++ ?a ++ ?s1 ++ ?c1 ++ " behind")%string = _ =>
        exists (T ++ n1 ++ a ++ s1 ++ c1)%string
    end.
    now rewrite !string_append_assoc.
  - eexists. reflexivity.
Qed.

End BranchNodeProperties.

Section BranchNodeExamples.
Import BranchNode.

Lemma X30_icon_tooltip_and_context_value_agree_witness :
  iconSuffix feature_branch = "-green"%string
  /\ exists p,
       tooltip (getTreeItem name name (fun _ => true) " " "<->" "-" "v"
                  (fun _ => "2"%string) (fun s => s) config_tree feature_branch)
       = (p ++ " ahead")%string.
Proof.
  destruct (X30_icon_tooltip_and_context_value_agree name name (fun _ => true)
              " " "<->" "-" "v" (fun _ => "2"%string) (fun s => s)
              config_tree feature_branch "origin/feature/x")
    as (_ & _ & _ & H); [reflexivity|reflexivity|reflexivity|discriminate|].
  exact H.
Defined.

End BranchNodeExamples.
